(** * Earthquake catalogue fetcher and plotter: a shallow embedding

    The two scripts of the repository are embedded as Rocq functions:

    - [DataDownloader.py] (the fetcher): one HTTP request per time window and
      region box, concatenation of the returned texts, parsing, removal of
      duplicates, region classification, sort and write;
    - [checkpoint.py] (the plotter): the column clean-ups made before the
      plots and the hover configuration of the interactive map.

    Python floats are binary64 numbers and are embedded as primitive floats,
    so the box constants below are the very numbers the interpreter compares
    with.  Strings are [string]; a script is a computation over a world made
    of a file system and a trace of prints, sleeps and requests, and it
    either returns or raises.

    A frame read from a text is a list of rows.  The cells of its latitude,
    longitude and mag columns are numbers, or texts where pandas could not
    read the column as numbers; the fetcher's functions are written once for
    both kinds of frame, and what is proved of frames of numbers is stated
    on [row], what holds of every frame on [row_of C] or [raw_row]. *)

From Stdlib Require Import List String Ascii Bool Arith ZArith NArith Lia.
From Stdlib Require Import Floats Sorted Permutation.
Import ListNotations.

Set Warnings "-inexact-float".

Local Open Scope string_scope.
Local Open Scope list_scope.

(* ===================================================================== *)
(** * Part I: definitions *)
(* ===================================================================== *)

(** ** Python strings: [str.split('\n')] and ['\n'.join] *)

Definition newline : ascii := "010"%char.

Definition is_newline (c : ascii) : bool := Ascii.eqb c newline.

(** [s.split('\n')]: the pieces of [s] between line feeds; never empty, and
    a trailing line feed gives a last empty piece. *)
Fixpoint split_nl (s : string) : list string :=
  match s with
  | EmptyString => [EmptyString]
  | String c rest =>
      if is_newline c then EmptyString :: split_nl rest
      else match split_nl rest with
           | [] => [String c EmptyString]
           | piece :: pieces => String c piece :: pieces
           end
  end.

(** ['\n'.join(pieces)] *)
Fixpoint join_nl (pieces : list string) : string :=
  match pieces with
  | [] => EmptyString
  | [piece] => piece
  | piece :: more => piece ++ String newline (join_nl more)
  end.

(** A piece with no line feed in it. *)
Fixpoint no_newline (s : string) : bool :=
  match s with
  | EmptyString => true
  | String c rest => negb (is_newline c) && no_newline rest
  end.

(** Truth value of a [str]-or-[None] in an [if]: [None] and the empty string
    are false. *)
Definition truthy (v : option string) : bool :=
  match v with
  | None => false
  | Some EmptyString => false
  | Some (String _ _) => true
  end.

(** ** Exceptions, the world and the script monad *)

(** An instance of a subclass of [Exception]: its class name and message. *)
Record py_exception : Type := PyExc { exc_class : string; exc_message : string }.

Definition KeyError (key : string) : py_exception := PyExc "KeyError" key.
Definition TypeError (msg : string) : py_exception := PyExc "TypeError" msg.
Definition ValueError (msg : string) : py_exception := PyExc "ValueError" msg.
Definition FileNotFoundError (path : string) : py_exception :=
  PyExc "FileNotFoundError" path.
Definition EmptyDataError : py_exception :=
  PyExc "EmptyDataError" "No columns to parse from file".
Definition ParserError (line : string) : py_exception :=
  PyExc "ParserError" line.

(** The query parameters of one catalogue request (the [params] dict). *)
Record query : Type := Query {
  q_format : string;
  q_starttime : string;
  q_endtime : string;
  q_minmagnitude : float;
  q_minlatitude : float;
  q_maxlatitude : float;
  q_minlongitude : float;
  q_maxlongitude : float;
  q_orderby : string
}.

(** What [requests.get] does: a response with a status code and a body, or
    an exception of the transport. *)
Inductive http_result : Type :=
| Response (status_code : Z) (text : string)
| Raises (e : py_exception).

(** A field of a column of numbers as [pandas.read_csv] leaves it: a number
    (NaN for an empty field) or, in a column that could not be read as
    numbers, the text of the field. *)
Inductive value : Type :=
| Number (x : float)
| Text (s : string).

(** The cells the fetcher's functions are run on: [float] in a frame whose
    latitude, longitude and mag columns were read as numbers, [value] in any
    frame.  A cell of numbers is read as the number it is. *)
Class Cell (C : Type) : Type := { value_of : C -> value }.

#[global] Instance value_cell : Cell value := {| value_of := fun v => v |}.
#[global] Instance float_cell : Cell float := {| value_of := Number |}.

(** An earthquake record as [pandas.read_csv] holds it: the four key columns
    and the remaining fields of the line.  A missing [time] is [None]; a
    missing number is NaN. *)
Record row_of (C : Type) : Type := Row {
  time : option string;
  latitude : C;
  longitude : C;
  mag : C;
  other_fields : list string
}.
Arguments Row {C} time (latitude longitude mag)%_float other_fields.
Arguments time {C} r.
Arguments latitude {C} r.
Arguments longitude {C} r.
Arguments mag {C} r.
Arguments other_fields {C} r.

(** A record of a frame of numbers, and a record of any frame. *)
Abbreviation row := (row_of float).
Abbreviation raw_row := (row_of value).

(** A record with the derived [region] column. *)
Record labelled_of (C : Type) : Type := Labelled {
  event : row_of C;
  region : string
}.
Arguments Labelled {C} event region.
Arguments event {C} l.
Arguments region {C} l.

Abbreviation labelled := (labelled_of float).
Abbreviation raw_labelled := (labelled_of value).

(** The lines the fetcher prints, one constructor per [print] statement up
    to the closing summary, which is printed in three parts the script can
    fail between: [MsgSuccess] is the banner and the total (lines 194-197),
    [MsgDateRange] the date range (line 198), and [MsgSummary] the magnitude
    range, the breakdown by region and the file name (lines 199-203). *)
Inductive message : Type :=
| MsgDownloading (periods : nat)
| MsgRegions
| MsgRule
| MsgPeriod (i n : nat) (start_date end_date : string)
| MsgRequest (region_name start_date end_date : string)
| MsgCount (line_count : Z)
| MsgErrorStatus (status_code : Z)
| MsgException (e : py_exception)
| MsgProcessing
| MsgRawTotal (n : nat)
| MsgAfterDedup (n : nat)
| MsgSuccess (n : nat)
| MsgDateRange (first last : option string)
| MsgSummary (df : list raw_labelled) (path : string)
| MsgNoData.

Inductive trace_event : Type :=
| Print (m : message)
| Sleep (seconds : Z)
| Get (url : string) (params : query) (timeout : Z).

Record world : Type := World {
  files : list (string * string);
  trace : list trace_event
}.

Inductive result (A : Type) : Type :=
| Returned (a : A)
| Raised (e : py_exception).
Arguments Returned {A} a.
Arguments Raised {A} e.

(** A script step: from a world to a world, returning or raising. *)
Definition M (A : Type) : Type := world -> world * result A.

Definition ret {A} (a : A) : M A := fun w => (w, Returned a).

Definition raise {A} (e : py_exception) : M A := fun w => (w, Raised e).

Definition bind {A B} (c : M A) (k : A -> M B) : M B :=
  fun w =>
    match c w with
    | (w', Returned a) => k a w'
    | (w', Raised e) => (w', Raised e)
    end.

(** [try: body / except Exception as e: handler e] *)
Definition try_except {A} (body : M A) (handler : py_exception -> M A) : M A :=
  fun w =>
    match body w with
    | (w', Returned a) => (w', Returned a)
    | (w', Raised e) => handler e w'
    end.

Declare Scope script_scope.
Delimit Scope script_scope with script.
Notation "x <- c ;; k" := (bind c (fun x => k))
  (at level 61, c at next level, right associativity) : script_scope.
Notation "c ;; k" := (bind c (fun _ => k))
  (at level 61, right associativity) : script_scope.
Local Open Scope script_scope.

Definition emit (ev : trace_event) : M unit :=
  fun w => (World (files w) (trace w ++ [ev]), Returned tt).

Definition print (m : message) : M unit := emit (Print m).

Definition sleep (seconds : Z) : M unit := emit (Sleep seconds).

Fixpoint lookup {V} (key : string) (d : list (string * V)) : option V :=
  match d with
  | [] => None
  | (k, v) :: rest => if String.eqb k key then Some v else lookup key rest
  end.

(** Writing a path replaces the file there or creates it. *)
Fixpoint store {V} (key : string) (v : V) (d : list (string * V))
  : list (string * V) :=
  match d with
  | [] => [(key, v)]
  | (k, v') :: rest =>
      if String.eqb k key then (k, v) :: rest else (k, v') :: store key v rest
  end.

Fixpoint discard {V} (key : string) (d : list (string * V))
  : list (string * V) :=
  match d with
  | [] => []
  | (k, v) :: rest =>
      if String.eqb k key then discard key rest else (k, v) :: discard key rest
  end.

Definition write_file (path : string) (c : string) : M unit :=
  fun w => (World (store path c (files w)) (trace w), Returned tt).

Definition read_file (path : string) : M string :=
  fun w =>
    match lookup path (files w) with
    | Some c => (w, Returned c)
    | None => (w, Raised (FileNotFoundError path))
    end.

(** [os.remove(path)] *)
Definition os_remove (path : string) : M unit :=
  fun w =>
    match lookup path (files w) with
    | Some _ => (World (discard path (files w)) (trace w), Returned tt)
    | None => (w, Raised (FileNotFoundError path))
    end.

(** [d[key]] on a dict with string keys. *)
Definition getitem {V} (d : list (string * V)) (key : string) : M V :=
  match lookup key d with
  | Some v => ret v
  | None => raise (KeyError key)
  end.

(** ** DataDownloader.py *)

(** [REGIONS]: the six boxes, in the order the dict lists (and iterates)
    them. *)
Definition REGIONS : list (string * list (string * float)) :=
  [ ("Conterminous_US",
      [ ("lat_min", 24.6%float); ("lat_max", 50.0%float);
        ("lon_min", (-125.0)%float); ("lon_max", (-65.0)%float) ]);
    ("Alaska_west_dateline",
      [ ("lat_min", 50.0%float); ("lat_max", 72.0%float);
        ("lon_min", (-180.0)%float); ("lon_max", (-169.5)%float) ]);
    ("Alaska_main",
      [ ("lat_min", 54.0%float); ("lat_max", 72.0%float);
        ("lon_min", (-169.5)%float); ("lon_max", (-129.0)%float) ]);
    ("Alaska_east_dateline",
      [ ("lat_min", 50.0%float); ("lat_max", 72.0%float);
        ("lon_min", 170.0%float); ("lon_max", 180.0%float) ]);
    ("Hawaii",
      [ ("lat_min", 18.5%float); ("lat_max", 22.5%float);
        ("lon_min", (-161.0)%float); ("lon_max", (-154.5)%float) ]);
    ("Puerto_Rico",
      [ ("lat_min", 17.5%float); ("lat_max", 18.8%float);
        ("lon_min", (-67.5)%float); ("lon_max", (-64.0)%float) ]) ].

Definition date_ranges : list (string * string) :=
  [ ("1925-01-01", "1934-12-31");
    ("1935-01-01", "1944-12-31");
    ("1945-01-01", "1954-12-31");
    ("1955-01-01", "1964-12-31");
    ("1965-01-01", "1974-12-31");
    ("1975-01-01", "1984-12-31");
    ("1985-01-01", "1994-12-31");
    ("1995-01-01", "1999-12-31");
    ("2000-01-01", "2004-12-31");
    ("2005-01-01", "2009-12-31");
    ("2010-01-01", "2014-12-31");
    ("2015-01-01", "2019-12-31");
    ("2020-01-01", "2024-12-31");
    ("2025-01-01", "2025-11-02") ].

Definition base_url : string :=
  "https://earthquake.usgs.gov/fdsnws/event/1/query".

Definition temp_path : string := "temp_combined.csv".

Definition output_path : string := "us_earthquakes_m4.5_complete.csv".

(** Two cells of a numeric key column count as the same value when they are
    equal as numbers or both missing. *)
Definition same_number (x y : float) : bool :=
  (x =? y)%float || (is_nan x && is_nan y).

(** Two cells of any key column: numbers as above, texts when they are the
    same string; a number and a text are never the same value. *)
Definition same_value (a b : value) : bool :=
  match a, b with
  | Number x, Number y => same_number x y
  | Text s, Text t => String.eqb s t
  | _, _ => false
  end.

Definition same_time (a b : option string) : bool :=
  match a, b with
  | Some s, Some t => String.eqb s t
  | None, None => true
  | _, _ => false
  end.

(** The order [sort_values('time')] puts the column in: strings by code
    point, missing values last. *)
Definition time_leb (a b : option string) : bool :=
  match a, b with
  | Some s, Some t => String.leb s t
  | Some _, None => true
  | None, Some _ => false
  | None, None => true
  end.

(** The columns of the deduplication key, and those of them a frame with the
    given columns lacks. *)
Definition subset : list string := ["time"; "latitude"; "longitude"; "mag"].

Definition missing_columns (columns names : list string) : list string :=
  filter (fun name => negb (existsb (String.eqb name) columns)) names.

Section Cells.

Context {C : Type} {cells : Cell C}.

(** [lo <= x] and [x <= hi] with a float on one side and a cell on the other:
    between numbers the comparison of floats (false when one is NaN); between
    a float and a string Python raises. *)
Definition float_le (lo : float) (x : C) : M bool :=
  match value_of x with
  | Number v => ret (lo <=? v)%float
  | Text _ =>
      raise (TypeError
               "'<=' not supported between instances of 'float' and 'str'")
  end.

Definition le_float (x : C) (hi : float) : M bool :=
  match value_of x with
  | Number v => ret (v <=? hi)%float
  | Text _ =>
      raise (TypeError
               "'<=' not supported between instances of 'str' and 'float'")
  end.

(** [lo <= x <= hi], a chained comparison: the second comparison is made
    only when the first holds. *)
Definition between (lo : float) (x : C) (hi : float) : M bool :=
  below <- float_le lo x ;;
  if below then le_float x hi else ret false.

(** The test of one branch of [classify_region]:
    [REGIONS[name]['lat_min'] <= lat <= REGIONS[name]['lat_max'] and
     REGIONS[name]['lon_min'] <= lon <= REGIONS[name]['lon_max']];
    the longitude is looked at only when the latitude is in its range. *)
Definition in_region (name : string) (lat lon : C) : M bool :=
  box <- getitem REGIONS name ;;
  lat_min <- getitem box "lat_min" ;;
  lat_max <- getitem box "lat_max" ;;
  lon_min <- getitem box "lon_min" ;;
  lon_max <- getitem box "lon_max" ;;
  lat_in_range <- between lat_min lat lat_max ;;
  if lat_in_range then between lon_min lon lon_max else ret false.

Definition classify_region (r : row_of C) : M string :=
  let lat := latitude r in
  let lon := longitude r in
  west <- in_region "Alaska_west_dateline" lat lon ;;
  if west then ret "Alaska" else
  main <- in_region "Alaska_main" lat lon ;;
  if main then ret "Alaska" else
  east <- in_region "Alaska_east_dateline" lat lon ;;
  if east then ret "Alaska" else
  hawaii <- in_region "Hawaii" lat lon ;;
  if hawaii then ret "Hawaii" else
  puerto_rico <- in_region "Puerto_Rico" lat lon ;;
  if puerto_rico then ret "Puerto Rico" else
  ret "Conterminous US".

(** [df['region'] = df.apply(classify_region, axis=1)] *)
Fixpoint apply_classify_region (df : list (row_of C))
  : M (list (labelled_of C)) :=
  match df with
  | [] => ret []
  | r :: rest =>
      label <- classify_region r ;;
      labelled_rest <- apply_classify_region rest ;;
      ret (Labelled r label :: labelled_rest)
  end.

Definition same_cell (a b : C) : bool := same_value (value_of a) (value_of b).

(** Agreement on the subset [['time', 'latitude', 'longitude', 'mag']]. *)
Definition same_key (r1 r2 : row_of C) : bool :=
  same_time (time r1) (time r2)
  && same_cell (latitude r1) (latitude r2)
  && same_cell (longitude r1) (longitude r2)
  && same_cell (mag r1) (mag r2).

(** [df.drop_duplicates(subset=[...])], keep='first', on the rows of a frame
    that has the columns of the subset: a row is dropped when its key was
    seen on an earlier row. *)
Fixpoint drop_duplicates_from (seen : list (row_of C)) (df : list (row_of C))
  : list (row_of C) :=
  match df with
  | [] => []
  | r :: rest =>
      if existsb (fun s => same_key s r) seen
      then drop_duplicates_from seen rest
      else r :: drop_duplicates_from (seen ++ [r]) rest
  end.

Definition drop_duplicates (df : list (row_of C)) : list (row_of C) :=
  drop_duplicates_from [] df.

(** Line 154 on a frame with the given columns.  pandas returns a frame
    with no rows as it is ([if self.empty: return self.copy()]); on any
    other frame [drop_duplicates] raises [KeyError] when a column of the
    subset is not one of the frame's (the message names the columns that
    are not). *)
Definition drop_duplicates_of (columns : list string) (df : list (row_of C))
  : M (list (row_of C)) :=
  match df with
  | [] => ret []
  | _ :: _ =>
      match missing_columns columns subset with
      | [] => ret (drop_duplicates df)
      | name :: names => raise (KeyError (String.concat ", " (name :: names)))
      end
  end.

Fixpoint insert_by_time (x : labelled_of C) (sorted : list (labelled_of C))
  : list (labelled_of C) :=
  match sorted with
  | [] => [x]
  | y :: rest =>
      if time_leb (time (event x)) (time (event y))
      then x :: y :: rest
      else y :: insert_by_time x rest
  end.

(** [df.sort_values('time')]; the order given to rows with equal times is
    not relied on. *)
Fixpoint sort_values (df : list (labelled_of C)) : list (labelled_of C) :=
  match df with
  | [] => []
  | x :: rest => insert_by_time x (sort_values rest)
  end.

End Cells.

(** Line 199, [f"{df['mag'].min():.1f} to {df['mag'].max():.1f}"]: a frame
    without the column raises [KeyError] (which only a frame with no rows
    can come to); the least and greatest of a column of numbers are numbers
    and are formatted; of a column of strings they are strings, which the
    format refuses; and among numbers a string cannot be compared. *)
Definition is_text (v : value) : bool :=
  match v with
  | Text _ => true
  | Number _ => false
  end.

Definition magnitude_error (mags : list value) : py_exception :=
  if forallb is_text mags
  then ValueError "Unknown format code 'f' for object of type 'str'"
  else TypeError "'<=' not supported between instances of 'str' and 'float'".

Definition magnitude_outcome (columns : list string) (mags : list value)
  : result unit :=
  if existsb (String.eqb "mag") columns then
    if existsb is_text mags then Raised (magnitude_error mags)
    else Returned tt
  else Raised (KeyError "mag").

Definition magnitude_range (columns : list string) (mags : list value)
  : M unit :=
  fun w => (w, magnitude_outcome columns mags).

(** Lines 133-142: the first text whole, then of every later text the lines
    after the first one. *)
Fixpoint combine_texts (combined_text : string) (later : list string)
  : string :=
  match later with
  | [] => combined_text
  | csv_text :: more =>
      let lines := split_nl csv_text in
      if (1 <? List.length lines)%nat
      then combine_texts
             (combined_text ++ String newline (join_nl (tl lines))) more
      else combine_texts combined_text more
  end.

Fixpoint enumerate {A} (start : nat) (l : list A) : list (nat * A) :=
  match l with
  | [] => []
  | x :: rest => (start, x) :: enumerate (S start) rest
  end.

(** The lines of a text after its first (header) line, and their number:
    the text's line count minus its one header line. *)
Definition data_lines (text : string) : list string := tl (split_nl text).

Definition data_row_count (text : string) : nat :=
  List.length (split_nl text) - 1.

Definition header_line (text : string) : string := hd "" (split_nl text).

(** A line [read_csv] skips: empty, or only spaces, tabs and carriage
    returns. *)
Fixpoint blank (line : string) : bool :=
  match line with
  | EmptyString => true
  | String c rest =>
      (Ascii.eqb c " " || Ascii.eqb c "009" || Ascii.eqb c "013")
      && blank rest
  end.

(** The lines [read_csv] reads: blank lines are skipped, the first line left
    is the header and the others are the records (no quoted field spans
    lines in the catalogue's output). *)
Definition csv_lines (text : string) : list string :=
  filter (fun line => negb (blank line)) (split_nl text).

Definition csv_records (text : string) : list string := tl (csv_lines text).

Section Reader.

(** pandas' record tokenizer: a header line and a record line give a row, or
    fail. *)
Variable R : Type.
Variable parse_record : string -> string -> option R.

Fixpoint parse_records (header : string) (records : list string)
  : option (list R) :=
  match records with
  | [] => Some []
  | line :: rest =>
      match parse_record header line, parse_records header rest with
      | Some r, Some rows => Some (r :: rows)
      | _, _ => None
      end
  end.

(** [pd.read_csv(path)]: the file's lines with the blank ones skipped, the
    first as header and every other one as a record; it raises when there
    is no file, no line at all, or a record that cannot be read. *)
Definition read_csv (path : string) : M (list R) :=
  text <- read_file path ;;
  match csv_lines text with
  | [] => raise EmptyDataError
  | header :: records =>
      match parse_records header records with
      | Some rows => ret rows
      | None => raise (ParserError header)
      end
  end.

End Reader.

Arguments parse_records {R} parse_record header records.
Arguments read_csv {R} parse_record path.

Section Fetcher.

(** The catalogue service; pandas' reading of a header line (the names of
    the columns) and of a record line; what pandas does at lines 185 to 188
    with a frame that has no rows (whether [df.apply], the assignment of its
    result and [sort_values] go through or raise depends on the columns and
    on the version of the library); pandas' minimum and maximum of the
    [time] column (what they do with values missing among strings is the
    library's); and pandas' CSV writer. *)
Variable requests_get : string -> query -> Z -> http_result.
Variable read_header : string -> list string.
Variable parse_record : string -> string -> option raw_row.
Variable on_empty_frame : list string -> result unit.
Variable min_max : list (option string) -> result (option string * option string).
Variable to_csv_text : list raw_labelled -> string.

Definition requests_get_call (url : string) (params : query) (timeout : Z)
  : M (Z * string) :=
  emit (Get url params timeout) ;;
  match requests_get url params timeout with
  | Response status_code text => ret (status_code, text)
  | Raises e => raise e
  end.

Definition download_earthquakes
    (start_date end_date region_name : string)
    (lat_min lat_max lon_min lon_max : float) (min_mag : float)
  : M (option string) :=
  let params :=
    {| q_format := "csv";
       q_starttime := start_date;
       q_endtime := end_date;
       q_minmagnitude := min_mag;
       q_minlatitude := lat_min;
       q_maxlatitude := lat_max;
       q_minlongitude := lon_min;
       q_maxlongitude := lon_max;
       q_orderby := "time" |} in
  print (MsgRequest region_name start_date end_date) ;;
  try_except
    (response <- requests_get_call base_url params 30 ;;
     let '(status_code, text) := response in
     if (status_code =? 200)%Z then
       let line_count := (Z.of_nat (List.length (split_nl text)) - 2)%Z in
       print (MsgCount line_count) ;;
       ret (Some text)
     else
       print (MsgErrorStatus status_code) ;;
       ret None)
    (fun e =>
       print (MsgException e) ;;
       ret None).

(** The inner loop, over [REGIONS.items()]. *)
Fixpoint region_loop (start_date end_date : string)
    (regions : list (string * list (string * float)))
    (period_data : list string) : M (list string) :=
  match regions with
  | [] => ret period_data
  | (region_name, bounds) :: rest =>
      lat_min <- getitem bounds "lat_min" ;;
      lat_max <- getitem bounds "lat_max" ;;
      lon_min <- getitem bounds "lon_min" ;;
      lon_max <- getitem bounds "lon_max" ;;
      csv_text <- download_earthquakes start_date end_date region_name
                    lat_min lat_max lon_min lon_max 4.5%float ;;
      let period_data :=
        match csv_text with
        | Some text => if truthy csv_text then period_data ++ [text]
                       else period_data
        | None => period_data
        end in
      sleep 1 ;;
      region_loop start_date end_date rest period_data
  end.

(** The outer loop, over [enumerate(date_ranges, 1)]. *)
Fixpoint period_loop (n : nat) (periods : list (nat * (string * string)))
    (all_data : list string) : M (list string) :=
  match periods with
  | [] => ret all_data
  | (i, (start_date, end_date)) :: rest =>
      print (MsgPeriod i n start_date end_date) ;;
      period_data <- region_loop start_date end_date REGIONS [] ;;
      let all_data := all_data ++ period_data in
      sleep 2 ;;
      period_loop n rest all_data
  end.

(** [df.columns] of the frame read from a text: the names on its header
    line. *)
Definition columns_of (text : string) : list string :=
  read_header (hd "" (csv_lines text)).

(** Lines 185 to 188 on a frame with the given columns: the [region]
    column is computed row by row when there are rows (the sort that
    follows cannot fail then); on a frame with no rows the library decides
    whether these lines go through. *)
Definition classify_rows (columns : list string) (df : list raw_row)
  : M (list raw_labelled) :=
  match df with
  | [] => fun w => (w, match on_empty_frame columns with
                       | Returned _ => Returned []
                       | Raised e => Raised e
                       end)
  | _ :: _ => apply_classify_region df
  end.

Definition to_csv (df : list raw_labelled) (path : string) : M unit :=
  write_file path (to_csv_text df).

(** Line 198, [df['time'].min()] and [df['time'].max()]. *)
Definition date_range (df : list raw_labelled)
  : M (option string * option string) :=
  fun w => (w, min_max (map (fun x => time (event x)) df)).

(** The script, top to bottom. *)
Definition DataDownloader : M unit :=
  print (MsgDownloading (List.length date_ranges)) ;;
  print MsgRegions ;;
  print MsgRule ;;
  all_data <- period_loop (List.length date_ranges) (enumerate 1 date_ranges) [] ;;
  print MsgRule ;;
  print MsgProcessing ;;
  print MsgRule ;;
  match all_data with
  | first :: later =>
      let combined_text := combine_texts first later in
      write_file temp_path combined_text ;;
      df <- read_csv parse_record temp_path ;;
      let columns := columns_of combined_text in
      print (MsgRawTotal (List.length df)) ;;
      df <- drop_duplicates_of columns df ;;
      print (MsgAfterDedup (List.length df)) ;;
      df <- classify_rows columns df ;;
      let df := sort_values df in
      to_csv df output_path ;;
      print (MsgSuccess (List.length df)) ;;
      dates <- date_range df ;;
      print (MsgDateRange (fst dates) (snd dates)) ;;
      magnitude_range columns (map (fun x => mag (event x)) df) ;;
      print (MsgSummary df output_path) ;;
      os_remove temp_path
  | [] =>
      print MsgNoData
  end.

End Fetcher.

(** ** Reading the [time] column as instants

    The catalogue writes UTC instants as [YYYY-MM-DDTHH:MM:SS.sssZ]; ISO 8601
    also allows the fraction of a second to be absent or of another length.
    The fetcher never reads the column this way (it keeps the text); the
    reading is what "earlier" and "later" mean for two time values. *)

Record instant : Type := Instant {
  year : N; month : N; day : N;
  hour : N; minute : N; second : N;
  nanosecond : N
}.












(** ** checkpoint.py *)

(** A cell of a data frame column: a number (NaN when missing), a string, or
    a parsed instant ([NaT] when missing). *)
Inductive cell : Type :=
| Num (x : float)
| Str (s : string)
| Stamp (t : instant)
| NaT.

Definition frame : Type := list (string * list cell).

Definition isna (c : cell) : bool :=
  match c with
  | Num x => is_nan x
  | NaT => true
  | Str _ | Stamp _ => false
  end.

(** [series.clip(lower=lower)] on one cell: values below [lower] become
    [lower], missing values stay missing; a cell that is not a number cannot
    be compared. *)
Definition clip_lower (lower : float) (c : cell) : M cell :=
  match c with
  | Num x =>
      if is_nan x || (lower <=? x)%float then ret (Num x) else ret (Num lower)
  | Str _ | Stamp _ | NaT =>
      raise (TypeError "'>=' not supported between these instances")
  end.

Fixpoint clip (lower : float) (series : list cell) : M (list cell) :=
  match series with
  | [] => ret []
  | c :: rest =>
      c' <- clip_lower lower c ;;
      rest' <- clip lower rest ;;
      ret (c' :: rest')
  end.

Definition region_order : list string :=
  ["Alaska"; "Conterminous US"; "Hawaii"; "Puerto Rico"].

(** [pd.Categorical(series, categories=categories, ordered=True)]: a value
    outside the categories becomes missing. *)
Definition Categorical (series : list cell) (categories : list string)
  : list cell :=
  map (fun c =>
         match c with
         | Str s => if existsb (String.eqb s) categories then Str s
                    else Num nan
         | _ => Num nan
         end) series.

(** [hover_data] of the interactive map. *)
Definition hover_data : list (string * bool) :=
  [ ("mag", true); ("depth", true); ("place", true); ("time", true);
    ("region", true) ].

(** A row mask applied to a column. *)
Fixpoint select {A} (mask : list bool) (series : list A) : list A :=
  match mask, series with
  | keep :: mask', c :: rest =>
      if keep then c :: select mask' rest else select mask' rest
  | _, _ => []
  end.

Fixpoint notna_all (columns : list (list cell)) (n : nat) : list bool :=
  match n with
  | O => []
  | S n' =>
      forallb (fun col => match col with
                          | c :: _ => negb (isna c)
                          | [] => true
                          end) columns
      :: notna_all (map (@tl cell) columns) n'
  end.

Fixpoint getitems (df : frame) (names : list string) : M (list (list cell)) :=
  match names with
  | [] => ret []
  | name :: rest =>
      col <- getitem df name ;;
      cols <- getitems df rest ;;
      ret (col :: cols)
  end.

Definition frame_length (df : frame) : nat :=
  match df with
  | [] => O
  | (_, col) :: _ => List.length col
  end.

(** [df.dropna(subset=subset)] *)
Definition dropna (df : frame) (subset : list string) : M frame :=
  cols <- getitems df subset ;;
  let mask := notna_all cols (frame_length df) in
  ret (map (fun named => (fst named, select mask (snd named))) df).

(** What the interactive map is built from: the plotted frame and, for every
    column switched on in [hover_data], the values its hover box shows. *)
Record figure : Type := Figure {
  plotted : frame;
  hover : list (string * list cell)
}.

Fixpoint hover_values (df : frame) (spec : list (string * bool))
  : M (list (string * list cell)) :=
  match spec with
  | [] => ret []
  | (name, shown) :: rest =>
      if shown then
        col <- getitem df name ;;
        more <- hover_values df rest ;;
        ret ((name, col) :: more)
      else hover_values df rest
  end.

Section Plotter.

(** [pd.to_datetime(series, errors="coerce", utc=True)] and
    [series.dt.year], pandas functions from a column to a column. *)
Variable to_datetime : list cell -> list cell.
Variable dt_year : list cell -> list cell.

(** Lines 13-20, the clean-ups made on the loaded frame. *)
Definition cleanups (df : frame) : M frame :=
  time_col <- getitem df "time" ;;
  let df := store "time" (to_datetime time_col) df in
  time_col <- getitem df "time" ;;
  let df := store "year" (dt_year time_col) df in
  depth_col <- getitem df "depth" ;;
  depth_clean <- clip 0%float depth_col ;;
  let df := store "depth_clean" depth_clean df in
  region_col <- getitem df "region" ;;
  ret (store "region" (Categorical region_col region_order) df).

(** Lines 130-139, the interactive map. *)
Definition scatter_geo (df : frame) : M figure :=
  shown <- dropna df ["latitude"; "longitude"; "mag"] ;;
  _ <- getitem shown "latitude" ;;
  _ <- getitem shown "longitude" ;;
  _ <- getitem shown "region" ;;
  _ <- getitem shown "mag" ;;
  values <- hover_values shown hover_data ;;
  ret (Figure shown values).

(** The plotter as far as the frame is concerned: the plots in between
    read [df] and write image files only. *)
Definition checkpoint (df : frame) : M figure :=
  df <- cleanups df ;;
  scatter_geo df.

End Plotter.

(** ** The classification as the specification words it *)

(** A closed box: both bounds of both axes included. *)
Definition closed_box (lat_min lat_max lon_min lon_max lat lon : float)
  : bool :=
  (lat_min <=? lat)%float && (lat <=? lat_max)%float
  && (lon_min <=? lon)%float && (lon <=? lon_max)%float.

(** Membership of a point in the box [REGIONS[name]] (false for a name that
    is not a box). *)
Definition in_box (name : string) (lat lon : float) : bool :=
  match lookup name REGIONS with
  | Some box =>
      match lookup "lat_min" box, lookup "lat_max" box,
            lookup "lon_min" box, lookup "lon_max" box with
      | Some lat_min, Some lat_max, Some lon_min, Some lon_max =>
          closed_box lat_min lat_max lon_min lon_max lat lon
      | _, _, _, _ => false
      end
  | None => false
  end.

Definition in_alaska (lat lon : float) : bool :=
  in_box "Alaska_west_dateline" lat lon
  || in_box "Alaska_main" lat lon
  || in_box "Alaska_east_dateline" lat lon.

(** Ordered precedence: Alaska (any of its three boxes), then Hawaii, then
    Puerto Rico, else the default. *)
Definition region_by_precedence (lat lon : float) : string :=
  if in_alaska lat lon then "Alaska"
  else if in_box "Hawaii" lat lon then "Hawaii"
  else if in_box "Puerto_Rico" lat lon then "Puerto Rico"
  else "Conterminous US".

(** Strictly inside [REGIONS[name]]: off every edge of the box. *)
Definition strictly_in_box (name : string) (lat lon : float) : bool :=
  match lookup name REGIONS with
  | Some box =>
      match lookup "lat_min" box, lookup "lat_max" box,
            lookup "lon_min" box, lookup "lon_max" box with
      | Some lat_min, Some lat_max, Some lon_min, Some lon_max =>
          (lat_min <? lat)%float && (lat <? lat_max)%float
          && (lon_min <? lon)%float && (lon <? lon_max)%float
      | _, _, _, _ => false
      end
  | None => false
  end.

(** The number in a cell; a text is no number. *)
Definition number_of {C} `{Cell C} (x : C) : float :=
  match value_of x with
  | Number v => v
  | Text _ => nan
  end.

(** The frame the fetcher labels: each row with its derived region. *)
Definition with_region {C} `{Cell C} (df : list (row_of C))
  : list (labelled_of C) :=
  map (fun r => Labelled r (region_by_precedence (number_of (latitude r))
                              (number_of (longitude r))))
      df.


(** ** What a run of the fetcher requests, keeps and prints *)

Definition bound_of (bounds : list (string * float)) (key : string) : float :=
  match lookup key bounds with
  | Some x => x
  | None => nan
  end.

(** A box with its four bounds. *)
Definition has_bounds (bounds : list (string * float)) : Prop :=
  lookup "lat_min" bounds <> None /\ lookup "lat_max" bounds <> None
  /\ lookup "lon_min" bounds <> None /\ lookup "lon_max" bounds <> None.

(** The query sent for a time window and a box. *)
Definition query_for (start_date end_date : string)
    (bounds : list (string * float)) : query :=
  {| q_format := "csv";
     q_starttime := start_date;
     q_endtime := end_date;
     q_minmagnitude := 4.5%float;
     q_minlatitude := bound_of bounds "lat_min";
     q_maxlatitude := bound_of bounds "lat_max";
     q_minlongitude := bound_of bounds "lon_min";
     q_maxlongitude := bound_of bounds "lon_max";
     q_orderby := "time" |}.

(** A request fails when it raises or answers with a status other than
    200. *)
Definition failed (res : http_result) : Prop :=
  match res with
  | Response status_code _ => status_code <> 200%Z
  | Raises _ => True
  end.

(** The text a request yields: the body of a 200 response. *)
Definition response_text (res : http_result) : option string :=
  match res with
  | Response status_code text =>
      if (status_code =? 200)%Z then Some text else None
  | Raises _ => None
  end.

(** The line printed for the outcome of a request. *)
Definition outcome_message (res : http_result) : message :=
  match res with
  | Response status_code text =>
      if (status_code =? 200)%Z
      then MsgCount (Z.of_nat (List.length (split_nl text)) - 2)%Z
      else MsgErrorStatus status_code
  | Raises e => MsgException e
  end.

(** What a request adds to [period_data]: its text when there is one and it
    is not empty. *)
Definition contribution (csv_text : option string) : list string :=
  match csv_text with
  | Some (String c rest) => [String c rest]
  | Some EmptyString | None => []
  end.

Section Run.

Variable requests_get : string -> query -> Z -> http_result.

Definition answer (start_date end_date : string)
    (bounds : list (string * float)) : http_result :=
  requests_get base_url (query_for start_date end_date bounds) 30%Z.

Definition download_events (start_date end_date region_name : string)
    (bounds : list (string * float)) : list trace_event :=
  [ Print (MsgRequest region_name start_date end_date);
    Get base_url (query_for start_date end_date bounds) 30%Z;
    Print (outcome_message (answer start_date end_date bounds)) ].

Definition region_events (start_date end_date : string)
    (regions : list (string * list (string * float))) : list trace_event :=
  flat_map (fun named =>
              download_events start_date end_date (fst named) (snd named)
              ++ [Sleep 1])
           regions.

Definition period_data_of (start_date end_date : string)
    (regions : list (string * list (string * float))) : list string :=
  flat_map (fun named =>
              contribution
                (response_text (answer start_date end_date (snd named))))
           regions.

Definition period_events (n : nat) (periods : list (nat * (string * string)))
  : list trace_event :=
  flat_map (fun p =>
              Print (MsgPeriod (fst p) n (fst (snd p)) (snd (snd p)))
              :: region_events (fst (snd p)) (snd (snd p)) REGIONS
              ++ [Sleep 2])
           periods.

Definition all_data_of (periods : list (nat * (string * string)))
  : list string :=
  flat_map (fun p => period_data_of (fst (snd p)) (snd (snd p)) REGIONS)
           periods.

(** The trace of the whole fetch phase and of the lines printed after it. *)
Definition fetch_events : list trace_event :=
  [ Print (MsgDownloading (List.length date_ranges)); Print MsgRegions;
    Print MsgRule ]
  ++ period_events (List.length date_ranges) (enumerate 1 date_ranges)
  ++ [ Print MsgRule; Print MsgProcessing; Print MsgRule ].

Definition all_data : list string := all_data_of (enumerate 1 date_ranges).

End Run.

(** The columns of the key that line 154 finds missing: none on a frame
    with no rows, which is returned before its columns are looked at. *)
Definition missing_key {C} (columns : list string) (df : list (row_of C))
  : list string :=
  match df with
  | [] => []
  | _ :: _ => missing_columns columns subset
  end.

(** The frame the fetcher writes for the rows it read. *)
Definition output_frame {C} `{Cell C} (rows : list (row_of C))
  : list (labelled_of C) :=
  sort_values (with_region (drop_duplicates rows)).

Definition log (evs : list trace_event) (w : world) : world :=
  World (files w) (trace w ++ evs).


(** ** Keys of rows *)

(** A key number up to what [same_number] can tell apart: the two zeros are
    one value, and missing is a value. *)
Definition one_zero (a : spec_float) : spec_float :=
  match a with
  | S754_zero _ => S754_zero false
  | other => other
  end.

Definition canonical (x : float) : spec_float := one_zero (Prim2SF x).

(** A key cell up to what [same_value] can tell apart: a number as above,
    or a text. *)
Definition key_value (v : value) : spec_float + string :=
  match v with
  | Number x => inl (canonical x)
  | Text s => inr s
  end.

(** The deduplication key of a row. *)
Definition key_of {C} `{Cell C} (r : row_of C)
  : option string * (spec_float + string) * (spec_float + string)
    * (spec_float + string) :=
  (time r, key_value (value_of (latitude r)),
   key_value (value_of (longitude r)), key_value (value_of (mag r))).

(** How many rows of a frame carry the key of [r]. *)
Definition occurrences {C} `{Cell C} (r : row_of C) (df : list (row_of C))
  : nat :=
  List.length (filter (same_key r) df).


(** ** Orders on the rows of the output *)






(** ** Clipping as the specification words it *)

(** [max(d, 0)]: zero when zero is greater than [d], else [d] (so a missing
    depth stays missing). *)
Definition max_with_zero (d : float) : float :=
  if (d <? 0)%float then 0%float else d.


(** ** The schedule of a run *)

(** Every time window with every region box, windows first: the order of
    the two nested loops. *)
Definition requests_in_order : list query :=
  map (fun p => query_for (fst (fst p)) (snd (fst p)) (snd (snd p)))
      (list_prod date_ranges REGIONS).

(** The requests recorded in a trace, and the seconds slept. *)
Definition gets (evs : list trace_event) : list (string * query * Z) :=
  flat_map (fun ev =>
              match ev with
              | Get url params timeout => [(url, params, timeout)]
              | _ => []
              end) evs.

Definition slept (evs : list trace_event) : Z :=
  fold_right (fun ev total =>
                match ev with
                | Sleep seconds => (seconds + total)%Z
                | _ => total
                end) 0%Z evs.

(** ** What a later text adds to the combined text *)

(** The text after the first line feed, when there is one. *)
Fixpoint after_first_newline (s : string) : option string :=
  match s with
  | EmptyString => None
  | String c rest =>
      if is_newline c then Some rest else after_first_newline rest
  end.

Definition appended (csv_text : string) : string :=
  match after_first_newline csv_text with
  | Some rest => String newline rest
  | None => EmptyString
  end.

Definition concat_texts (texts : list string) : string :=
  fold_right String.append EmptyString texts.


(** ** The order of floats

    The comparisons of binary64 numbers, read through a rank: numbers that
    are not NaN compare as their ranks do, in lexicographic order; the two
    zeros have one rank. *)

(** Sign class, then exponent and mantissa (negated for negative numbers). *)
Definition rank (a : spec_float) : Z * Z * Z :=
  match a with
  | S754_infinity true => (-2, 0, 0)%Z
  | S754_finite true m e => (-1, - e, Z.neg m)%Z
  | S754_zero _ | S754_nan => (0, 0, 0)%Z
  | S754_finite false m e => (1, e, Z.pos m)%Z
  | S754_infinity false => (2, 0, 0)%Z
  end.

Definition rank_compare (p q : Z * Z * Z) : comparison :=
  let '(x1, y1, z1) := p in
  let '(x2, y2, z2) := q in
  match (x1 ?= x2)%Z with
  | Eq => match (y1 ?= y2)%Z with
          | Eq => (z1 ?= z2)%Z
          | c => c
          end
  | c => c
  end.

Definition rank_le (p q : Z * Z * Z) : Prop :=
  let '(x1, y1, z1) := p in
  let '(x2, y2, z2) := q in
  (x1 < x2 \/ (x1 = x2 /\ (y1 < y2 \/ (y1 = y2 /\ z1 <= z2))))%Z.

Definition rank_lt (p q : Z * Z * Z) : Prop :=
  let '(x1, y1, z1) := p in
  let '(x2, y2, z2) := q in
  (x1 < x2 \/ (x1 = x2 /\ (y1 < y2 \/ (y1 = y2 /\ z1 < z2))))%Z.

(** A float that is not NaN. *)
Definition number (x : float) : Prop := Prim2SF x <> S754_nan.



(** ** checkpoint.py: the data behind the plots *)

(** [series == label] on one cell of a column of strings or categories. *)
Definition cell_is (label : string) (c : cell) : bool :=
  match c with
  | Str s => String.eqb s label
  | Num _ | Stamp _ | NaT => false
  end.

(** Plot 4, [[depth_df.loc[depth_df["region"]==r, "depth_clean"]
    for r in region_order]]. *)
Fixpoint depth_by_region (depth_df : frame) (regions : list string)
  : M (list (list cell)) :=
  match regions with
  | [] => ret []
  | r :: rest =>
      region_col <- getitem depth_df "region" ;;
      depth_col <- getitem depth_df "depth_clean" ;;
      more <- depth_by_region depth_df rest ;;
      ret (select (map (cell_is r) region_col) depth_col :: more)
  end.

(** Lines 95-98: the data of the box plot. *)
Definition boxplot_data (df : frame) : M (list (list cell)) :=
  depth_df <- dropna df ["depth_clean"] ;;
  depth_by_region depth_df region_order.

(** Plot 1, [df.groupby("year").size()] on a column of numbers: one group
    for each value that occurs, in ascending order, with the number of its
    rows; rows with a missing value belong to no group. *)
Fixpoint add_to_groups (x : float) (groups : list (float * nat))
  : list (float * nat) :=
  match groups with
  | [] => [(x, 1%nat)]
  | (k, n) :: rest =>
      if (x =? k)%float then (k, S n) :: rest
      else if (x <? k)%float then (x, 1%nat) :: (k, n) :: rest
      else (k, n) :: add_to_groups x rest
  end.

Definition groupby_size (keys : list float) : list (float * nat) :=
  fold_left (fun groups x => if is_nan x then groups else add_to_groups x groups)
            keys [].

(** The count of the group of [y], zero when there is none. *)
Definition group_size (y : float) (groups : list (float * nat)) : nat :=
  match find (fun g => (fst g =? y)%float) groups with
  | Some g => snd g
  | None => O
  end.





Section Plot6.

(** Whether [import plotly.express] succeeds, and the two renderers. *)
Variable import_plotly : result unit.
Variable write_html : figure -> string.
Variable savefig : list cell -> list cell -> list cell -> string.


End Plot6.


(** A frame whose columns all have the length of the first. *)
Definition rectangular (df : frame) : Prop :=
  forall name col, In (name, col) df -> List.length col = frame_length df.

Definition notna (c : cell) : Prop := isna c = false.


(** A step that leaves the world alone and returns [a], or raises a
    [TypeError]. *)
Definition returns_or_TypeError {A} (c : M A) (w : world) (a : A) : Prop :=
  c w = (w, Returned a)
  \/ exists e, c w = (w, Raised e) /\ exc_class e = "TypeError".


(* ===================================================================== *)
(** * Part II: properties *)
(* ===================================================================== *)

(** ** Running a script step by step *)

Lemma bind_returned {A B} (c : M A) (k : A -> M B) w w' a :
  c w = (w', Returned a) -> bind c k w = k a w'.
Proof. intros H. unfold bind. rewrite H. reflexivity. Qed.

(** ** Lines of a text *)

Lemma split_nl_cons s : exists piece pieces, split_nl s = piece :: pieces.
Proof.
  induction s as [|c rest [p [ps IH]]]; simpl.
  - eauto.
  - destruct (is_newline c); [eauto|]. rewrite IH. eauto.
Qed.

Lemma split_nl_length s : (1 <= List.length (split_nl s))%nat.
Proof. destruct (split_nl_cons s) as [p [ps ->]]. simpl. lia. Qed.

Lemma split_nl_append a b :
  split_nl (a ++ String newline b) = split_nl a ++ split_nl b.
Proof.
  induction a as [|c a IH]; simpl.
  - reflexivity.
  - destruct (is_newline c).
    + now rewrite IH.
    + rewrite IH. destruct (split_nl_cons a) as [p [ps ->]]. reflexivity.
Qed.

Lemma split_nl_pieces s : Forall (fun p => no_newline p = true) (split_nl s).
Proof.
  induction s as [|c rest IH]; simpl.
  - constructor; [reflexivity|constructor].
  - destruct (is_newline c) eqn:E.
    + constructor; [reflexivity|assumption].
    + destruct (split_nl rest) as [|p ps].
      * constructor; [simpl; now rewrite E|constructor].
      * inversion IH; subst. constructor; [simpl; now rewrite E|assumption].
Qed.

Lemma split_nl_one_piece p : no_newline p = true -> split_nl p = [p].
Proof.
  induction p as [|c p IH]; simpl; intros H.
  - reflexivity.
  - apply andb_true_iff in H as [Hc Hp].
    apply negb_true_iff in Hc. rewrite Hc, (IH Hp). reflexivity.
Qed.

(** Splitting what was joined gives the pieces back. *)
Lemma split_nl_join pieces :
  pieces <> [] -> Forall (fun p => no_newline p = true) pieces ->
  split_nl (join_nl pieces) = pieces.
Proof.
  induction pieces as [|p more IH]; intros Hne Hall; [congruence|].
  inversion Hall as [|? ? Hp Hmore]; subst.
  destruct more as [|q more'].
  - simpl. now apply split_nl_one_piece.
  - change (join_nl (p :: q :: more'))
      with (p ++ String newline (join_nl (q :: more')))%string.
    rewrite split_nl_append, (split_nl_one_piece p Hp), IH;
      [reflexivity|discriminate|assumption].
Qed.

Lemma data_lines_pieces text :
  Forall (fun p => no_newline p = true) (data_lines text).
Proof.
  unfold data_lines. pose proof (split_nl_pieces text) as H.
  destruct (split_nl text); simpl; [constructor|now inversion H].
Qed.

(** The lines of the combined text: those of the first text, then the data
    lines of every later one. *)
Lemma split_nl_combine_texts later : forall combined_text,
  split_nl (combine_texts combined_text later)
  = split_nl combined_text ++ flat_map data_lines later.
Proof.
  induction later as [|csv_text more IH]; intros combined_text; simpl.
  - now rewrite app_nil_r.
  - destruct (1 <? List.length (split_nl csv_text))%nat eqn:E.
    + rewrite IH, split_nl_append, split_nl_join, <- app_assoc.
      * reflexivity.
      * apply Nat.ltb_lt in E. unfold data_lines.
        destruct (split_nl csv_text) as [|h [|x xs]]; simpl in *;
          [lia|lia|discriminate].
      * apply data_lines_pieces.
    + rewrite IH. apply Nat.ltb_ge in E. unfold data_lines.
      destruct (split_nl csv_text) as [|h [|x xs]]; simpl in *;
        [reflexivity|reflexivity|lia].
Qed.

Lemma length_flat_map_data_lines texts :
  List.length (flat_map data_lines texts)
  = list_sum (map data_row_count texts).
Proof.
  induction texts as [|t ts IH]; simpl; [reflexivity|].
  rewrite length_app, IH. f_equal.
  unfold data_lines, data_row_count.
  destruct (split_nl t); simpl; lia.
Qed.

Lemma filter_tl {A} (keep : A -> bool) (l : list A) :
  match l with [] => True | x :: _ => keep x = true end ->
  filter keep (tl l) = tl (filter keep l).
Proof. destruct l as [|x l]; simpl; [reflexivity|]. now intros ->. Qed.

(** When a text's first line is not blank, its records are its non-blank
    data lines. *)
Lemma csv_records_data_lines text :
  blank (header_line text) = false ->
  csv_records text = filter (fun line => negb (blank line)) (data_lines text).
Proof.
  unfold csv_records, csv_lines, data_lines, header_line. intros H.
  symmetry. apply filter_tl.
  destruct (split_nl text); simpl in *; [exact I|now rewrite H].
Qed.

Lemma csv_lines_header text :
  blank (header_line text) = false ->
  csv_lines text = header_line text :: csv_records text.
Proof.
  unfold csv_records, csv_lines, header_line. intros H.
  destruct (split_nl_cons text) as [p [ps E]]. rewrite E in *. simpl in *.
  now rewrite H.
Qed.

Lemma csv_lines_combine_texts first later :
  Forall (fun t => blank (header_line t) = false) (first :: later) ->
  csv_lines (combine_texts first later)
  = header_line first :: flat_map csv_records (first :: later).
Proof.
  intros Hall. inversion Hall as [|? ? Hfirst Hlater]; subst.
  unfold csv_lines at 1. rewrite split_nl_combine_texts, filter_app.
  fold (csv_lines first). rewrite (csv_lines_header first Hfirst).
  simpl. f_equal. f_equal.
  clear Hall Hfirst. induction Hlater as [|t ts Ht _ IH]; simpl.
  - reflexivity.
  - rewrite filter_app, IH, (csv_records_data_lines t Ht). reflexivity.
Qed.

(** C2. The combined text keeps the first text whole and appends, for every
    later text, only its lines after the first (header) line; hence its
    number of lines after the header is the sum, over all the texts, of each
    text's number of lines minus its one header line.  The same holds for
    the records [read_csv] reads (blank lines skipped) when every text
    begins with a header.  A successful response with an empty body is not
    kept, and counts for nothing in the sum either way. *)
Theorem combined_text_rows (first : string) (later : list string) :
  split_nl (combine_texts first later)
  = split_nl first ++ flat_map data_lines later
  /\ data_row_count (combine_texts first later)
     = list_sum (map data_row_count (first :: later))
  /\ (Forall (fun t => blank (header_line t) = false) (first :: later) ->
      csv_records (combine_texts first later)
      = flat_map csv_records (first :: later))
  /\ (forall responses : list (option string),
        list_sum (map data_row_count (flat_map contribution responses))
        = list_sum (map (fun csv_text =>
                           match csv_text with
                           | Some text => data_row_count text
                           | None => 0%nat
                           end) responses)).
Proof.
  split; [apply split_nl_combine_texts|split; [|split]].
  - unfold data_row_count at 1.
    rewrite split_nl_combine_texts, length_app, length_flat_map_data_lines.
    simpl. unfold data_row_count at 2.
    pose proof (split_nl_length first). lia.
  - intros Hall. unfold csv_records at 1.
    now rewrite (csv_lines_combine_texts first later Hall).
  - induction responses as [|[[|c rest]|] more IH]; simpl;
      [reflexivity|exact IH|now rewrite IH|exact IH].
Qed.

(** ** Region classification *)

Lemma bind_raised {A B} (c : M A) (k : A -> M B) w w' e :
  c w = (w', Raised e) -> bind c k w = (w', Raised e).
Proof. intros E. unfold bind. now rewrite E. Qed.

Lemma in_five_boxes name :
  In name ["Alaska_west_dateline"; "Alaska_main"; "Alaska_east_dateline";
           "Hawaii"; "Puerto_Rico"] ->
  name = "Alaska_west_dateline" \/ name = "Alaska_main"
  \/ name = "Alaska_east_dateline" \/ name = "Hawaii" \/ name = "Puerto_Rico".
Proof. simpl. intuition congruence. Qed.

Section Classification.

Context {C : Type} {cells : Cell C}.

Lemma between_number lo (x : C) hi v w :
  value_of x = Number v ->
  between lo x hi w = (w, Returned ((lo <=? v)%float && (v <=? hi)%float)).
Proof.
  intros E. unfold between, float_le, le_float, bind, ret. rewrite E.
  now destruct (lo <=? v)%float.
Qed.

Lemma between_text lo (x : C) hi s w :
  value_of x = Text s ->
  exists e, between lo x hi w = (w, Raised e) /\ exc_class e = "TypeError".
Proof.
  intros E. unfold between, float_le, bind, raise. rewrite E.
  eexists. split; reflexivity.
Qed.

Ltac open_in_region Hname :=
  apply in_five_boxes in Hname;
  destruct Hname as [->|[->|[->|[->| ->]]]];
  unfold in_region, in_box, closed_box;
  cbn [REGIONS getitem lookup String.eqb Ascii.eqb Bool.eqb bind ret].

(** Each test of [classify_region] on a point given by two numbers finds its
    box and is the closed-box membership of the point. *)
Lemma in_region_numbers name (lat lon : C) a b w :
  In name ["Alaska_west_dateline"; "Alaska_main"; "Alaska_east_dateline";
           "Hawaii"; "Puerto_Rico"] ->
  value_of lat = Number a -> value_of lon = Number b ->
  in_region name lat lon w = (w, Returned (in_box name a b)).
Proof.
  intros Hname Ea Eb. open_in_region Hname.
  all: rewrite (bind_returned _ _ _ _ _ (between_number _ lat _ a w Ea));
    destruct (_ && _); [rewrite (between_number _ lon _ b w Eb)|];
    reflexivity.
Qed.

(** A latitude that is a text fails the first comparison of the test. *)
Lemma in_region_text_latitude name (lat lon : C) s w :
  In name ["Alaska_west_dateline"; "Alaska_main"; "Alaska_east_dateline";
           "Hawaii"; "Puerto_Rico"] ->
  value_of lat = Text s ->
  exists e, in_region name lat lon w = (w, Raised e)
            /\ exc_class e = "TypeError".
Proof.
  intros Hname Es. open_in_region Hname.
  all: match goal with
       | |- context [between ?lo ?x ?hi] =>
           destruct (between_text lo x hi s w Es) as [e [E He]]
       end;
    exists e; split; [now apply bind_raised|exact He].
Qed.

(** A longitude that is a text is compared only when the latitude is in the
    range of the box. *)
Lemma in_region_text_longitude name (lat lon : C) a t w :
  In name ["Alaska_west_dateline"; "Alaska_main"; "Alaska_east_dateline";
           "Hawaii"; "Puerto_Rico"] ->
  value_of lat = Number a -> value_of lon = Text t ->
  returns_or_TypeError (in_region name lat lon) w false.
Proof.
  intros Hname Ea Et. unfold returns_or_TypeError. open_in_region Hname.
  all: rewrite (bind_returned _ _ _ _ _ (between_number _ lat _ a w Ea));
    destruct (_ && _); [right|left; reflexivity];
    match goal with
    | |- context [between ?lo ?x ?hi] =>
        destruct (between_text lo x hi t w Et) as [e [E He]]
    end;
    now exists e.
Qed.

Lemma in_box_no_number name lat :
  In name ["Alaska_west_dateline"; "Alaska_main"; "Alaska_east_dateline";
           "Hawaii"; "Puerto_Rico"] ->
  in_box name lat nan = false.
Proof.
  intros Hname. apply in_five_boxes in Hname.
  destruct Hname as [->|[->|[->|[->| ->]]]]; unfold in_box, closed_box; cbn;
    now rewrite andb_false_r.
Qed.

Ltac next_box name :=
  match goal with
  | Ea : value_of _ = Number _, Eb : value_of _ = Number _ |- _ =>
      rewrite (bind_returned _ _ _ _ _
                 (in_region_numbers name _ _ _ _ _ ltac:(simpl; tauto) Ea Eb))
  end.

(** The label of a row whose coordinates are numbers. *)
Lemma classify_region_numbers (r : row_of C) a b w :
  value_of (latitude r) = Number a -> value_of (longitude r) = Number b ->
  classify_region r w = (w, Returned (region_by_precedence a b)).
Proof.
  intros Ea Eb. unfold classify_region, region_by_precedence, in_alaska.
  cbv zeta.
  next_box "Alaska_west_dateline".
  destruct (in_box "Alaska_west_dateline" _ _); [reflexivity|].
  next_box "Alaska_main".
  destruct (in_box "Alaska_main" _ _); [reflexivity|].
  next_box "Alaska_east_dateline".
  destruct (in_box "Alaska_east_dateline" _ _); [reflexivity|].
  next_box "Hawaii".
  destruct (in_box "Hawaii" _ _); [reflexivity|].
  next_box "Puerto_Rico".
  destruct (in_box "Puerto_Rico" _ _); reflexivity.
Qed.

(** A row whose latitude is a text cannot be classified. *)
Lemma classify_region_text_latitude (r : row_of C) s w :
  value_of (latitude r) = Text s ->
  exists e, classify_region r w = (w, Raised e) /\ exc_class e = "TypeError".
Proof.
  intros Es. unfold classify_region. cbv zeta.
  destruct (in_region_text_latitude "Alaska_west_dateline" (latitude r)
              (longitude r) s w ltac:(simpl; tauto) Es) as [e [E He]].
  exists e. split; [|exact He]. now apply bind_raised.
Qed.

Ltac next_band name :=
  match goal with
  | Ea : value_of _ = Number _, Et : value_of _ = Text _
    |- context [bind (in_region name ?lat ?lon) ?k ?w] =>
      let E := fresh "E" in
      let e := fresh "e" in
      let He := fresh "He" in
      destruct (in_region_text_longitude name lat lon _ _ w
                  ltac:(simpl; tauto) Ea Et) as [E|[e [E He]]];
      [ rewrite (bind_returned _ _ _ _ _ E)
      | right; exists e; split; [now apply bind_raised|exact He] ]
  end.

(** A row whose longitude is a text gets the default label when its latitude
    is in the range of no box, and cannot be classified otherwise. *)
Lemma classify_region_text_longitude (r : row_of C) a t w :
  value_of (latitude r) = Number a -> value_of (longitude r) = Text t ->
  returns_or_TypeError (classify_region r) w "Conterminous US".
Proof.
  intros Ea Et. unfold returns_or_TypeError, classify_region. cbv zeta.
  next_band "Alaska_west_dateline".
  next_band "Alaska_main".
  next_band "Alaska_east_dateline".
  next_band "Hawaii".
  next_band "Puerto_Rico".
  left. reflexivity.
Qed.

(** Classification changes nothing; what it returns is the label of the
    point by ordered precedence, a text counting as no number; what it
    raises is a [TypeError]. *)
Lemma classify_region_outcome (r : row_of C) w :
  returns_or_TypeError (classify_region r) w
    (region_by_precedence (number_of (latitude r)) (number_of (longitude r))).
Proof.
  unfold number_of.
  destruct (value_of (latitude r)) as [a|s] eqn:Ea.
  - destruct (value_of (longitude r)) as [b|t] eqn:Eb.
    + left. now apply classify_region_numbers.
    + replace (region_by_precedence a nan) with "Conterminous US".
      * now apply (classify_region_text_longitude r a t).
      * unfold region_by_precedence, in_alaska.
        now rewrite !in_box_no_number by (simpl; tauto).
  - right. now apply (classify_region_text_latitude r s).
Qed.

Lemma classify_region_returned (r : row_of C) w w' label :
  classify_region r w = (w', Returned label) ->
  w' = w
  /\ label = region_by_precedence (number_of (latitude r))
               (number_of (longitude r)).
Proof.
  destruct (classify_region_outcome r w) as [->|[e [-> _]]];
    [|discriminate].
  now intros [= <- <-].
Qed.

Lemma classify_region_raised (r : row_of C) w w' e :
  classify_region r w = (w', Raised e) ->
  w' = w /\ exc_class e = "TypeError"
  /\ (is_text (value_of (latitude r)) = true
      \/ is_text (value_of (longitude r)) = true).
Proof.
  intros E.
  destruct (value_of (latitude r)) as [a|s] eqn:Ea.
  - destruct (value_of (longitude r)) as [b|t] eqn:Eb.
    + rewrite (classify_region_numbers r a b w Ea Eb) in E. discriminate.
    + destruct (classify_region_text_longitude r a t w Ea Eb)
        as [E'|[e' [E' He]]]; rewrite E' in E; [discriminate|].
      injection E as <- <-. repeat split; [exact He|now right].
  - destruct (classify_region_text_latitude r s w Ea) as [e' [E' He]].
    rewrite E' in E. injection E as <- <-. repeat split; [exact He|now left].
Qed.

(** The whole column: the labels of the rows, or the [TypeError] of the
    first row that cannot be classified. *)
Lemma apply_classify_region_outcome (df : list (row_of C)) w :
  returns_or_TypeError (apply_classify_region df) w (with_region df).
Proof.
  unfold returns_or_TypeError.
  induction df as [|r rest IH]; simpl; [now left|].
  destruct (classify_region_outcome r w) as [E|[e [E He]]].
  - rewrite (bind_returned _ _ _ _ _ E).
    destruct IH as [E'|[e [E' He]]].
    + left. now rewrite (bind_returned _ _ _ _ _ E').
    + right. exists e. split; [now apply bind_raised|exact He].
  - right. exists e. split; [now apply bind_raised|exact He].
Qed.

Lemma apply_classify_region_returned (df : list (row_of C)) w w' labelled :
  apply_classify_region df w = (w', Returned labelled) ->
  w' = w /\ labelled = with_region df.
Proof.
  destruct (apply_classify_region_outcome df w) as [->|[e [-> _]]];
    [|discriminate].
  now intros [= <- <-].
Qed.

Lemma apply_classify_region_raised (df : list (row_of C)) w w' e :
  apply_classify_region df w = (w', Raised e) ->
  w' = w /\ exc_class e = "TypeError".
Proof.
  destruct (apply_classify_region_outcome df w) as [->|[e' [-> He]]];
    [discriminate|].
  now intros [= <- <-].
Qed.

(** The column cannot be computed only when a coordinate of some row is a
    text. *)
Lemma apply_classify_region_raised_row (df : list (row_of C)) w w' e :
  apply_classify_region df w = (w', Raised e) ->
  exists r,
    In r df
    /\ (is_text (value_of (latitude r)) = true
        \/ is_text (value_of (longitude r)) = true).
Proof.
  revert w' e. induction df as [|r rest IH]; intros w' e; simpl;
    [discriminate|].
  unfold bind at 1.
  destruct (classify_region r w) as [w1 [label|e1]] eqn:E.
  - apply classify_region_returned in E as [-> _].
    unfold bind at 1.
    destruct (apply_classify_region rest w) as [w2 [labelled|e2]] eqn:E';
      [discriminate|].
    intros _. destruct (IH w2 e2 eq_refl) as [r' [Hin Htext]].
    exists r'. split; [now right|exact Htext].
  - intros _. apply classify_region_raised in E as (_ & _ & Htext).
    exists r. split; [now left|exact Htext].
Qed.

End Classification.

(** Each test of [classify_region] finds its box and is the closed-box
    membership of the point. *)
Lemma in_region_in_box name (lat lon : float) w :
  In name ["Alaska_west_dateline"; "Alaska_main"; "Alaska_east_dateline";
           "Hawaii"; "Puerto_Rico"] ->
  in_region name lat lon w = (w, Returned (in_box name lat lon)).
Proof. intros Hname. now apply in_region_numbers. Qed.

Lemma classify_region_label (r : row) w :
  classify_region r w
  = (w, Returned (region_by_precedence (latitude r) (longitude r))).
Proof. now apply classify_region_numbers. Qed.

Lemma apply_classify_region_with_region (df : list row) w :
  apply_classify_region df w = (w, Returned (with_region df)).
Proof.
  induction df as [|r rest IH]; simpl; [reflexivity|].
  rewrite (bind_returned _ _ _ _ _ (classify_region_label r w)).
  rewrite (bind_returned _ _ _ _ _ IH). reflexivity.
Qed.

(** C1. On every frame (the deduplicated one in particular) the [region]
    column is computed row by row from latitude and longitude alone, by
    ordered precedence over closed-box membership: "Alaska" when the point is
    in any of the three Alaska boxes, otherwise "Hawaii" when in the Hawaii
    box, otherwise "Puerto Rico" when in the Puerto Rico box, otherwise
    "Conterminous US".  On a frame whose coordinates are numbers the
    function raises nothing and changes nothing.  On any frame it labels
    the rows whose coordinates are numbers in the same way; and when it
    returns, the labels are those of ordered precedence, a coordinate that
    is a text lying in no box; it can only raise a [TypeError], and only
    when a coordinate of some row is a text. *)
Theorem classify_region_precedence (df : list row) (w : world) :
  apply_classify_region (drop_duplicates df) w
  = (w, Returned
          (map (fun r =>
                  Labelled r
                    (if in_box "Alaska_west_dateline" (latitude r) (longitude r)
                        || in_box "Alaska_main" (latitude r) (longitude r)
                        || in_box "Alaska_east_dateline" (latitude r) (longitude r)
                     then "Alaska"
                     else if in_box "Hawaii" (latitude r) (longitude r)
                     then "Hawaii"
                     else if in_box "Puerto_Rico" (latitude r) (longitude r)
                     then "Puerto Rico"
                     else "Conterminous US"))
               (drop_duplicates df)))
  /\ (forall r r' : row,
        latitude r = latitude r' -> longitude r = longitude r' ->
        classify_region r w = classify_region r' w)
  /\ (forall lat lon,
        in_box "Alaska_west_dateline" lat lon
        = closed_box 50.0 72.0 (-180.0) (-169.5) lat lon
        /\ in_box "Alaska_main" lat lon
          = closed_box 54.0 72.0 (-169.5) (-129.0) lat lon
        /\ in_box "Alaska_east_dateline" lat lon
          = closed_box 50.0 72.0 170.0 180.0 lat lon
        /\ in_box "Hawaii" lat lon
          = closed_box 18.5 22.5 (-161.0) (-154.5) lat lon
        /\ in_box "Puerto_Rico" lat lon
          = closed_box 17.5 18.8 (-67.5) (-64.0) lat lon)
  /\ (forall (r : raw_row) lat lon,
        latitude r = Number lat -> longitude r = Number lon ->
        classify_region r w
        = (w, Returned
                (if in_box "Alaska_west_dateline" lat lon
                    || in_box "Alaska_main" lat lon
                    || in_box "Alaska_east_dateline" lat lon
                 then "Alaska"
                 else if in_box "Hawaii" lat lon then "Hawaii"
                 else if in_box "Puerto_Rico" lat lon then "Puerto Rico"
                 else "Conterminous US")))
  /\ (forall (raw : list raw_row) w' labels,
        apply_classify_region (drop_duplicates raw) w
        = (w', Returned labels) ->
        w' = w
        /\ labels
           = map (fun r =>
                    Labelled r
                      (region_by_precedence (number_of (latitude r))
                         (number_of (longitude r))))
               (drop_duplicates raw))
  /\ (forall (raw : list raw_row) w' e,
        apply_classify_region (drop_duplicates raw) w = (w', Raised e) ->
        w' = w /\ exc_class e = "TypeError"
        /\ exists r,
             In r (drop_duplicates raw)
             /\ (is_text (latitude r) = true
                 \/ is_text (longitude r) = true))
  /\ (forall (lat : float) s,
        number_of (Number lat) = lat /\ number_of lat = lat
        /\ forall name, in_box name lat (number_of (Text s)) = false)
  /\ (forall lat lon,
        region_by_precedence lat lon
        = if in_box "Alaska_west_dateline" lat lon
             || in_box "Alaska_main" lat lon
             || in_box "Alaska_east_dateline" lat lon
          then "Alaska"
          else if in_box "Hawaii" lat lon then "Hawaii"
          else if in_box "Puerto_Rico" lat lon then "Puerto Rico"
          else "Conterminous US").
Proof.
  split; [apply apply_classify_region_with_region|].
  split; [|split; [|split; [|split; [|split; [|split]]]]].
  7: { intros lat lon. reflexivity. }
  - intros r r' Hlat Hlon. rewrite !classify_region_label, Hlat, Hlon.
    reflexivity.
  - intros lat lon. repeat split; reflexivity.
  - intros r lat lon Hlat Hlon.
    now apply (classify_region_numbers r lat lon w).
  - intros raw w' labels. apply apply_classify_region_returned.
  - intros raw w' e Hraised.
    destruct (apply_classify_region_raised _ _ _ _ Hraised) as [-> He].
    split; [reflexivity|split; [exact He|]].
    exact (apply_classify_region_raised_row _ _ _ _ Hraised).
  - intros lat s. split; [reflexivity|split; [reflexivity|]].
    intros name. unfold in_box, closed_box.
    destruct (lookup name REGIONS) as [box|]; [|reflexivity].
    destruct (lookup "lat_min" box); [|reflexivity].
    destruct (lookup "lat_max" box); [|reflexivity].
    destruct (lookup "lon_min" box) as [lon_min|]; [|reflexivity].
    destruct (lookup "lon_max" box); [|reflexivity].
    change (number_of (Text s)) with nan.
    replace (lon_min <=? nan)%float with false; [now rewrite andb_false_r|].
    symmetry. rewrite leb_spec. unfold SFleb, SFcompare.
    change (Prim2SF nan) with S754_nan. now destruct (Prim2SF lon_min).
Qed.

(** ** The fetch phase *)

Lemma log_nil w : log [] w = w.
Proof. destruct w. unfold log. simpl. now rewrite app_nil_r. Qed.

Lemma log_log evs evs' w : log evs' (log evs w) = log (evs ++ evs') w.
Proof. unfold log. simpl. now rewrite app_assoc. Qed.

Lemma emit_log ev w : emit ev w = (log [ev] w, Returned tt).
Proof. reflexivity. Qed.

Lemma getitem_bound bounds key w :
  lookup key bounds <> None ->
  getitem bounds key w = (w, Returned (bound_of bounds key)).
Proof.
  unfold getitem, bound_of. destruct (lookup key bounds); [reflexivity|].
  congruence.
Qed.

Section FetchPhase.

Variable requests_get : string -> query -> Z -> http_result.

(** One call: three events, no file touched, never an exception. *)
Lemma download_earthquakes_run start_date end_date region_name bounds w :
  download_earthquakes requests_get start_date end_date region_name
    (bound_of bounds "lat_min") (bound_of bounds "lat_max")
    (bound_of bounds "lon_min") (bound_of bounds "lon_max") 4.5%float w
  = (log (download_events requests_get start_date end_date region_name bounds) w,
     Returned (response_text (answer requests_get start_date end_date bounds))).
Proof.
  unfold download_earthquakes, download_events, answer, try_except,
    requests_get_call, print, bind, emit, raise, ret, log.
  fold (query_for start_date end_date bounds). simpl.
  destruct (requests_get base_url (query_for start_date end_date bounds) 30%Z)
    as [status_code text|e]; simpl.
  - destruct (status_code =? 200)%Z; simpl; rewrite <- !app_assoc;
      reflexivity.
  - rewrite <- !app_assoc. reflexivity.
Qed.

Lemma contribution_truthy csv_text period_data :
  match csv_text with
  | Some text => if truthy csv_text then period_data ++ [text] else period_data
  | None => period_data
  end = period_data ++ contribution csv_text.
Proof.
  destruct csv_text as [[|c rest]|]; simpl; now rewrite ?app_nil_r.
Qed.

Lemma region_loop_run start_date end_date regions :
  Forall (fun named => has_bounds (snd named)) regions ->
  forall period_data w,
    region_loop requests_get start_date end_date regions period_data w
    = (log (region_events requests_get start_date end_date regions) w,
       Returned (period_data
                 ++ period_data_of requests_get start_date end_date regions)).
Proof.
  induction 1 as [|[region_name bounds] rest (Hlat & Hlat' & Hlon & Hlon') _ IH];
    intros period_data w; simpl in *.
  - now rewrite log_nil, app_nil_r.
  - rewrite (bind_returned _ _ _ _ _ (getitem_bound bounds _ w Hlat)).
    rewrite (bind_returned _ _ _ _ _ (getitem_bound bounds _ w Hlat')).
    rewrite (bind_returned _ _ _ _ _ (getitem_bound bounds _ w Hlon)).
    rewrite (bind_returned _ _ _ _ _ (getitem_bound bounds _ w Hlon')).
    rewrite (bind_returned _ _ _ _ _
               (download_earthquakes_run start_date end_date region_name bounds w)).
    unfold sleep.
    rewrite (bind_returned _ _ _ _ _ (emit_log _ _)).
    rewrite contribution_truthy, IH, !log_log, <- !app_assoc. reflexivity.
Qed.

Lemma REGIONS_have_bounds : Forall (fun named => has_bounds (snd named)) REGIONS.
Proof. repeat constructor; simpl; discriminate. Qed.

Lemma period_loop_run n periods : forall all_data w,
  period_loop requests_get n periods all_data w
  = (log (period_events requests_get n periods) w,
     Returned (all_data ++ all_data_of requests_get periods)).
Proof.
  induction periods as [|[i [start_date end_date]] rest IH];
    intros all_data w.
  - simpl. now rewrite log_nil, app_nil_r.
  - cbn [period_loop period_events all_data_of flat_map fst snd].
    unfold print, sleep.
    rewrite (bind_returned _ _ _ _ _ (emit_log _ _)).
    rewrite (bind_returned _ _ _ _ _
               (region_loop_run start_date end_date REGIONS
                  REGIONS_have_bounds [] _)).
    rewrite (bind_returned _ _ _ _ _ (emit_log _ _)).
    rewrite IH, !log_log. cbn [app]. rewrite <- !app_assoc. reflexivity.
Qed.

End FetchPhase.

(** ** The whole run of the fetcher *)

Lemma lookup_store_same {V} key (v : V) d : lookup key (store key v d) = Some v.
Proof.
  induction d as [|[k v'] rest IH]; simpl.
  - now rewrite String.eqb_refl.
  - destruct (String.eqb k key) eqn:E; simpl; rewrite E; [reflexivity|exact IH].
Qed.

Lemma lookup_store_other {V} key key' (v : V) d :
  key <> key' -> lookup key (store key' v d) = lookup key d.
Proof.
  intros Hne. induction d as [|[k v'] rest IH]; simpl.
  - destruct (String.eqb_spec key' key); [congruence|reflexivity].
  - destruct (String.eqb_spec k key') as [->|Hk]; simpl.
    + destruct (String.eqb_spec key' key); [congruence|reflexivity].
    + destruct (String.eqb_spec k key); [reflexivity|exact IH].
Qed.

Lemma lookup_discard_same {V} key (d : list (string * V)) :
  lookup key (discard key d) = None.
Proof.
  induction d as [|[k v] rest IH]; simpl; [reflexivity|].
  destruct (String.eqb k key) eqn:E; simpl; [exact IH|now rewrite E].
Qed.

Lemma lookup_discard_other {V} key key' (d : list (string * V)) :
  key <> key' -> lookup key (discard key' d) = lookup key d.
Proof.
  intros Hne. induction d as [|[k v] rest IH]; simpl; [reflexivity|].
  destruct (String.eqb_spec k key') as [->|Hk]; simpl.
  - destruct (String.eqb_spec key' key); [congruence|exact IH].
  - destruct (String.eqb_spec k key); [reflexivity|exact IH].
Qed.

Section WholeRun.

Variable requests_get : string -> query -> Z -> http_result.
Variable read_header : string -> list string.
Variable parse_record : string -> string -> option raw_row.
Variable on_empty_frame : list string -> result unit.
Variable min_max : list (option string) -> result (option string * option string).
Variable to_csv_text : list raw_labelled -> string.

Lemma drop_duplicates_of_run {C} {cells : Cell C} columns
    (df : list (row_of C)) w :
  drop_duplicates_of columns df w
  = (w, match missing_key columns df with
        | [] => Returned (drop_duplicates df)
        | name :: names =>
            Raised (KeyError (String.concat ", " (name :: names)))
        end).
Proof.
  unfold drop_duplicates_of, missing_key. destruct df as [|r rest];
    [reflexivity|].
  now destruct (missing_columns columns subset).
Qed.

(** Lines 185 to 188 change nothing; what they return is the labelled
    frame. *)
Lemma classify_rows_outcome columns (df : list raw_row) w :
  classify_rows on_empty_frame columns df w = (w, Returned (with_region df))
  \/ exists e, classify_rows on_empty_frame columns df w = (w, Raised e).
Proof.
  unfold classify_rows. destruct df as [|r rest].
  - destruct (on_empty_frame columns); [now left|right; eauto].
  - destruct (apply_classify_region_outcome (r :: rest) w)
      as [E|[e [E _]]]; [now left|right; eauto].
Qed.

(** The run in one equation: the fetch phase always completes; with no text
    kept the script prints one more line and ends; otherwise it writes the
    combined text and reads it back, raising when no line or no row can be
    read; it then raises when a column of the key is not there or the rows
    cannot be classified; otherwise it writes the output frame, and prints
    the summary, raising when the dates or the magnitudes cannot be
    summarised, before removing the temporary file. *)
Lemma DataDownloader_run w :
  DataDownloader requests_get read_header parse_record on_empty_frame
    min_max to_csv_text w
  = let w1 := log (fetch_events requests_get) w in
    match all_data requests_get with
    | [] => (log (fetch_events requests_get ++ [Print MsgNoData]) w,
             Returned tt)
    | first :: later =>
        let combined_text := combine_texts first later in
        let w2 := World (store temp_path combined_text (files w1)) (trace w1) in
        match csv_lines combined_text with
        | [] => (w2, Raised EmptyDataError)
        | header :: records =>
            match parse_records parse_record header records with
            | None => (w2, Raised (ParserError header))
            | Some rows =>
                let columns := read_header header in
                let w3 := log [Print (MsgRawTotal (List.length rows))] w2 in
                match missing_key columns rows with
                | name :: names =>
                    (w3, Raised (KeyError (String.concat ", " (name :: names))))
                | [] =>
                    let w4 :=
                      log [Print (MsgAfterDedup
                                    (List.length (drop_duplicates rows)))] w3 in
                    match classify_rows on_empty_frame columns
                            (drop_duplicates rows) w4 with
                    | (_, Raised e) => (w4, Raised e)
                    | (_, Returned _) =>
                        let df := output_frame rows in
                        let w5 :=
                          World (store output_path (to_csv_text df) (files w4))
                            (trace w4 ++ [Print (MsgSuccess (List.length df))]) in
                        match min_max (map (fun x => time (event x)) df) with
                        | Raised e => (w5, Raised e)
                        | Returned dates =>
                            let w6 :=
                              log [Print (MsgDateRange (fst dates) (snd dates))]
                                w5 in
                            match magnitude_outcome columns
                                    (map (fun x => mag (event x)) df) with
                            | Raised e => (w6, Raised e)
                            | Returned _ =>
                                (World (discard temp_path (files w6))
                                   (trace w6
                                    ++ [Print (MsgSummary df output_path)]),
                                 Returned tt)
                            end
                        end
                    end
                end
            end
        end
    end.
Proof.
  unfold DataDownloader, print.
  rewrite (bind_returned _ _ _ _ _ (emit_log _ _)).
  rewrite (bind_returned _ _ _ _ _ (emit_log _ _)).
  rewrite (bind_returned _ _ _ _ _ (emit_log _ _)).
  rewrite (bind_returned _ _ _ _ _ (period_loop_run requests_get _ _ [] _)).
  rewrite (bind_returned _ _ _ _ _ (emit_log _ _)).
  rewrite (bind_returned _ _ _ _ _ (emit_log _ _)).
  rewrite (bind_returned _ _ _ _ _ (emit_log _ _)).
  rewrite !log_log. cbn [app]. fold (all_data requests_get).
  change (log (_ :: _) w) with (log (fetch_events requests_get) w).
  set (w1 := log (fetch_events requests_get) w).
  destruct (all_data requests_get) as [|first later];
    [rewrite emit_log; unfold w1; now rewrite log_log|].
  set (combined_text := combine_texts first later).
  unfold write_file at 1. unfold bind at 1.
  unfold read_csv, read_file. unfold bind at 1. unfold bind at 1.
  cbn [files trace]. rewrite lookup_store_same.
  unfold columns_of.
  destruct (csv_lines combined_text) as [|header records]; [reflexivity|].
  destruct (parse_records parse_record header records) as [rows|];
    [|reflexivity].
  unfold ret at 1. cbv beta iota zeta. cbn [hd].
  rewrite (bind_returned _ _ _ _ _ (emit_log _ _)).
  unfold bind at 1. rewrite drop_duplicates_of_run.
  destruct (missing_key (read_header header) rows) as [|name names];
    [|reflexivity].
  rewrite (bind_returned _ _ _ _ _ (emit_log _ _)).
  match goal with
  | |- context [classify_rows _ ?columns ?df ?w4] =>
      destruct (classify_rows_outcome columns df w4) as [E|[e E]]
  end.
  2: { rewrite (bind_raised _ _ _ _ _ E), E. reflexivity. }
  rewrite (bind_returned _ _ _ _ _ E), E.
  fold (output_frame rows).
  unfold to_csv, write_file. unfold bind at 1.
  rewrite (bind_returned _ _ _ _ _ (emit_log _ _)).
  unfold date_range. unfold bind at 1.
  destruct (min_max _) as [dates|e]; [|reflexivity].
  rewrite (bind_returned _ _ _ _ _ (emit_log _ _)).
  unfold magnitude_range. unfold bind at 1.
  destruct (magnitude_outcome _ _) as [[]|e]; [|reflexivity].
  rewrite (bind_returned _ _ _ _ _ (emit_log _ _)).
  unfold os_remove, log. cbn [files trace].
  rewrite (lookup_store_other temp_path output_path), lookup_store_same
    by discriminate.
  rewrite <- !app_assoc. reflexivity.
Qed.

End WholeRun.

(** ** Failed requests *)

Lemma failed_response_text res : failed res -> response_text res = None.
Proof.
  destruct res as [status_code text|e]; simpl; [|reflexivity].
  intros H. destruct (Z.eqb_spec status_code 200); [contradiction|reflexivity].
Qed.

Lemma failed_outcome_message res :
  failed res ->
  outcome_message res
  = match res with
    | Response status_code _ => MsgErrorStatus status_code
    | Raises e => MsgException e
    end.
Proof.
  destruct res as [status_code text|e]; simpl; [|reflexivity].
  intros H. destruct (Z.eqb_spec status_code 200); [contradiction|reflexivity].
Qed.

Lemma flat_map_all_nil {A B} (f : A -> list B) (l : list A) :
  (forall x, In x l -> f x = []) -> flat_map f l = [].
Proof.
  induction l as [|x l IH]; simpl; intros H; [reflexivity|].
  rewrite (H x (or_introl eq_refl)), IH; [reflexivity|].
  intros y Hy. apply H. now right.
Qed.

Lemma period_data_of_app requests_get start_date end_date before after :
  period_data_of requests_get start_date end_date (before ++ after)
  = period_data_of requests_get start_date end_date before
    ++ period_data_of requests_get start_date end_date after.
Proof. unfold period_data_of. apply flat_map_app. Qed.

(** C5. When the request for a time window and a region box answers with a
    status other than 200 or raises, [download_earthquakes] logs the failure
    and returns [None], raising nothing and touching no file; the loop goes
    on to the next region with [period_data] unchanged, so the pairing adds
    nothing to the accumulated data.  Whatever the requests do, the fetch
    loop runs to its end: a failed request never aborts the run. *)
Theorem failed_request_contributes_nothing
    (requests_get : string -> query -> Z -> http_result)
    (start_date end_date region_name : string)
    (bounds : list (string * float))
    (before after : list (string * list (string * float)))
    (period_data : list string) (w : world) :
  has_bounds bounds ->
  failed (answer requests_get start_date end_date bounds) ->
  download_earthquakes requests_get start_date end_date region_name
    (bound_of bounds "lat_min") (bound_of bounds "lat_max")
    (bound_of bounds "lon_min") (bound_of bounds "lon_max") 4.5%float w
  = (log [ Print (MsgRequest region_name start_date end_date);
           Get base_url (query_for start_date end_date bounds) 30%Z;
           Print match answer requests_get start_date end_date bounds with
                 | Response status_code _ => MsgErrorStatus status_code
                 | Raises e => MsgException e
                 end ] w,
     Returned None)
  /\ region_loop requests_get start_date end_date
       ((region_name, bounds) :: after) period_data w
     = region_loop requests_get start_date end_date after period_data
         (log (download_events requests_get start_date end_date region_name
                 bounds ++ [Sleep 1]) w)
  /\ period_data_of requests_get start_date end_date
       (before ++ (region_name, bounds) :: after)
     = period_data_of requests_get start_date end_date (before ++ after)
  /\ (forall w0,
        period_loop requests_get (List.length date_ranges)
          (enumerate 1 date_ranges) [] w0
        = (log (period_events requests_get (List.length date_ranges)
                  (enumerate 1 date_ranges)) w0,
           Returned (all_data requests_get))).
Proof.
  intros Hbounds Hfailed.
  pose proof (failed_response_text _ Hfailed) as Htext.
  pose proof (failed_outcome_message _ Hfailed) as Hmsg.
  split; [|split; [|split]].
  - rewrite download_earthquakes_run, Htext. unfold download_events.
    now rewrite Hmsg.
  - destruct Hbounds as (Hlat & Hlat' & Hlon & Hlon').
    cbn [region_loop].
    rewrite (bind_returned _ _ _ _ _ (getitem_bound bounds _ w Hlat)).
    rewrite (bind_returned _ _ _ _ _ (getitem_bound bounds _ w Hlat')).
    rewrite (bind_returned _ _ _ _ _ (getitem_bound bounds _ w Hlon)).
    rewrite (bind_returned _ _ _ _ _ (getitem_bound bounds _ w Hlon')).
    rewrite (bind_returned _ _ _ _ _
               (download_earthquakes_run requests_get start_date end_date
                  region_name bounds w)).
    rewrite Htext. unfold sleep.
    rewrite (bind_returned _ _ _ _ _ (emit_log _ _)).
    now rewrite log_log.
  - rewrite !period_data_of_app. f_equal.
    unfold period_data_of at 1. cbn [flat_map snd]. now rewrite Htext.
  - intros w0. apply (period_loop_run requests_get _ _ [] w0).
Qed.

Lemma failed_request_contributes_nothing_witness :
  download_earthquakes (fun _ _ _ => Response 503 "Service Unavailable")
    "1925-01-01" "1934-12-31" "Hawaii"
    18.5%float 22.5%float (-161.0)%float (-154.5)%float 4.5%float
    (World [] [])
  = (World []
       [ Print (MsgRequest "Hawaii" "1925-01-01" "1934-12-31");
         Get base_url
           (Query "csv" "1925-01-01" "1934-12-31" 4.5%float 18.5%float
              22.5%float (-161.0)%float (-154.5)%float "time") 30%Z;
         Print (MsgErrorStatus 503) ],
     Returned None).
Proof.
  refine (proj1 (failed_request_contributes_nothing
                   (fun _ _ _ => Response 503 "Service Unavailable")
                   "1925-01-01" "1934-12-31" "Hawaii"
                   [ ("lat_min", 18.5%float); ("lat_max", 22.5%float);
                     ("lon_min", (-161.0)%float); ("lon_max", (-154.5)%float) ]
                   [] [] [] (World [] []) _ _)).
  - repeat split; discriminate.
  - simpl. discriminate.
Defined.

(** C10. When every request fails, no text is kept and the script ends
    normally: after the fetch phase it prints the three banner lines and the
    no-data line and nothing else, and the files are those it started with
    (neither the temporary file nor the output file is written). *)
Theorem total_failure_writes_nothing
    (requests_get : string -> query -> Z -> http_result)
    (read_header : string -> list string)
    (parse_record : string -> string -> option raw_row)
    (on_empty_frame : list string -> result unit)
    (min_max : list (option string)
               -> result (option string * option string))
    (to_csv_text : list raw_labelled -> string) (w : world) :
  (forall url params timeout, failed (requests_get url params timeout)) ->
  all_data requests_get = []
  /\ DataDownloader requests_get read_header parse_record on_empty_frame
    min_max
       to_csv_text w
     = (World (files w)
          (trace w
           ++ [ Print (MsgDownloading 14); Print MsgRegions; Print MsgRule ]
           ++ period_events requests_get 14 (enumerate 1 date_ranges)
           ++ [ Print MsgRule; Print MsgProcessing; Print MsgRule;
                Print MsgNoData ]),
        Returned tt)
  /\ List.length
       (filter (fun ev => match ev with Get _ _ _ => true | _ => false end)
          (period_events requests_get 14 (enumerate 1 date_ranges)))
     = (14 * 6)%nat
  /\ Forall (fun ev => match ev with
                       | Print (MsgRawTotal _) | Print (MsgAfterDedup _)
                       | Print (MsgSummary _ _) => False
                       | _ => True
                       end)
       (period_events requests_get 14 (enumerate 1 date_ranges)).
Proof.
  intros Hfail.
  assert (Hnone : all_data requests_get = []).
  { unfold all_data, all_data_of. apply flat_map_all_nil. intros p _.
    unfold period_data_of. apply flat_map_all_nil. intros named _.
    unfold answer. now rewrite (failed_response_text _ (Hfail _ _ _)). }
  split; [exact Hnone|split; [|split]].
  - rewrite DataDownloader_run, Hnone. cbv zeta. unfold log, fetch_events.
    change (List.length date_ranges) with 14%nat.
    rewrite <- !app_assoc. reflexivity.
  - reflexivity.
  - unfold period_events. apply Forall_flat_map. repeat constructor.
    all: unfold region_events; try (apply Forall_app; split);
      try (apply Forall_flat_map); repeat constructor.
    all: unfold outcome_message; repeat constructor.
    all: destruct (answer _ _ _ _) as [status_code text|e];
      [destruct (status_code =? 200)%Z|]; exact I.
Qed.

Lemma total_failure_writes_nothing_witness :
  files (fst (DataDownloader
                (fun _ _ _ => Raises (PyExc "ConnectionError" "unreachable"))
                (fun _ => []) (fun _ _ => None) (fun _ => Returned tt)
                (fun _ => Returned (None, None)) (fun _ => "")
                (World [("notes.txt", "kept")] [])))
  = [("notes.txt", "kept")].
Proof.
  rewrite (proj1 (proj2 (total_failure_writes_nothing
                           (fun _ _ _ => Raises (PyExc "ConnectionError" "unreachable"))
                           (fun _ => []) (fun _ _ => None)
                           (fun _ => Returned tt)
                           (fun _ => Returned (None, None))
                           (fun _ => "")
                           (World [("notes.txt", "kept")] [])
                           (fun _ _ _ => I)))).
  reflexivity.
Defined.

(** ** Comparing floats *)

Lemma finite_compare_eq sa ma ea sb mb eb :
  SFcompare (S754_finite sa ma ea) (S754_finite sb mb eb) = Some Eq
  <-> sa = sb /\ ma = mb /\ ea = eb.
Proof.
  unfold SFcompare.
  change (Pos.compare_cont Eq ma mb) with (Pos.compare ma mb).
  destruct sa, sb;
    try (split; [discriminate|intros (H & _); discriminate]);
    destruct (Z.compare_spec ea eb) as [He|He|He];
    destruct (Pos.compare_spec ma mb) as [Hm|Hm|Hm]; simpl;
    split; try discriminate; try (intros (_ & ? & ?); lia);
    intros _; subst; auto.
Qed.

Ltac settle_sfeqb :=
  cbn; split;
  first [ discriminate
        | intros [H1 H2]; first [congruence | discriminate H2]
        | reflexivity
        | intros _; split; [discriminate|reflexivity] ].

Lemma SFeqb_true_iff a b :
  SFeqb a b = true
  <-> a <> S754_nan /\ one_zero a = one_zero b.
Proof.
  unfold SFeqb.
  destruct a as [[]|[]| |sa ma ea], b as [[]|[]| |sb mb eb].
  all: try solve [settle_sfeqb].
  all: try solve [destruct sa; settle_sfeqb].
  all: try solve [destruct sb; settle_sfeqb].
  destruct (SFcompare _ _) as [[]|] eqn:E.
  - apply finite_compare_eq in E as (-> & -> & ->).
    split; [intros _; split; [discriminate|reflexivity]|reflexivity].
  - split; [discriminate|]. intros [_ [= -> -> ->]].
    rewrite (proj2 (finite_compare_eq sb mb eb sb mb eb)) in E by auto.
    discriminate.
  - split; [discriminate|]. intros [_ [= -> -> ->]].
    rewrite (proj2 (finite_compare_eq sb mb eb sb mb eb)) in E by auto.
    discriminate.
  - split; [discriminate|]. intros [_ [= -> -> ->]].
    rewrite (proj2 (finite_compare_eq sb mb eb sb mb eb)) in E by auto.
    discriminate.
Qed.

Lemma SFeqb_refl_iff a : SFeqb a a = true <-> a <> S754_nan.
Proof. rewrite SFeqb_true_iff. tauto. Qed.

Lemma same_number_iff x y :
  same_number x y = true <-> canonical x = canonical y.
Proof.
  unfold same_number, is_nan, canonical.
  rewrite !FloatAxioms.eqb_spec.
  set (a := Prim2SF x). set (b := Prim2SF y).
  rewrite orb_true_iff, andb_true_iff, !negb_true_iff, SFeqb_true_iff.
  split.
  - intros [[_ H]|[Ha Hb]]; [exact H|].
    destruct a; try (rewrite (proj2 (SFeqb_refl_iff _)) in Ha by discriminate;
                     discriminate).
    destruct b; try (rewrite (proj2 (SFeqb_refl_iff _)) in Hb by discriminate;
                     discriminate).
    reflexivity.
  - intros H. destruct a eqn:Ea; try (left; split; [discriminate|exact H]).
    right. destruct b as [[]| | |]; try discriminate. split; reflexivity.
Qed.

Lemma same_time_iff a b : same_time a b = true <-> a = b.
Proof.
  destruct a as [s|], b as [t|]; simpl; try (split; congruence).
  rewrite String.eqb_eq. split; congruence.
Qed.

Lemma same_value_iff a b :
  same_value a b = true <-> key_value a = key_value b.
Proof.
  destruct a as [x|s], b as [y|t]; simpl.
  - rewrite same_number_iff. split; congruence.
  - split; discriminate.
  - split; discriminate.
  - rewrite String.eqb_eq. split; congruence.
Qed.

(** ** Removing duplicates *)

Section Keys.

Context {C : Type} {cells : Cell C}.

(** Two rows have the same key exactly when they agree on the four key
    columns. *)
Lemma same_key_iff (r1 r2 : row_of C) : same_key r1 r2 = true <-> key_of r1 = key_of r2.
Proof.
  unfold same_key, key_of, same_cell.
  rewrite !andb_true_iff, same_time_iff, !same_value_iff.
  split.
  - intros [[[-> ->] ->] ->]. reflexivity.
  - intros [= -> -> -> ->]. auto.
Qed.

Lemma same_key_congruence (a b x : row_of C) :
  key_of a = key_of b -> same_key a x = same_key b x.
Proof.
  intros H. apply eq_true_iff_eq. now rewrite !same_key_iff, H.
Qed.

Lemma same_key_refl (r : row_of C) : same_key r r = true.
Proof. now apply same_key_iff. Qed.

Lemma existsb_same_key_iff (r : row_of C) l :
  existsb (same_key r) l = true <-> exists s, In s l /\ key_of r = key_of s.
Proof.
  rewrite existsb_exists. split; intros [s [Hin H]]; exists s;
    (split; [exact Hin|now apply same_key_iff]).
Qed.

Lemma existsb_seen_iff (r : row_of C) l :
  existsb (fun s => same_key s r) l = true
  <-> exists s, In s l /\ key_of r = key_of s.
Proof.
  rewrite existsb_exists. split; intros [s [Hin H]]; exists s; split;
    try exact Hin.
  - symmetry. now apply same_key_iff.
  - apply same_key_iff. now symmetry.
Qed.

Lemma drop_duplicates_from_idempotent (df : list (row_of C)) : forall seen,
  drop_duplicates_from seen (drop_duplicates_from seen df)
  = drop_duplicates_from seen df.
Proof.
  induction df as [|r rest IH]; intros seen; simpl; [reflexivity|].
  destruct (existsb (fun s => same_key s r) seen) eqn:E.
  - apply IH.
  - simpl. rewrite E. f_equal. apply IH.
Qed.

Lemma occurrences_cons (r x : row_of C) df :
  occurrences r (x :: df)
  = ((if same_key r x then 1 else 0) + occurrences r df)%nat.
Proof. unfold occurrences. simpl. now destruct (same_key r x). Qed.

(** How often a key is left: once when it occurs and was not seen before,
    otherwise not at all. *)
Lemma occurrences_drop_duplicates_from (df : list (row_of C)) :
  forall seen r,
  occurrences r (drop_duplicates_from seen df)
  = if existsb (same_key r) seen then 0%nat
    else if existsb (same_key r) df then 1%nat else 0%nat.
Proof.
  induction df as [|x rest IH]; intros seen r; simpl.
  - now destruct (existsb (same_key r) seen).
  - destruct (existsb (fun s => same_key s x) seen) eqn:Ex.
    + rewrite IH. destruct (existsb (same_key r) seen) eqn:Er; [reflexivity|].
      destruct (same_key r x) eqn:Erx; [|reflexivity]. exfalso.
      apply existsb_seen_iff in Ex as [s [Hs Hk]].
      apply same_key_iff in Erx.
      assert (existsb (same_key r) seen = true); [|congruence].
      apply existsb_same_key_iff. exists s. split; [exact Hs|congruence].
    + rewrite occurrences_cons, IH, existsb_app. simpl. rewrite orb_false_r.
      destruct (same_key r x) eqn:Erx.
      * rewrite orb_true_r. simpl.
        destruct (existsb (same_key r) seen) eqn:Er; [|reflexivity]. exfalso.
        apply existsb_same_key_iff in Er as [s [Hs Hk]].
        apply same_key_iff in Erx.
        assert (existsb (fun s => same_key s x) seen = true); [|congruence].
        apply existsb_seen_iff. exists s. split; [exact Hs|congruence].
      * rewrite orb_false_r. reflexivity.
Qed.

Lemma occurrences_drop_duplicates (r : row_of C) df :
  In r df -> occurrences r (drop_duplicates df) = 1%nat.
Proof.
  intros Hin. unfold drop_duplicates.
  rewrite occurrences_drop_duplicates_from. simpl.
  replace (existsb (same_key r) df) with true; [reflexivity|].
  symmetry. apply existsb_exists. exists r. split; [exact Hin|].
  apply same_key_refl.
Qed.

(** A row whose key is new where it stands is kept. *)
Lemma new_key_kept before (r : row_of C) after : forall seen,
  existsb (fun s => same_key s r) (seen ++ before) = false ->
  In r (drop_duplicates_from seen (before ++ r :: after)).
Proof.
  induction before as [|b more IH]; intros seen Hnew; simpl.
  - rewrite app_nil_r in Hnew. rewrite Hnew. now left.
  - destruct (existsb (fun s => same_key s b) seen).
    + apply IH. rewrite existsb_app in *. simpl in Hnew.
      apply orb_false_iff in Hnew as [-> Hnew].
      now apply orb_false_iff in Hnew as [_ ->].
    + right. apply IH. now rewrite <- app_assoc.
Qed.

End Keys.

(** C4. On every frame, removing duplicates on the key (time, latitude,
    longitude, mag) is idempotent: a second pass keeps every row of the
    first, so the rows and their number are the same. *)
Theorem drop_duplicates_idempotent {C : Type} {cells : Cell C}
    (df : list (row_of C)) :
  drop_duplicates (drop_duplicates df) = drop_duplicates df
  /\ List.length (drop_duplicates (drop_duplicates df))
     = List.length (drop_duplicates df).
Proof.
  assert (H : drop_duplicates (drop_duplicates df) = drop_duplicates df)
    by apply drop_duplicates_from_idempotent.
  split; [exact H|now rewrite H].
Qed.

Lemma parse_records_app {R} (parse_record : string -> string -> option R)
    header :
  forall records1 records2 rows1 rows2,
    parse_records parse_record header records1 = Some rows1 ->
    parse_records parse_record header records2 = Some rows2 ->
    parse_records parse_record header (records1 ++ records2)
    = Some (rows1 ++ rows2).
Proof.
  induction records1 as [|line rest IH]; intros records2 rows1 rows2; simpl.
  - intros [= <-] H. exact H.
  - destruct (parse_record header line) as [r|]; [|discriminate].
    destruct (parse_records parse_record header rest) as [rows|] eqn:E;
      [|discriminate].
    intros [= <-] H. now rewrite (IH records2 rows rows2 eq_refl H).
Qed.

(** C3. Two fetched texts with the same header are read, once combined, as
    the rows of the first followed by the rows of the second; when a row of
    each agrees on (time, latitude, longitude, mag), the deduplicated frame
    holds that key exactly once, as it does every key of the combined frame.
    Matching is exact: a row whose key differs from those of all rows before
    it is kept, and of two rows the second goes only when its key is the
    first's.  This holds of every frame: in a column of numbers two cells
    agree when they are equal as numbers or both missing, and where a column
    holds text, when they are the same string. *)
Theorem overlapping_row_kept_once {C : Type} {cells : Cell C}
    (parse_record : string -> string -> option (row_of C))
    (blob1 blob2 : string) (rows1 rows2 : list (row_of C))
    (r1 r2 : row_of C) (w : world) :
  header_line blob2 = header_line blob1 ->
  blank (header_line blob1) = false ->
  parse_records parse_record (header_line blob1) (csv_records blob1)
  = Some rows1 ->
  parse_records parse_record (header_line blob2) (csv_records blob2)
  = Some rows2 ->
  In r1 rows1 -> In r2 rows2 ->
  same_key r1 r2 = true ->
  (let w' := World (store temp_path (combine_texts blob1 [blob2]) (files w))
               (trace w) in
   read_csv parse_record temp_path w' = (w', Returned (rows1 ++ rows2)))
  /\ (exists kept,
        filter (same_key r1) (drop_duplicates (rows1 ++ rows2)) = [kept]
        /\ filter (same_key r2) (drop_duplicates (rows1 ++ rows2)) = [kept])
  /\ occurrences r1 (drop_duplicates (rows1 ++ rows2)) = 1%nat
  /\ (forall r, In r (rows1 ++ rows2) ->
        occurrences r (drop_duplicates (rows1 ++ rows2)) = 1%nat)
  /\ (forall before r after,
        rows1 ++ rows2 = before ++ r :: after ->
        (forall s, In s before -> key_of s <> key_of r) ->
        In r (drop_duplicates (rows1 ++ rows2)))
  /\ (forall a b : row_of C,
        drop_duplicates [a; b]
        = if same_key a b then [a] else [a; b])
  /\ (forall a b : row,
        same_key a b = true
        <-> time a = time b
            /\ same_number (latitude a) (latitude b) = true
            /\ same_number (longitude a) (longitude b) = true
            /\ same_number (mag a) (mag b) = true)
  /\ (forall a b : raw_row,
        same_key a b = true
        <-> time a = time b
            /\ same_value (latitude a) (latitude b) = true
            /\ same_value (longitude a) (longitude b) = true
            /\ same_value (mag a) (mag b) = true)
  /\ (forall x y s t,
        same_value (Number x) (Number y) = same_number x y
        /\ same_value (Text s) (Text t) = String.eqb s t
        /\ same_value (Number x) (Text t) = false
        /\ same_value (Text s) (Number y) = false).
Proof.
  intros Hheader Hblank Hrows1 Hrows2 Hin1 Hin2 Hsame.
  assert (Hall : Forall (fun t => blank (header_line t) = false)
                   [blob1; blob2]).
  { repeat constructor; [exact Hblank|now rewrite Hheader]. }
  split; [|split; [|split; [|split; [|split; [|split; [|split; [|split]]]]]]].
  - cbv zeta. unfold read_csv, read_file, bind. cbn [files].
    rewrite lookup_store_same, (csv_lines_combine_texts blob1 [blob2] Hall).
    cbn [flat_map]. rewrite app_nil_r.
    rewrite Hheader in Hrows2.
    now rewrite (parse_records_app _ _ _ _ _ _ Hrows1 Hrows2).
  - assert (H1 : occurrences r1 (drop_duplicates (rows1 ++ rows2)) = 1%nat)
      by (apply occurrences_drop_duplicates, in_or_app; now left).
    unfold occurrences in H1.
    rewrite (filter_ext (same_key r2) (same_key r1)).
    + destruct (filter (same_key r1) _) as [|kept [|]]; try discriminate.
      now exists kept.
    + intros x. apply same_key_congruence. symmetry.
      now apply same_key_iff.
  - apply occurrences_drop_duplicates, in_or_app. now left.
  - intros r Hr. now apply occurrences_drop_duplicates.
  - intros before r after -> Hnew. apply (new_key_kept before r after []).
    simpl. destruct (existsb _ before) eqn:E; [|reflexivity].
    apply existsb_seen_iff in E as [s [Hs Hk]].
    now destruct (Hnew s Hs).
  - intros a b. unfold drop_duplicates. simpl.
    rewrite orb_false_r. now destruct (same_key a b).
  - intros a b. unfold same_key.
    rewrite !andb_true_iff, same_time_iff. tauto.
  - intros a b. unfold same_key.
    rewrite !andb_true_iff, same_time_iff. tauto.
  - intros x y s t. repeat split.
Qed.

Lemma overlapping_row_kept_once_witness :
  occurrences (Row (Some "b") 1 2 3 [])
    (drop_duplicates
       [ Row (Some "a") 1 2 3 []; Row (Some "b") 1 2 3 [];
         Row (Some "b") 1 2 3 []; Row (Some "c") 1 2 3 [] ])
  = 1%nat.
Proof.
  refine (proj1 (proj2 (proj2 (overlapping_row_kept_once
                          (fun _ line => Some (Row (Some line) 1 2 3 []))
                          (join_nl ["time"; "a"; "b"; ""])
                          (join_nl ["time"; "b"; "c"; ""])
                          [ Row (Some "a") 1 2 3 []; Row (Some "b") 1 2 3 [] ]
                          [ Row (Some "b") 1 2 3 []; Row (Some "c") 1 2 3 [] ]
                          (Row (Some "b") 1 2 3 []) (Row (Some "b") 1 2 3 [])
                          (World [] []) _ _ _ _ _ _ _)))).
  - reflexivity.
  - reflexivity.
  - reflexivity.
  - reflexivity.
  - simpl. right. left. reflexivity.
  - simpl. left. reflexivity.
  - vm_compute. reflexivity.
Defined.

(** ** Sorting by time *)

Section Sorting.

Context {C : Type}.

Lemma insert_by_time_permutation (x : labelled_of C) sorted :
  Permutation (insert_by_time x sorted) (x :: sorted).
Proof.
  induction sorted as [|y rest IH]; simpl; [reflexivity|].
  destruct (time_leb _ _); [reflexivity|].
  rewrite IH. apply perm_swap.
Qed.

Lemma sort_values_permutation (df : list (labelled_of C)) :
  Permutation (sort_values df) df.
Proof.
  induction df as [|x rest IH]; simpl; [reflexivity|].
  rewrite insert_by_time_permutation. now constructor.
Qed.




End Sorting.

(** ** Text order and chronological order *)













(** ** The output file *)

Section OutputFrame.

Context {C : Type} {cells : Cell C}.

Lemma in_with_region (x : labelled_of C) df :
  In x (with_region df) ->
  In (event x) df
  /\ region x
     = region_by_precedence (number_of (latitude (event x)))
         (number_of (longitude (event x))).
Proof.
  unfold with_region. rewrite in_map_iff. intros [r [<- Hr]]. now split.
Qed.

Lemma in_output_frame (x : labelled_of C) rows :
  In x (output_frame rows) -> In x (with_region (drop_duplicates rows)).
Proof. apply Permutation_in, sort_values_permutation. Qed.

End OutputFrame.

Lemma region_by_precedence_in_order lat lon :
  In (region_by_precedence lat lon) region_order.
Proof.
  unfold region_by_precedence, region_order.
  destruct (in_alaska lat lon); [simpl; tauto|].
  destruct (in_box "Hawaii" lat lon); [simpl; tauto|].
  destruct (in_box "Puerto_Rico" lat lon); simpl; tauto.
Qed.

(** A run that returns either kept no text and left the files alone, or
    read the combined text, wrote the output frame of the rows it read and
    removed its temporary file. *)
Lemma DataDownloader_output requests_get read_header parse_record
    on_empty_frame min_max to_csv_text w w' :
  DataDownloader requests_get read_header parse_record on_empty_frame
    min_max
       to_csv_text w = (w', Returned tt) ->
  (all_data requests_get = [] /\ files w' = files w)
  \/ (exists first later header records rows,
        all_data requests_get = first :: later
        /\ csv_lines (combine_texts first later) = header :: records
        /\ parse_records parse_record header records = Some rows
        /\ lookup output_path (files w')
           = Some (to_csv_text (output_frame rows))
        /\ lookup temp_path (files w') = None).
Proof.
  rewrite DataDownloader_run. cbv zeta.
  destruct (all_data requests_get) as [|first later].
  - intros [= <-]. left. now split.
  - destruct (csv_lines _) as [|header records] eqn:Elines; [discriminate|].
    destruct (parse_records _ _ _) as [rows|] eqn:Erows; [|discriminate].
    destruct (missing_key _ _); [|discriminate].
    destruct (classify_rows _ _ _ _) as [? [?|?]]; [|discriminate].
    destruct (min_max _) as [dates|?]; [|discriminate].
    destruct (magnitude_outcome _ _); [|discriminate].
    intros [= <-]. right. exists first, later, header, records, rows.
    cbn [files log].
    split; [reflexivity|split; [exact Elines|split; [exact Erows|split]]].
    + rewrite lookup_discard_other by discriminate. apply lookup_store_same.
    + apply lookup_discard_same.
Qed.

(** A run on a catalogue that answers every request with the same two
    events, the later one listed first: 84 texts are combined, the 168 rows
    read are reduced to two, labelled, sorted and written, and the temporary
    file is gone. *)
Example DataDownloader_two_events :
  let requests_get := fun (_ : string) (_ : query) (_ : Z) =>
    Response 200
      (join_nl [ "time,latitude,longitude,mag";
                 "2018-05-04T22:32:54.650Z"; "1975-11-29T14:47:40.000Z"; "" ]) in
  let read_header := fun _ : string =>
    ["time"; "latitude"; "longitude"; "mag"] in
  let parse_record := fun (_ : string) (line : string) =>
    Some (Row (Some line) (Number 19.318) (Number (-154.9997)) (Number 6.9)
            []) in
  let on_empty_frame := fun _ : list string => Returned tt in
  let min_max := fun times : list (option string) =>
    Returned (hd None times, last times None) in
  let to_csv_text := fun df : list raw_labelled =>
    join_nl (map (fun x =>
                    match time (event x) with
                    | Some t => (t ++ "," ++ region x)%string
                    | None => region x
                    end) df) in
  let w' := fst (DataDownloader requests_get read_header parse_record
                   on_empty_frame min_max to_csv_text (World [] [])) in
  List.length (all_data requests_get) = 84%nat
  /\ files w'
     = [ (output_path,
          join_nl [ "1975-11-29T14:47:40.000Z,Hawaii";
                    "2018-05-04T22:32:54.650Z,Hawaii" ]) ]
  /\ snd (DataDownloader requests_get read_header parse_record on_empty_frame
    min_max
       to_csv_text (World [] []))
     = Returned tt.
Proof. vm_compute. repeat split; reflexivity. Qed.

(** C6. Classification returns one of the four labels of [region_order] for
    every row whose coordinates are numbers, and each of the four is the
    label of some row; on any row, what it returns is one of the four; so
    every row of the frame a run writes to the output file carries one of
    exactly these four labels. *)
Theorem region_label_one_of_four
    (requests_get : string -> query -> Z -> http_result)
    (read_header : string -> list string)
    (parse_record : string -> string -> option raw_row)
    (on_empty_frame : list string -> result unit)
    (min_max : list (option string)
               -> result (option string * option string))
    (to_csv_text : list raw_labelled -> string) (w w' : world) :
  (forall r : row, exists label,
      classify_region r w = (w, Returned label) /\ In label region_order)
  /\ region_order = ["Alaska"; "Conterminous US"; "Hawaii"; "Puerto Rico"]
  /\ (forall label, In label region_order ->
        exists r : row, classify_region r w = (w, Returned label))
  /\ (forall (rows : list row) x,
        In x (output_frame rows) -> In (region x) region_order)
  /\ (DataDownloader requests_get read_header parse_record on_empty_frame
    min_max
       to_csv_text w
      = (w', Returned tt) ->
      files w' = files w
      \/ exists df,
           lookup output_path (files w') = Some (to_csv_text df)
           /\ Forall (fun x => In (region x) region_order) df)
  /\ (forall (r : raw_row) w1 label,
        classify_region r w = (w1, Returned label) ->
        In label region_order)
  /\ (forall (rows : list raw_row) x,
        In x (output_frame rows) -> In (region x) region_order).
Proof.
  split; [|split; [|split; [|split; [|split; [|split]]]]].
  6: { intros r w1 label Hlabel.
       apply classify_region_returned in Hlabel as [_ ->].
       apply region_by_precedence_in_order. }
  6: { intros rows x Hx.
       apply in_output_frame, in_with_region in Hx as [_ ->].
       apply region_by_precedence_in_order. }
  - intros r. eexists. split; [apply classify_region_label|].
    apply region_by_precedence_in_order.
  - reflexivity.
  - intros label [<-|[<-|[<-|[<-|[]]]]].
    + exists (Row None 61.0%float (-150.0)%float 5.0%float []).
      now rewrite classify_region_label.
    + exists (Row None 37.0%float (-120.0)%float 5.0%float []).
      now rewrite classify_region_label.
    + exists (Row None 19.5%float (-155.5)%float 5.0%float []).
      now rewrite classify_region_label.
    + exists (Row None 18.0%float (-66.5)%float 5.0%float []).
      now rewrite classify_region_label.
  - intros rows x Hx. apply in_output_frame, in_with_region in Hx as [_ ->].
    apply region_by_precedence_in_order.
  - intros Hrun.
    apply DataDownloader_output in Hrun
      as [[_ H]|(first & later & header & records & rows & _ & _ & _ & H & _)].
    + now left.
    + right. exists (output_frame rows). split; [exact H|].
      apply Forall_forall. intros x Hx.
      apply in_output_frame, in_with_region in Hx as [_ ->].
      apply region_by_precedence_in_order.
Qed.

Lemma ltb_leb (x y : float) : (x <? y)%float = true -> (x <=? y)%float = true.
Proof.
  rewrite ltb_spec, leb_spec. unfold SFltb, SFleb.
  destruct (SFcompare _ _) as [[]|]; congruence.
Qed.

Lemma strictly_in_box_in_box name lat lon :
  strictly_in_box name lat lon = true -> in_box name lat lon = true.
Proof.
  unfold strictly_in_box, in_box, closed_box.
  destruct (lookup name REGIONS) as [box|]; [|discriminate].
  destruct (lookup "lat_min" box); [|discriminate].
  destruct (lookup "lat_max" box); [|discriminate].
  destruct (lookup "lon_min" box); [|discriminate].
  destruct (lookup "lon_max" box); [|discriminate].
  rewrite !andb_true_iff. intros [[[H1 H2] H3] H4].
  repeat split; now apply ltb_leb.
Qed.

(** A number below a positive constant is not at or above a constant with a
    larger exponent. *)
Lemma below_smaller_exponent (x a b : float) ma ea mb eb :
  Prim2SF a = S754_finite false ma ea ->
  Prim2SF b = S754_finite false mb eb ->
  (ea < eb)%Z ->
  (x <? a)%float = true -> (b <=? x)%float = false.
Proof.
  intros Ha Hb Hlt. rewrite ltb_spec, leb_spec, Ha, Hb.
  unfold SFltb, SFleb, SFcompare.
  destruct (Prim2SF x) as [s|s| |s m e]; try reflexivity.
  - destruct s; [reflexivity|discriminate].
  - destruct s; [reflexivity|].
    destruct (Z.compare_spec e ea) as [->|He|He]; try discriminate.
    + intros _. rewrite (proj2 (Z.compare_gt_iff eb ea)) by lia. reflexivity.
    + intros _. rewrite (proj2 (Z.compare_gt_iff eb e)) by lia. reflexivity.
Qed.

(** The Hawaii box lies south of every Alaska box. *)
Lemma hawaii_outside_alaska lat lon :
  strictly_in_box "Hawaii" lat lon = true ->
  in_box "Alaska_west_dateline" lat lon = false
  /\ in_box "Alaska_main" lat lon = false
  /\ in_box "Alaska_east_dateline" lat lon = false.
Proof.
  change (strictly_in_box "Hawaii" lat lon)
    with ((18.5 <? lat)%float && (lat <? 22.5)%float
          && ((-161.0) <? lon)%float && (lon <? (-154.5))%float).
  rewrite !andb_true_iff. intros [[[_ Hlat] _] _].
  pose proof (below_smaller_exponent lat 22.5 50.0 _ _ _ _ eq_refl eq_refl
                eq_refl Hlat) as H50.
  pose proof (below_smaller_exponent lat 22.5 54.0 _ _ _ _ eq_refl eq_refl
                eq_refl Hlat) as H54.
  unfold in_box, closed_box. cbn. now rewrite H50, H54.
Qed.

(** C7. A row whose point lies strictly inside the Hawaii box and outside
    the three Alaska boxes is labelled "Hawaii"; so is any row with the same
    coordinates, whatever its other fields (a text in another column
    included), and so is the row in the output frame of any run, whichever
    request's text it was read from: classification looks at latitude and
    longitude only.  (The Hawaii box being south of the Alaska boxes, the
    second condition follows from the first.) *)
Theorem hawaii_label_from_coordinates (r : row) (w : world) :
  strictly_in_box "Hawaii" (latitude r) (longitude r) = true ->
  in_box "Alaska_west_dateline" (latitude r) (longitude r) = false ->
  in_box "Alaska_main" (latitude r) (longitude r) = false ->
  in_box "Alaska_east_dateline" (latitude r) (longitude r) = false ->
  classify_region r w = (w, Returned "Hawaii")
  /\ (forall r', latitude r' = latitude r -> longitude r' = longitude r ->
        classify_region r' w = (w, Returned "Hawaii"))
  /\ (forall rows x, In x (output_frame rows) ->
        latitude (event x) = latitude r -> longitude (event x) = longitude r ->
        region x = "Hawaii")
  /\ strictly_in_box "Hawaii" (latitude r) (longitude r)
     = ((18.5 <? latitude r)%float && (latitude r <? 22.5)%float
        && ((-161.0) <? longitude r)%float
        && (longitude r <? (-154.5))%float)
  /\ (forall lat lon,
        strictly_in_box "Hawaii" lat lon = true ->
        in_box "Alaska_west_dateline" lat lon = false
        /\ in_box "Alaska_main" lat lon = false
        /\ in_box "Alaska_east_dateline" lat lon = false)
  /\ (forall r' : raw_row,
        latitude r' = Number (latitude r) ->
        longitude r' = Number (longitude r) ->
        classify_region r' w = (w, Returned "Hawaii"))
  /\ (forall (rows : list raw_row) x,
        In x (output_frame rows) ->
        latitude (event x) = Number (latitude r) ->
        longitude (event x) = Number (longitude r) ->
        region x = "Hawaii").
Proof.
  intros Hin Hwest Hmain Heast.
  apply strictly_in_box_in_box in Hin.
  assert (Hlabel : region_by_precedence (latitude r) (longitude r) = "Hawaii").
  { unfold region_by_precedence, in_alaska.
    now rewrite Hwest, Hmain, Heast, Hin. }
  split; [|split; [|split; [|split; [|split; [|split]]]]].
  6: { intros r' Hlat Hlon.
       rewrite (classify_region_numbers (cells := value_cell) r'
                  (latitude r) (longitude r) w Hlat Hlon).
       now rewrite Hlabel. }
  6: { intros rows x Hx Hlat Hlon.
       apply in_output_frame, in_with_region in Hx as [_ ->].
       unfold number_of. cbn [value_of value_cell].
       now rewrite Hlat, Hlon. }
  - now rewrite classify_region_label, Hlabel.
  - intros r' Hlat Hlon. now rewrite classify_region_label, Hlat, Hlon, Hlabel.
  - intros rows x Hx Hlat Hlon.
    apply in_output_frame, in_with_region in Hx as [_ ->].
    now rewrite Hlat, Hlon.
  - reflexivity.
  - apply hawaii_outside_alaska.
Qed.

Lemma hawaii_label_from_coordinates_witness :
  classify_region (Row (Some "2018-05-04T22:32:54.650Z") 19.318%float
                     (-154.9997)%float 6.9%float ["5.81"; "mww"])
    (World [] [])
  = (World [] [], Returned "Hawaii").
Proof.
  refine (proj1 (hawaii_label_from_coordinates
                   (Row (Some "2018-05-04T22:32:54.650Z") 19.318%float
                      (-154.9997)%float 6.9%float ["5.81"; "mww"])
                   (World [] []) _ _ _ _)); vm_compute; reflexivity.
Defined.



Section Chronology.

Context {C : Type} {cells : Cell C}.




End Chronology.



(** ** The plotter's clean-ups *)

Lemma getitem_some {V} (d : list (string * V)) key v w :
  lookup key d = Some v -> getitem d key w = (w, Returned v).
Proof. unfold getitem. now intros ->. Qed.

Lemma SFcompare_refl a : a <> S754_nan -> SFcompare a a = Some Eq.
Proof.
  intros Ha. pose proof (proj2 (SFeqb_refl_iff a) Ha) as H.
  unfold SFeqb in H. destruct (SFcompare a a) as [[]|]; congruence.
Qed.

(** On a number, [clip(lower=0)] is [max(d, 0)]; on a missing one, itself. *)
Lemma clip_lower_max d w :
  clip_lower 0%float (Num d) w = (w, Returned (Num (max_with_zero d))).
Proof.
  unfold clip_lower, max_with_zero, is_nan.
  rewrite FloatAxioms.eqb_spec, leb_spec, ltb_spec.
  change (Prim2SF 0%float) with (S754_zero false).
  unfold SFeqb, SFleb, SFltb.
  destruct (Prim2SF d) as [s|s| |s m e] eqn:E.
  - reflexivity.
  - destruct s; reflexivity.
  - reflexivity.
  - rewrite SFcompare_refl by discriminate. destruct s; reflexivity.
Qed.

Lemma max_with_zero_nan d : is_nan d = true -> max_with_zero d = d.
Proof.
  unfold max_with_zero, is_nan. rewrite FloatAxioms.eqb_spec, ltb_spec.
  unfold SFeqb, SFltb. intros H.
  destruct (Prim2SF d) as [s|s| |s m e]; [| |reflexivity|];
    rewrite SFcompare_refl in H by discriminate; discriminate H.
Qed.

Lemma clip_numbers depth w :
  clip 0%float (map Num depth) w
  = (w, Returned (map (fun d => Num (max_with_zero d)) depth)).
Proof.
  induction depth as [|d rest IH]; simpl; [reflexivity|].
  rewrite (bind_returned _ _ _ _ _ (clip_lower_max d w)).
  rewrite (bind_returned _ _ _ _ _ IH). reflexivity.
Qed.

Lemma lookup_select name mask (df : frame) :
  lookup name (map (fun named => (fst named, select mask (snd named))) df)
  = option_map (select mask) (lookup name df).
Proof.
  induction df as [|[k col] rest IH]; simpl; [reflexivity|].
  destruct (String.eqb k name); [reflexivity|exact IH].
Qed.

(** What the hover boxes of the map show, when the map is drawn: the columns
    of the plotted frame named in [hover_data]. *)
Lemma hover_values_run shown w w' values :
  hover_values shown hover_data w = (w', Returned values) ->
  lookup "depth" values = lookup "depth" shown
  /\ lookup "depth_clean" values = None.
Proof.
  unfold hover_data. cbn [hover_values]. unfold getitem, bind, ret, raise.
  destruct (lookup "mag" shown); [|discriminate].
  destruct (lookup "depth" shown); [|discriminate].
  destruct (lookup "place" shown); [|discriminate].
  destruct (lookup "time" shown); [|discriminate].
  destruct (lookup "region" shown); [|discriminate].
  intros [= _ <-]. split; reflexivity.
Qed.

Lemma scatter_geo_run df w w' fig :
  scatter_geo df w = (w', Returned fig) ->
  exists mask,
    lookup "depth" (hover fig) = option_map (select mask) (lookup "depth" df)
    /\ lookup "depth_clean" (hover fig) = None.
Proof.
  unfold scatter_geo, dropna. unfold bind at 1. unfold bind at 1.
  destruct (getitems df _ w) as [w1 [cols|e]]; [|discriminate].
  set (mask := notna_all cols (frame_length df)).
  unfold ret at 1. cbv beta iota.
  set (shown := map _ df).
  unfold getitem at 1 2 3 4. unfold bind at 1 2 3 4.
  destruct (lookup "latitude" shown); [|discriminate].
  destruct (lookup "longitude" shown); [|discriminate].
  destruct (lookup "region" shown); [|discriminate].
  destruct (lookup "mag" shown); [|discriminate].
  unfold ret at 1 2 3 4. cbv beta iota. unfold bind.
  destruct (hover_values shown hover_data w1) as [w2 [values|e]] eqn:E;
    [|discriminate].
  intros [= _ <-]. cbn [hover].
  apply hover_values_run in E as [Hdepth Hclean].
  exists mask. rewrite Hdepth, Hclean. split; [|reflexivity].
  apply lookup_select.
Qed.

(** C9. The clean-ups add a column [depth_clean] holding [max(depth, 0)] of
    every row, a missing depth staying missing; the [depth] column, and
    every column other than those assigned, is what it was.  The map's
    [hover_data] names [depth] and not [depth_clean], so its hover boxes
    show the original depths of the plotted rows. *)
Theorem depth_clean_display_only
    (to_datetime dt_year : list cell -> list cell)
    (df : frame) (depth : list float) (w : world) :
  lookup "time" df <> None ->
  lookup "region" df <> None ->
  lookup "depth" df = Some (map Num depth) ->
  exists df',
    cleanups to_datetime dt_year df w = (w, Returned df')
    /\ lookup "depth_clean" df'
       = Some (map (fun d => Num (if (d <? 0)%float then 0%float else d))
                 depth)
    /\ (forall d, is_nan d = true ->
          (if (d <? 0)%float then 0%float else d) = d)
    /\ lookup "depth" df' = Some (map Num depth)
    /\ (forall name,
          ~ In name ["time"; "year"; "depth_clean"; "region"] ->
          lookup name df' = lookup name df)
    /\ lookup "depth" hover_data = Some true
    /\ lookup "depth_clean" hover_data = None
    /\ (forall w' fig,
          checkpoint to_datetime dt_year df w = (w', Returned fig) ->
          exists mask,
            lookup "depth" (hover fig) = Some (select mask (map Num depth))
            /\ lookup "depth_clean" (hover fig) = None).
Proof.
  intros Htime Hregion Hdepth.
  destruct (lookup "time" df) as [time_col|] eqn:Et; [clear Htime|congruence].
  destruct (lookup "region" df) as [region_col|] eqn:Er;
    [clear Hregion|congruence].
  set (df1 := store "time" (to_datetime time_col) df).
  set (df2 := store "year" (dt_year (to_datetime time_col)) df1).
  set (df3 := store "depth_clean"
                (map (fun d => Num (max_with_zero d)) depth) df2).
  set (df4 := store "region" (Categorical region_col region_order) df3).
  assert (Hrun : cleanups to_datetime dt_year df w = (w, Returned df4)).
  { unfold cleanups.
    rewrite (bind_returned _ _ _ _ _ (getitem_some df "time" _ w Et)).
    fold df1.
    rewrite (bind_returned _ _ _ _ _
               (getitem_some df1 "time" _ w (lookup_store_same _ _ _))).
    fold df2.
    assert (Hd : lookup "depth" df2 = Some (map Num depth)).
    { unfold df2, df1. now rewrite !lookup_store_other by discriminate. }
    rewrite (bind_returned _ _ _ _ _ (getitem_some df2 "depth" _ w Hd)).
    rewrite (bind_returned _ _ _ _ _ (clip_numbers depth w)).
    fold df3.
    assert (Hr : lookup "region" df3 = Some region_col).
    { unfold df3, df2, df1. now rewrite !lookup_store_other by discriminate. }
    rewrite (bind_returned _ _ _ _ _ (getitem_some df3 "region" _ w Hr)).
    reflexivity. }
  assert (Hkept : lookup "depth" df4 = Some (map Num depth)).
  { unfold df4, df3, df2, df1.
    now rewrite !lookup_store_other by discriminate. }
  exists df4. split; [exact Hrun|].
  split; [|split; [|split; [|split; [|split; [|split]]]]].
  - unfold df4. rewrite lookup_store_other by discriminate.
    apply lookup_store_same.
  - apply max_with_zero_nan.
  - exact Hkept.
  - intros name Hname. simpl in Hname. unfold df4, df3, df2, df1.
    rewrite !lookup_store_other by intuition congruence. reflexivity.
  - reflexivity.
  - reflexivity.
  - intros w' fig. unfold checkpoint.
    rewrite (bind_returned _ _ _ _ _ Hrun). intros Hfig.
    apply scatter_geo_run in Hfig as [mask [H1 H2]].
    exists mask. now rewrite H1, Hkept.
Qed.

Lemma depth_clean_display_only_witness :
  exists df',
    cleanups (fun col => col) (fun col => col)
      [ ("time", [Str "2020-01-01T00:00:00.000Z"; Str "2020-01-02T00:00:00.000Z"]);
        ("latitude", [Num 19.5; Num 61.0]);
        ("longitude", [Num (-155.5); Num (-150.0)]);
        ("depth", [Num (-1.5); Num 12.0]);
        ("mag", [Num 5.0; Num 5.5]);
        ("place", [Str "Hawaii"; Str "Alaska"]);
        ("region", [Str "Hawaii"; Str "Alaska"]) ]
      (World [] [])
    = (World [] [], Returned df')
    /\ lookup "depth_clean" df' = Some [Num 0; Num 12.0]
    /\ lookup "depth" df' = Some [Num (-1.5); Num 12.0].
Proof.
  destruct (depth_clean_display_only (fun col => col) (fun col => col)
              [ ("time", [Str "2020-01-01T00:00:00.000Z"; Str "2020-01-02T00:00:00.000Z"]);
                ("latitude", [Num 19.5; Num 61.0]);
                ("longitude", [Num (-155.5); Num (-150.0)]);
                ("depth", [Num (-1.5); Num 12.0]);
                ("mag", [Num 5.0; Num 5.5]);
                ("place", [Str "Hawaii"; Str "Alaska"]);
                ("region", [Str "Hawaii"; Str "Alaska"]) ]
              [(-1.5)%float; 12.0%float] (World [] []))
    as [df' (Hrun & Hclean & _ & Hdepth & _)].
  - discriminate.
  - discriminate.
  - reflexivity.
  - exists df'. split; [exact Hrun|]. split; [exact Hclean|exact Hdepth].
Defined.

(* ===================================================================== *)
(** * Part III: further properties of the two scripts *)
(* ===================================================================== *)

(** ** One call of [download_earthquakes] *)

Lemma download_earthquakes_any requests_get start_date end_date region_name
    lat_min lat_max lon_min lon_max min_mag w :
  download_earthquakes requests_get start_date end_date region_name
    lat_min lat_max lon_min lon_max min_mag w
  = (log [ Print (MsgRequest region_name start_date end_date);
           Get base_url
             (Query "csv" start_date end_date min_mag lat_min lat_max
                lon_min lon_max "time") 30%Z;
           Print (outcome_message
                    (requests_get base_url
                       (Query "csv" start_date end_date min_mag lat_min
                          lat_max lon_min lon_max "time") 30%Z)) ] w,
     Returned (response_text
                 (requests_get base_url
                    (Query "csv" start_date end_date min_mag lat_min lat_max
                       lon_min lon_max "time") 30%Z))).
Proof.
  unfold download_earthquakes, try_except, requests_get_call, print, bind,
    emit, raise, ret, log. simpl.
  destruct (requests_get _ _ _) as [status_code text|e]; simpl.
  - destruct (status_code =? 200)%Z; simpl; rewrite <- !app_assoc;
      reflexivity.
  - rewrite <- !app_assoc. reflexivity.
Qed.

(** X1. Whatever the service does, one call sends exactly one request (the
    query built from its arguments, format csv, ordered by time, timeout
    30), prints two lines around it, touches no file and raises nothing; it
    returns the body exactly when the status is 200 (an empty body
    included), and [None] otherwise. *)
Theorem download_earthquakes_behaviour
    (requests_get : string -> query -> Z -> http_result)
    (start_date end_date region_name : string)
    (lat_min lat_max lon_min lon_max min_mag : float) (w : world) :
  let params := Query "csv" start_date end_date min_mag lat_min lat_max
                  lon_min lon_max "time" in
  let res := requests_get base_url params 30%Z in
  let run := download_earthquakes requests_get start_date end_date
               region_name lat_min lat_max lon_min lon_max min_mag w in
  files (fst run) = files w
  /\ gets (trace (fst run)) = gets (trace w) ++ [(base_url, params, 30%Z)]
  /\ trace (fst run)
     = trace w ++ [ Print (MsgRequest region_name start_date end_date);
                    Get base_url params 30%Z;
                    Print (outcome_message res) ]
  /\ (forall text, res = Response 200 text -> snd run = Returned (Some text))
  /\ (failed res -> snd run = Returned None)
  /\ (exists csv_text, snd run = Returned csv_text).
Proof.
  cbv zeta. rewrite download_earthquakes_any. cbn [fst snd log files trace].
  split; [reflexivity|split; [|split; [reflexivity|split; [|split]]]].
  - unfold gets. rewrite flat_map_app. reflexivity.
  - now intros text ->.
  - intros H. now rewrite failed_response_text.
  - eauto.
Qed.

(** ** The count printed for a response *)

Lemma join_nl_cons p q more :
  join_nl (p :: q :: more) = (p ++ String newline (join_nl (q :: more)))%string.
Proof. reflexivity. Qed.

Lemma Forall_no_newline_app l1 l2 :
  Forall (fun p => no_newline p = true) l1 ->
  Forall (fun p => no_newline p = true) l2 ->
  Forall (fun p => no_newline p = true) (l1 ++ l2).
Proof. intros H1 H2. apply Forall_app. now split. Qed.

(** X2. The number printed after a 200 response is the number of lines of
    the body minus two: the number of records when the body is a header and
    records each ended by a line feed, one less when the last line feed is
    absent, and -1 for an empty body. *)
Theorem printed_count_of_records
    (requests_get : string -> query -> Z -> http_result)
    (start_date end_date region_name : string)
    (lat_min lat_max lon_min lon_max min_mag : float)
    (header : string) (records : list string) (w : world) :
  Forall (fun p => no_newline p = true) (header :: records) ->
  let params := Query "csv" start_date end_date min_mag lat_min lat_max
                  lon_min lon_max "time" in
  let printed := fun body =>
    trace w ++ [ Print (MsgRequest region_name start_date end_date);
                 Get base_url params 30%Z; Print (MsgCount body) ] in
  let run := download_earthquakes requests_get start_date end_date
               region_name lat_min lat_max lon_min lon_max min_mag w in
  (requests_get base_url params 30%Z
   = Response 200 (join_nl (header :: records ++ [""])) ->
   trace (fst run) = printed (Z.of_nat (List.length records)))
  /\ (requests_get base_url params 30%Z
      = Response 200 (join_nl (header :: records)) ->
      trace (fst run) = printed (Z.of_nat (List.length records) - 1)%Z)
  /\ (requests_get base_url params 30%Z = Response 200 "" ->
      trace (fst run) = printed (-1)%Z).
Proof.
  intros Hpieces. cbv zeta. rewrite download_earthquakes_any.
  cbn [fst log trace].
  assert (Hlast : Forall (fun p => no_newline p = true)
                    (header :: records ++ [""])).
  { inversion Hpieces; subst. constructor; [assumption|].
    apply Forall_no_newline_app; [assumption|now repeat constructor]. }
  split; [|split]; intros ->; cbn [outcome_message Z.eqb Pos.eqb].
  - rewrite split_nl_join by (assumption || discriminate).
    cbn [List.length]. rewrite length_app. cbn [List.length].
    replace (Z.of_nat (S (List.length records + 1)) - 2)%Z
      with (Z.of_nat (List.length records)) by lia.
    reflexivity.
  - rewrite split_nl_join by (assumption || discriminate).
    cbn [List.length].
    replace (Z.of_nat (S (List.length records)) - 2)%Z
      with (Z.of_nat (List.length records) - 1)%Z by lia.
    reflexivity.
  - reflexivity.
Qed.

Lemma printed_count_of_records_witness :
  trace (fst (download_earthquakes
                (fun _ _ _ =>
                   Response 200 (join_nl ["time,mag"; "t1,4.5"; "t2,5.0"; ""]))
                "2020-01-01" "2024-12-31" "Hawaii"
                18.5%float 22.5%float (-161.0)%float (-154.5)%float
                4.5%float (World [] [])))
  = [ Print (MsgRequest "Hawaii" "2020-01-01" "2024-12-31");
      Get base_url
        (Query "csv" "2020-01-01" "2024-12-31" 4.5%float 18.5%float
           22.5%float (-161.0)%float (-154.5)%float "time") 30%Z;
      Print (MsgCount 2) ].
Proof.
  refine (proj1 (printed_count_of_records
                   (fun _ _ _ =>
                      Response 200
                        (join_nl ["time,mag"; "t1,4.5"; "t2,5.0"; ""]))
                   "2020-01-01" "2024-12-31" "Hawaii"
                   18.5%float 22.5%float (-161.0)%float (-154.5)%float
                   4.5%float "time,mag" ["t1,4.5"; "t2,5.0"] (World [] []) _)
                eq_refl).
  repeat constructor.
Defined.

(** ** The schedule of requests and pauses *)

Lemma gets_app evs evs' : gets (evs ++ evs') = gets evs ++ gets evs'.
Proof. unfold gets. apply flat_map_app. Qed.

Lemma slept_app evs evs' : slept (evs ++ evs') = (slept evs + slept evs')%Z.
Proof.
  unfold slept. induction evs as [|ev evs IH]; simpl; [reflexivity|].
  rewrite IH. destruct ev; lia.
Qed.

Lemma gets_fetch_events requests_get :
  gets (fetch_events requests_get)
  = map (fun q => (base_url, q, 30%Z)) requests_in_order.
Proof. reflexivity. Qed.

Lemma slept_fetch_events requests_get :
  slept (fetch_events requests_get) = 112%Z.
Proof. reflexivity. Qed.

(** The trace of a run is the trace it started with, the fetch phase, and
    then prints only. *)
Lemma DataDownloader_trace requests_get read_header parse_record
    on_empty_frame min_max to_csv_text w :
  exists msgs,
    trace (fst (DataDownloader requests_get read_header parse_record
                  on_empty_frame min_max to_csv_text w))
    = trace w ++ fetch_events requests_get ++ map Print msgs.
Proof.
  rewrite DataDownloader_run. cbv zeta.
  destruct (all_data requests_get) as [|first later].
  - exists [MsgNoData]. cbn [fst log trace map]. reflexivity.
  - destruct (csv_lines _) as [|header records];
      [exists []; cbn [fst log trace map]; now rewrite app_nil_r|].
    destruct (parse_records _ _ _) as [rows|];
      [|exists []; cbn [fst log trace map]; now rewrite app_nil_r].
    destruct (missing_key _ _);
      [|eexists [_]; cbn [fst log trace map]; rewrite <- !app_assoc;
        reflexivity].
    destruct (classify_rows _ _ _ _) as [? [?|?]];
      [|eexists [_; _]; cbn [fst log trace map]; rewrite <- !app_assoc;
        reflexivity].
    destruct (min_max _) as [dates|?];
      [|eexists [_; _; _]; cbn [fst log trace map]; rewrite <- !app_assoc;
        reflexivity].
    destruct (magnitude_outcome _ _).
    + eexists [_; _; _; _; _]. cbn [fst log trace map].
      rewrite <- !app_assoc. reflexivity.
    + eexists [_; _; _; _]. cbn [fst log trace map]. rewrite <- !app_assoc.
      reflexivity.
Qed.

Lemma gets_prints msgs : gets (map Print msgs) = [].
Proof. induction msgs; simpl; auto. Qed.

Lemma slept_prints msgs : slept (map Print msgs) = 0%Z.
Proof. induction msgs; simpl; auto. Qed.

(** X3. Whatever the service answers and however the run ends, the script
    sends exactly 84 requests, one per time window and region box, windows
    first and boxes in the order of [REGIONS], each to the same address with
    timeout 30, format csv, minimum magnitude 4.5 and ordering by time; and
    it sleeps 112 seconds in all (one after each request, two after each
    window). *)
Theorem request_schedule
    (requests_get : string -> query -> Z -> http_result)
    (read_header : string -> list string)
    (parse_record : string -> string -> option raw_row)
    (on_empty_frame : list string -> result unit)
    (min_max : list (option string)
               -> result (option string * option string))
    (to_csv_text : list raw_labelled -> string) (w : world) :
  let w' := fst (DataDownloader requests_get read_header parse_record on_empty_frame
    min_max
       to_csv_text w) in
  gets (trace w')
  = gets (trace w) ++ map (fun q => (base_url, q, 30%Z)) requests_in_order
  /\ List.length requests_in_order = 84%nat
  /\ slept (trace w') = (slept (trace w) + 112)%Z
  /\ Forall (fun q => q_format q = "csv" /\ q_minmagnitude q = 4.5%float
                      /\ q_orderby q = "time") requests_in_order
  /\ map (fun q => (q_starttime q, q_endtime q)) requests_in_order
     = flat_map (fun window => repeat window 6) date_ranges
  /\ (forall window, In window date_ranges ->
        map (fun q => (q_minlatitude q, q_maxlatitude q,
                       q_minlongitude q, q_maxlongitude q))
            (filter (fun q => String.eqb (q_starttime q) (fst window))
                    requests_in_order)
        = map (fun named =>
                 (bound_of (snd named) "lat_min", bound_of (snd named) "lat_max",
                  bound_of (snd named) "lon_min", bound_of (snd named) "lon_max"))
              REGIONS).
Proof.
  cbv zeta.
  destruct (DataDownloader_trace requests_get read_header parse_record
              on_empty_frame min_max to_csv_text w) as [msgs ->].
  rewrite !gets_app, !slept_app, gets_prints, slept_prints,
    gets_fetch_events, slept_fetch_events, app_nil_r.
  split; [reflexivity|split; [reflexivity|split; [lia|split; [|split]]]].
  - repeat constructor.
  - reflexivity.
  - intros window Hin. simpl in Hin.
    repeat (destruct Hin as [<-|Hin]; [reflexivity|]). contradiction.
Qed.

(** ** The texts kept by the fetch phase *)

Lemma flat_map_enumerate {A B} (f : A -> list B) (l : list A) : forall start,
  flat_map (fun p => f (snd p)) (enumerate start l) = flat_map f l.
Proof.
  induction l as [|x rest IH]; intros start; simpl; [reflexivity|].
  now rewrite IH.
Qed.

Lemma flat_map_map {A B C} (f : B -> list C) (g : A -> B) (l : list A) :
  flat_map f (map g l) = flat_map (fun x => f (g x)) l.
Proof. induction l as [|x rest IH]; simpl; [reflexivity|]. now rewrite IH. Qed.

Lemma flat_map_list_prod {A B C} (f : A * B -> list C) (l1 : list A)
    (l2 : list B) :
  flat_map f (list_prod l1 l2)
  = flat_map (fun a => flat_map (fun b => f (a, b)) l2) l1.
Proof.
  induction l1 as [|a rest IH]; simpl; [reflexivity|].
  now rewrite flat_map_app, IH, flat_map_map.
Qed.

Lemma all_data_in_order requests_get :
  all_data requests_get
  = flat_map (fun q => contribution
                         (response_text (requests_get base_url q 30%Z)))
             requests_in_order.
Proof.
  unfold all_data, all_data_of, requests_in_order.
  rewrite flat_map_map, flat_map_list_prod.
  rewrite (flat_map_enumerate
             (fun window => period_data_of requests_get (fst window)
                              (snd window) REGIONS)).
  reflexivity.
Qed.

Lemma contribution_spec csv_text text :
  In text (contribution csv_text) -> csv_text = Some text /\ text <> "".
Proof.
  destruct csv_text as [[|c rest]|]; simpl; try contradiction.
  intros [<-|[]]. split; [reflexivity|discriminate].
Qed.

Lemma response_text_some res text :
  response_text res = Some text -> res = Response 200 text.
Proof.
  destruct res as [status_code body|e]; simpl; [|discriminate].
  destruct (Z.eqb_spec status_code 200); [|discriminate].
  now intros [= ->]; subst.
Qed.

Lemma length_flat_map_le {A B} (f : A -> list B) (l : list A) :
  (forall x, List.length (f x) <= 1)%nat ->
  (List.length (flat_map f l) <= List.length l)%nat.
Proof.
  intros H. induction l as [|x rest IH]; simpl; [lia|].
  rewrite length_app. specialize (H x). lia.
Qed.

(** X4. The fetch loops return, in the order of the requests, the bodies of
    the responses with status 200 that are not empty, and nothing else: at
    most 84 texts, none empty, each the body some request was answered
    with. *)
Theorem kept_texts_in_request_order
    (requests_get : string -> query -> Z -> http_result) (w : world) :
  let kept := flat_map (fun q => contribution
                                   (response_text
                                      (requests_get base_url q 30%Z)))
                requests_in_order in
  snd (period_loop requests_get (List.length date_ranges)
         (enumerate 1 date_ranges) [] w)
  = Returned kept
  /\ (List.length kept <= 84)%nat
  /\ (forall text, In text kept ->
        text <> ""
        /\ exists q, In q requests_in_order
                     /\ requests_get base_url q 30%Z = Response 200 text)
  /\ (forall q text, In q requests_in_order -> text <> "" ->
        requests_get base_url q 30%Z = Response 200 text -> In text kept).
Proof.
  cbv zeta. rewrite period_loop_run. cbn [snd app].
  fold (all_data requests_get). rewrite all_data_in_order.
  split; [reflexivity|split; [|split]].
  - change 84%nat with (List.length requests_in_order).
    apply length_flat_map_le. intros q.
    destruct (response_text _) as [[|c rest]|]; simpl; lia.
  - intros text Hin. apply in_flat_map in Hin as [q [Hq Hin]].
    apply contribution_spec in Hin as [Hsome Hne]. split; [exact Hne|].
    exists q. split; [exact Hq|]. now apply response_text_some.
  - intros q text Hq Hne Hres. apply in_flat_map. exists q.
    split; [exact Hq|]. rewrite Hres. simpl.
    destruct text as [|c rest]; [congruence|]. now left.
Qed.

(** ** The combined text, as text *)

Lemma join_nl_split_nl s : join_nl (split_nl s) = s.
Proof.
  induction s as [|c rest IH]; simpl; [reflexivity|].
  destruct (split_nl_cons rest) as [p [ps E]]. rewrite E in *.
  destruct (is_newline c) eqn:Ec.
  - apply Ascii.eqb_eq in Ec. subst c. rewrite join_nl_cons, IH. reflexivity.
  - destruct ps as [|q ps'].
    + simpl in *. now rewrite IH.
    + rewrite join_nl_cons in IH. rewrite join_nl_cons.
      cbn [String.append]. now rewrite IH.
Qed.

Lemma split_nl_after_first_newline s :
  match after_first_newline s with
  | Some rest => exists p, split_nl s = p :: split_nl rest
  | None => exists p, split_nl s = [p]
  end.
Proof.
  induction s as [|c rest IH]; simpl; [eauto|].
  destruct (is_newline c); [eauto|].
  destruct (after_first_newline rest) as [rest'|].
  - destruct IH as [p ->]. eauto.
  - destruct IH as [p ->]. eauto.
Qed.

Lemma append_assoc (a b c : string) : ((a ++ b) ++ c = a ++ (b ++ c))%string.
Proof. induction a as [|x a IH]; simpl; [reflexivity|]. now rewrite IH. Qed.

Lemma append_empty_r (a : string) : (a ++ "")%string = a.
Proof. induction a as [|x a IH]; simpl; [reflexivity|]. now rewrite IH. Qed.

(** X5. As text, the combined text is the first text followed, for every
    later text that has a line feed, by a line feed and whatever follows the
    text's first line feed, unchanged; a later text with no line feed adds
    nothing.  Joining what [split] gives returns the text, and the header
    of the combined text is the header of the first text. *)
Theorem combined_text_as_text (first : string) (later : list string) :
  combine_texts first later
  = (first ++ concat_texts (map appended later))%string
  /\ (forall s, join_nl (split_nl s) = s)
  /\ (forall csv_text rest,
        after_first_newline csv_text = Some rest ->
        combine_texts first [csv_text]
        = (first ++ String newline rest)%string)
  /\ (forall csv_text,
        no_newline csv_text = true -> combine_texts first [csv_text] = first)
  /\ header_line (combine_texts first later) = header_line first.
Proof.
  assert (Hone : forall combined csv_text,
             combine_texts combined [csv_text]
             = (combined ++ appended csv_text)%string).
  { intros combined csv_text. unfold appended. cbn [combine_texts].
    pose proof (split_nl_after_first_newline csv_text) as H.
    destruct (after_first_newline csv_text) as [rest|].
    - destruct H as [p ->]. cbn [List.length tl].
      replace (1 <? S (List.length (split_nl rest)))%nat with true.
      + now rewrite join_nl_split_nl.
      + symmetry. apply Nat.ltb_lt. pose proof (split_nl_length rest). lia.
    - destruct H as [p ->]. simpl. now rewrite append_empty_r. }
  assert (Hall : forall texts combined,
             combine_texts combined texts
             = (combined ++ concat_texts (map appended texts))%string).
  { intros texts. induction texts as [|csv_text more IH]; intros combined.
    - unfold concat_texts. simpl. now rewrite append_empty_r.
    - assert (Hstep : combine_texts combined (csv_text :: more)
                      = combine_texts (combine_texts combined [csv_text]) more).
      { cbn [combine_texts].
        now destruct (1 <? List.length (split_nl csv_text))%nat. }
      rewrite Hstep, IH, Hone, append_assoc. reflexivity. }
  split; [apply Hall|split; [apply join_nl_split_nl|split; [|split]]].
  - intros csv_text rest H. rewrite Hone. unfold appended. now rewrite H.
  - intros csv_text H. rewrite Hone. unfold appended.
    pose proof (split_nl_after_first_newline csv_text) as Hs.
    rewrite (split_nl_one_piece _ H) in Hs.
    destruct (after_first_newline csv_text) as [rest|].
    + destruct Hs as [p Hp]. injection Hp as _ Hp.
      destruct (split_nl_cons rest) as [q [qs Hq]]. congruence.
    + now rewrite append_empty_r.
  - unfold header_line. rewrite split_nl_combine_texts.
    destruct (split_nl_cons first) as [p [ps ->]]. reflexivity.
Qed.

(** ** Rows left by [drop_duplicates] *)

Section RowsLeft.

Context {C : Type} {cells : Cell C}.

Lemma not_seen_iff (r : row_of C) seen :
  existsb (fun s => same_key s r) seen = false
  <-> ~ In (key_of r) (map key_of seen).
Proof.
  split.
  - intros H Hin. apply in_map_iff in Hin as [s [Hk Hs]].
    assert (existsb (fun s => same_key s r) seen = true); [|congruence].
    apply existsb_seen_iff. exists s. now split.
  - intros H. destruct (existsb _ seen) eqn:E; [|reflexivity].
    apply existsb_seen_iff in E as [s [Hs Hk]]. destruct H.
    apply in_map_iff. exists s. now split.
Qed.

Lemma drop_duplicates_from_keys (df : list (row_of C)) : forall seen,
  NoDup (map key_of (drop_duplicates_from seen df))
  /\ (forall k, In k (drop_duplicates_from seen df) ->
        In k df /\ ~ In (key_of k) (map key_of seen)).
Proof.
  induction df as [|r rest IH]; intros seen; simpl.
  - split; [constructor|contradiction].
  - destruct (existsb (fun s => same_key s r) seen) eqn:E.
    + destruct (IH seen) as [Hnd Hin]. split; [exact Hnd|].
      intros k Hk. destruct (Hin k Hk). auto.
    + destruct (IH (seen ++ [r])) as [Hnd Hin]. split.
      * simpl. constructor; [|exact Hnd].
        intros Hr. apply in_map_iff in Hr as [k [Hkey Hk]].
        destruct (Hin k Hk) as [_ Hnot]. apply Hnot.
        rewrite map_app, in_app_iff. right. simpl. now left.
      * intros k [<-|Hk].
        -- split; [now left|]. now apply not_seen_iff.
        -- destruct (Hin k Hk) as [Hrest Hnot]. split; [now right|].
           intros Hseen. apply Hnot. rewrite map_app, in_app_iff. now left.
Qed.

Lemma drop_duplicates_from_mask (df : list (row_of C)) : forall seen,
  exists mask,
    List.length mask = List.length df
    /\ drop_duplicates_from seen df = select mask df.
Proof.
  induction df as [|r rest IH]; intros seen; simpl.
  - exists []. now split.
  - destruct (existsb (fun s => same_key s r) seen).
    + destruct (IH seen) as [mask [Hlen ->]]. exists (false :: mask).
      simpl. now rewrite Hlen.
    + destruct (IH (seen ++ [r])) as [mask [Hlen ->]]. exists (true :: mask).
      simpl. now rewrite Hlen.
Qed.

Lemma length_select_le {A} (mask : list bool) : forall col : list A,
  (List.length (select mask col) <= List.length col)%nat.
Proof.
  induction mask as [|keep mask IH]; intros [|c col]; simpl; try lia.
  specialize (IH col). destruct keep; simpl; lia.
Qed.

Lemma drop_duplicates_from_distinct (df : list (row_of C)) : forall seen,
  NoDup (map key_of df) ->
  (forall r, In r df -> ~ In (key_of r) (map key_of seen)) ->
  drop_duplicates_from seen df = df.
Proof.
  induction df as [|r rest IH]; intros seen Hnd Hnew; simpl; [reflexivity|].
  inversion Hnd as [|? ? Hr Hrest]; subst.
  rewrite (proj2 (not_seen_iff r seen)) by (apply Hnew; now left).
  f_equal. apply IH; [exact Hrest|].
  intros k Hk Hin. rewrite map_app, in_app_iff in Hin.
  destruct Hin as [Hin|[Hin|[]]].
  - apply (Hnew k); [now right|exact Hin].
  - apply Hr. rewrite Hin. now apply in_map.
Qed.

End RowsLeft.

(** X6. On every frame, the rows left by [drop_duplicates] have pairwise
    different keys, are rows of the frame in the order they had there, and
    are no more than there were; every key of the frame is still there; and
    a frame whose keys are already pairwise different is returned as it
    is. *)
Theorem drop_duplicates_distinct_keys {C : Type} {cells : Cell C}
    (df : list (row_of C)) :
  NoDup (map key_of (drop_duplicates df))
  /\ (exists mask,
        List.length mask = List.length df
        /\ drop_duplicates df = select mask df)
  /\ (List.length (drop_duplicates df) <= List.length df)%nat
  /\ (forall r, In r df ->
        exists k, In k (drop_duplicates df) /\ key_of k = key_of r)
  /\ (NoDup (map key_of df) -> drop_duplicates df = df)
  /\ (forall a b : row_of C, key_of a = key_of b <-> same_key a b = true).
Proof.
  unfold drop_duplicates.
  split; [apply drop_duplicates_from_keys|].
  split; [apply drop_duplicates_from_mask|].
  split; [|split; [|split]].
  - destruct (drop_duplicates_from_mask df []) as [mask [_ ->]].
    apply length_select_le.
  - intros r Hr. pose proof (occurrences_drop_duplicates r df Hr) as H.
    unfold occurrences, drop_duplicates in H.
    destruct (filter (same_key r) (drop_duplicates_from [] df))
      as [|k more] eqn:E; [discriminate|].
    assert (Hk : In k (filter (same_key r) (drop_duplicates_from [] df)))
      by (rewrite E; now left).
    apply filter_In in Hk as [Hin Hkey]. exists k. split; [exact Hin|].
    symmetry. now apply same_key_iff.
  - intros Hnd. apply drop_duplicates_from_distinct; [exact Hnd|].
    intros r _ [].
  - intros a b. symmetry. apply same_key_iff.
Qed.

(** ** The files a run leaves *)


Lemma magnitude_error_class mags :
  exc_class (magnitude_error mags) = "ValueError"
  \/ exc_class (magnitude_error mags) = "TypeError".
Proof.
  unfold magnitude_error. destruct (forallb is_text mags); [now left|now right].
Qed.

(** X7. A run that raises has kept some text and written the temporary
    file, which stays behind holding the combined text; no file other than
    it and the output file is touched.  The output file is as it was when
    the failure is in reading the text ([EmptyDataError] for a text with no
    line that is not blank, [ParserError] for a record the parser refuses),
    in removing duplicates ([KeyError], when there are rows and a column of
    the key is not in the header), or in labelling the rows ([TypeError],
    when a coordinate of some row left is a text; or what the library
    raises on a frame with no rows).  Otherwise the failure is in the
    summary (the dates; magnitudes that hold text; or no [mag] column, on a
    frame with no rows) and the output file has been written, with the
    whole frame. *)
Theorem failed_run_leaves_temporary_file
    (requests_get : string -> query -> Z -> http_result)
    (read_header : string -> list string)
    (parse_record : string -> string -> option raw_row)
    (on_empty_frame : list string -> result unit)
    (min_max : list (option string)
               -> result (option string * option string))
    (to_csv_text : list raw_labelled -> string) (w w' : world)
    (e : py_exception) :
  DataDownloader requests_get read_header parse_record on_empty_frame
    min_max to_csv_text w = (w', Raised e) ->
  exists first later,
    all_data requests_get = first :: later
    /\ lookup temp_path (files w') = Some (combine_texts first later)
    /\ (forall path, path <> temp_path -> path <> output_path ->
          lookup path (files w') = lookup path (files w))
    /\ ((lookup output_path (files w') = lookup output_path (files w)
         /\ ((csv_lines (combine_texts first later) = []
              /\ e = EmptyDataError)
             \/ exists header records,
                  csv_lines (combine_texts first later) = header :: records
                  /\ ((parse_records parse_record header records = None
                       /\ e = ParserError header)
                      \/ exists rows,
                           parse_records parse_record header records
                           = Some rows
                           /\ ((rows <> []
                                /\ missing_columns (read_header header) subset
                                   <> []
                                /\ exc_class e = "KeyError")
                               \/ (rows = []
                                   /\ on_empty_frame (read_header header)
                                      = Raised e)
                               \/ (exc_class e = "TypeError"
                                   /\ exists r,
                                        In r (drop_duplicates rows)
                                        /\ (is_text (latitude r) = true
                                            \/ is_text (longitude r)
                                               = true))))))
        \/ exists header records rows,
             csv_lines (combine_texts first later) = header :: records
             /\ parse_records parse_record header records = Some rows
             /\ lookup output_path (files w')
                = Some (to_csv_text (output_frame rows))
             /\ (min_max (map (fun x => time (event x)) (output_frame rows))
                 = Raised e
                 \/ (rows = [] /\ ~ In "mag" (read_header header)
                     /\ e = KeyError "mag")
                 \/ (existsb is_text
                       (map (fun x => mag (event x)) (output_frame rows))
                     = true
                     /\ (exc_class e = "ValueError"
                         \/ exc_class e = "TypeError")))).
Proof.
  rewrite DataDownloader_run. cbv zeta.
  destruct (all_data requests_get) as [|first later]; [discriminate|].
  intros Hrun. exists first, later. split; [reflexivity|].
  destruct (csv_lines (combine_texts first later)) as [|header records] eqn:E.
  { injection Hrun as <- <-. cbn [files log].
    split; [apply lookup_store_same|].
    split; [intros path Htmp _; now apply lookup_store_other|].
    left. split; [now apply lookup_store_other|now left]. }
  destruct (parse_records parse_record header records) as [rows|] eqn:Ep.
  2: { injection Hrun as <- <-. cbn [files log].
       split; [apply lookup_store_same|].
       split; [intros path Htmp _; now apply lookup_store_other|].
       left. split; [now apply lookup_store_other|].
       right. exists header, records. split; [reflexivity|now left]. }
  destruct (missing_key (read_header header) rows) as [|name names] eqn:Em.
  2: { injection Hrun as <- <-. cbn [files log].
       split; [apply lookup_store_same|].
       split; [intros path Htmp _; now apply lookup_store_other|].
       left. split; [now apply lookup_store_other|].
       right. exists header, records. split; [reflexivity|].
       right. exists rows. split; [exact Ep|].
       left. unfold missing_key in Em. destruct rows as [|r rest];
         [discriminate|].
       split; [discriminate|]. split; [rewrite Em; discriminate|reflexivity]. }
  destruct (classify_rows _ _ _ _) as [w5 [labelled|e5]] eqn:Ec.
  2: { injection Hrun as <- <-. cbn [files log].
       split; [apply lookup_store_same|].
       split; [intros path Htmp _; now apply lookup_store_other|].
       left. split; [now apply lookup_store_other|].
       right. exists header, records. split; [reflexivity|].
       right. exists rows. split; [exact Ep|].
       right. destruct rows as [|r rest].
       - left. split; [reflexivity|].
         unfold classify_rows in Ec. cbn in Ec.
         destruct (on_empty_frame (read_header header)); [discriminate|].
         now injection Ec as _ <-.
       - right. unfold classify_rows in Ec.
         change (drop_duplicates (r :: rest))
           with (r :: drop_duplicates_from [r] rest) in Ec.
         cbv iota in Ec.
         change (r :: drop_duplicates_from [r] rest)
           with (drop_duplicates (r :: rest)) in Ec.
         split; [now apply apply_classify_region_raised in Ec|].
         exact (apply_classify_region_raised_row _ _ _ _ Ec). }
  assert (Hfiles :
            forall path, path <> temp_path -> path <> output_path ->
              lookup path
                (store output_path (to_csv_text (output_frame rows))
                   (store temp_path (combine_texts first later)
                      (files (log (fetch_events requests_get) w))))
              = lookup path (files w)).
  { intros path Htmp Hout. now rewrite !lookup_store_other. }
  assert (Htemp :
            lookup temp_path
              (store output_path (to_csv_text (output_frame rows))
                 (store temp_path (combine_texts first later)
                    (files (log (fetch_events requests_get) w))))
            = Some (combine_texts first later)).
  { rewrite lookup_store_other by discriminate. apply lookup_store_same. }
  destruct (min_max _) as [dates|e6] eqn:Ed.
  2: { injection Hrun as <- <-. cbn [files log].
       split; [exact Htemp|]. split; [exact Hfiles|].
       right. exists header, records, rows.
       split; [reflexivity|split; [exact Ep|]].
       split; [apply lookup_store_same|now left]. }
  destruct (magnitude_outcome _ _) as [?|e7] eqn:Et; [discriminate|].
  injection Hrun as <- <-. cbn [files log].
  split; [exact Htemp|]. split; [exact Hfiles|].
  right. exists header, records, rows.
  split; [reflexivity|split; [exact Ep|]].
  split; [apply lookup_store_same|]. right.
  unfold magnitude_outcome in Et.
  destruct (existsb (String.eqb "mag") (read_header header)) eqn:Emag.
  - right. destruct (existsb is_text _) eqn:Etext; [|discriminate].
    injection Et as <-. split; [reflexivity|apply magnitude_error_class].
  - left. injection Et as <-.
    assert (Hnot : ~ In "mag" (read_header header)).
    { intros Hin.
      assert (existsb (String.eqb "mag") (read_header header) = true);
        [|congruence].
      apply existsb_exists. exists "mag". split; [exact Hin|reflexivity]. }
    split; [|split; [exact Hnot|reflexivity]].
    destruct rows as [|r rest]; [reflexivity|]. exfalso.
    unfold missing_key, missing_columns, subset in Em. cbn [filter] in Em.
    rewrite Emag in Em. cbn [negb] in Em.
    repeat match type of Em with
           | context [if ?b then _ else _] => destruct b
           end; discriminate.
Qed.

Lemma failed_run_leaves_temporary_file_witness :
  let requests_get := fun (_ : string) (_ : query) (_ : Z) =>
    Response 200
      (join_nl ["time,latitude,longitude,mag"; "2018-05-04T22:32:54.650Z"]) in
  let read_header := fun _ : string =>
    ["time"; "latitude"; "longitude"; "mag"] in
  let parse_record := fun (_ : string) (line : string) =>
    Some (Row (Some line) (Number 19.318) (Number (-154.9997))
            (Text "strong") []) in
  let on_empty_frame := fun _ : list string => Returned tt in
  let min_max := fun times : list (option string) =>
    Returned (hd None times, last times None) in
  let to_csv_text := fun df : list raw_labelled => join_nl (map region df) in
  let run := DataDownloader requests_get read_header parse_record
               on_empty_frame min_max to_csv_text (World [] []) in
  exc_class (match snd run with Raised e => e | Returned _ => PyExc "" "" end)
  = "ValueError"
  /\ lookup output_path (files (fst run)) = Some "Hawaii"
  /\ exists first later,
       all_data requests_get = first :: later
       /\ lookup temp_path (files (fst run)) = Some (combine_texts first later).
Proof.
  intros requests_get read_header parse_record on_empty_frame min_max
    to_csv_text run.
  split; [vm_compute; reflexivity|]. split; [vm_compute; reflexivity|].
  destruct (failed_run_leaves_temporary_file requests_get read_header
              parse_record on_empty_frame min_max to_csv_text (World [] [])
              (fst run)
              (ValueError "Unknown format code 'f' for object of type 'str'"))
    as [first [later (Hdata & Htemp & _)]].
  - vm_compute. reflexivity.
  - exists first, later. now split.
Defined.



(** ** The order of floats *)

Lemma SFcompare_rank a b :
  a <> S754_nan -> b <> S754_nan ->
  SFcompare a b = Some (rank_compare (rank a) (rank b)).
Proof.
  intros Ha Hb. unfold SFcompare.
  destruct a as [[]|[]| |[] ma ea], b as [[]|[]| |[] mb eb];
    try congruence; try reflexivity; unfold rank, rank_compare.
  rewrite Z.compare_opp. rewrite (Z.compare_antisym ea eb).
  change (Z.neg ma ?= Z.neg mb)%Z with (CompOpp (Pos.compare ma mb)).
  change (Pos.compare_cont Eq ma mb) with (Pos.compare ma mb).
  simpl. destruct (ea ?= eb)%Z; reflexivity.
Qed.

Lemma rank_compare_le p q : rank_compare p q <> Gt <-> rank_le p q.
Proof.
  destruct p as [[x1 y1] z1], q as [[x2 y2] z2]. unfold rank_compare, rank_le.
  destruct (Z.compare_spec x1 x2); [|split; [lia|congruence]|split; [congruence|lia]].
  destruct (Z.compare_spec y1 y2); [|split; [lia|congruence]|split; [congruence|lia]].
  destruct (Z.compare_spec z1 z2); split; try congruence; lia.
Qed.

Lemma rank_compare_lt p q : rank_compare p q = Lt <-> rank_lt p q.
Proof.
  destruct p as [[x1 y1] z1], q as [[x2 y2] z2]. unfold rank_compare, rank_lt.
  destruct (Z.compare_spec x1 x2); [|split; [lia|congruence]|split; [congruence|lia]].
  destruct (Z.compare_spec y1 y2); [|split; [lia|congruence]|split; [congruence|lia]].
  destruct (Z.compare_spec z1 z2); split; try congruence; lia.
Qed.

Lemma rank_compare_eq p q : rank_compare p q = Eq <-> p = q.
Proof.
  destruct p as [[x1 y1] z1], q as [[x2 y2] z2]. unfold rank_compare.
  destruct (Z.compare_spec x1 x2); [|split; [congruence|intros [=]; lia]..].
  destruct (Z.compare_spec y1 y2); [|split; [congruence|intros [=]; lia]..].
  destruct (Z.compare_spec z1 z2); split; try congruence; intros [=]; lia.
Qed.

Lemma is_nan_false_iff x : is_nan x = false <-> number x.
Proof.
  unfold is_nan, number. rewrite FloatAxioms.eqb_spec, negb_false_iff.
  unfold SFeqb. split.
  - intros H E. rewrite E in H. discriminate.
  - intros H. rewrite (SFcompare_rank _ _ H H).
    now rewrite (proj2 (rank_compare_eq _ _) eq_refl).
Qed.

Lemma leb_true_iff x y :
  (x <=? y)%float = true
  <-> number x /\ number y /\ rank_le (rank (Prim2SF x)) (rank (Prim2SF y)).
Proof.
  rewrite leb_spec. unfold SFleb, number. split.
  - intros H.
    assert (Hx : Prim2SF x <> S754_nan).
    { intros E. rewrite E in H. discriminate. }
    assert (Hy : Prim2SF y <> S754_nan).
    { intros E. rewrite E in H. destruct (Prim2SF x) as [| | |]; discriminate. }
    repeat split; try assumption.
    rewrite (SFcompare_rank _ _ Hx Hy) in H. apply rank_compare_le.
    destruct (rank_compare _ _); congruence.
  - intros (Hx & Hy & H). rewrite (SFcompare_rank _ _ Hx Hy).
    apply rank_compare_le in H. destruct (rank_compare _ _); congruence.
Qed.

Lemma ltb_true_iff x y :
  (x <? y)%float = true
  <-> number x /\ number y /\ rank_lt (rank (Prim2SF x)) (rank (Prim2SF y)).
Proof.
  rewrite ltb_spec. unfold SFltb, number. split.
  - intros H.
    assert (Hx : Prim2SF x <> S754_nan).
    { intros E. rewrite E in H. discriminate. }
    assert (Hy : Prim2SF y <> S754_nan).
    { intros E. rewrite E in H. destruct (Prim2SF x) as [| | |]; discriminate. }
    repeat split; try assumption.
    rewrite (SFcompare_rank _ _ Hx Hy) in H. apply rank_compare_lt.
    destruct (rank_compare _ _); congruence.
  - intros (Hx & Hy & H). rewrite (SFcompare_rank _ _ Hx Hy).
    apply rank_compare_lt in H. now rewrite H.
Qed.

Lemma eqb_true_iff x y :
  (x =? y)%float = true
  <-> number x /\ number y /\ rank (Prim2SF x) = rank (Prim2SF y).
Proof.
  rewrite FloatAxioms.eqb_spec. unfold SFeqb, number. split.
  - intros H.
    assert (Hx : Prim2SF x <> S754_nan).
    { intros E. rewrite E in H. discriminate. }
    assert (Hy : Prim2SF y <> S754_nan).
    { intros E. rewrite E in H. destruct (Prim2SF x) as [| | |]; discriminate. }
    repeat split; try assumption.
    rewrite (SFcompare_rank _ _ Hx Hy) in H. apply rank_compare_eq.
    destruct (rank_compare _ _); congruence.
  - intros (Hx & Hy & H). rewrite (SFcompare_rank _ _ Hx Hy).
    apply rank_compare_eq in H. now rewrite H.
Qed.

Lemma leb_trans x y z :
  (x <=? y)%float = true -> (y <=? z)%float = true -> (x <=? z)%float = true.
Proof.
  rewrite !leb_true_iff. intros (Hx & _ & H1) (_ & Hz & H2).
  repeat split; try assumption.
  destruct (rank (Prim2SF x)) as [[? ?] ?], (rank (Prim2SF y)) as [[? ?] ?],
    (rank (Prim2SF z)) as [[? ?] ?].
  unfold rank_le in *. lia.
Qed.

Lemma is_nan_true_iff x : is_nan x = true <-> ~ number x.
Proof.
  rewrite <- is_nan_false_iff. destruct (is_nan x); split; congruence.
Qed.

Lemma leb_number a x : (a <=? x)%float = true -> number a /\ number x.
Proof. rewrite leb_true_iff. tauto. Qed.

Lemma leb_antisym x y :
  (x <=? y)%float = true -> (y <=? x)%float = true -> (x =? y)%float = true.
Proof.
  rewrite !leb_true_iff, eqb_true_iff. intros (Hx & Hy & H1) (_ & _ & H2).
  repeat split; try assumption.
  destruct (rank (Prim2SF x)) as [[? ?] ?], (rank (Prim2SF y)) as [[? ?] ?].
  unfold rank_le in *. f_equal; [f_equal|]; lia.
Qed.

(** A point with a missing coordinate is in no box. *)
Lemma in_box_nan name lat lon :
  is_nan lat = true \/ is_nan lon = true -> in_box name lat lon = false.
Proof.
  intros Hnan. unfold in_box, closed_box.
  destruct (lookup name REGIONS) as [box|]; [|reflexivity].
  destruct (lookup "lat_min" box) as [lat_min|]; [|reflexivity].
  destruct (lookup "lat_max" box) as [lat_max|]; [|reflexivity].
  destruct (lookup "lon_min" box) as [lon_min|]; [|reflexivity].
  destruct (lookup "lon_max" box) as [lon_max|]; [|reflexivity].
  destruct (lat_min <=? lat)%float eqn:E1; [|reflexivity].
  destruct (lon_min <=? lon)%float eqn:E2; [|now rewrite andb_false_r].
  apply leb_number in E1 as [_ E1], E2 as [_ E2].
  destruct Hnan as [H|H]; apply is_nan_true_iff in H; contradiction.
Qed.

(** X9. A row whose latitude or longitude is missing (NaN) is labelled
    "Conterminous US": every comparison with a missing number is false, so
    the row falls through all five tests to the default. *)
Theorem missing_coordinates_default_label (r : row) (w : world) :
  is_nan (latitude r) = true \/ is_nan (longitude r) = true ->
  classify_region r w = (w, Returned "Conterminous US")
  /\ (forall name, in_box name (latitude r) (longitude r) = false).
Proof.
  intros Hnan.
  assert (Hbox : forall name, in_box name (latitude r) (longitude r) = false)
    by (intros name; now apply in_box_nan).
  split; [|exact Hbox].
  rewrite classify_region_label. unfold region_by_precedence, in_alaska.
  now rewrite !Hbox.
Qed.

Lemma missing_coordinates_default_label_witness :
  classify_region (Row (Some "1930-01-01T00:00:00.000Z") nan (-155.5)%float
                     5.0%float [])
    (World [] [])
  = (World [] [], Returned "Conterminous US").
Proof.
  refine (proj1 (missing_coordinates_default_label
                   (Row (Some "1930-01-01T00:00:00.000Z") nan (-155.5)%float
                      5.0%float [])
                   (World [] []) _)).
  left. reflexivity.
Defined.

(** ** The six boxes *)

(** Two bounds around one coordinate with the lower above the upper. *)
Ltac apart :=
  match goal with
  | Ha : (?a <=? ?x)%float = true, Hb : (?x <=? ?b)%float = true |- _ =>
      let K := fresh "K" in
      pose proof (leb_trans a x b Ha Hb) as K;
      vm_compute in K; discriminate K
  end.

Ltac open_boxes :=
  unfold in_box, closed_box in *; cbn [lookup REGIONS String.eqb Ascii.eqb
    Bool.eqb] in *;
  repeat match goal with
         | H : _ && _ = true |- _ => apply andb_true_iff in H as [? ?]
         end.

Lemma in_box_names name lat lon :
  in_box name lat lon = true -> In name (map fst REGIONS).
Proof.
  unfold in_box. intros H.
  destruct (lookup name REGIONS) as [box|] eqn:E; [|discriminate].
  clear H. unfold REGIONS in E. cbn [lookup] in E. cbn [map fst REGIONS In].
  repeat match type of E with
         | (if String.eqb ?k name then _ else _) = _ =>
             destruct (String.eqb_spec k name); [now auto 10|]
         end.
  discriminate.
Qed.

(** X10. Two different boxes of [REGIONS] have a point in common only when
    they are the west and the main Alaska boxes and the point lies on their
    shared meridian: its longitude equals -169.5 and its latitude is at
    least 54.  No other pair of boxes, the Conterminous US box included,
    shares a point. *)
Theorem boxes_meet_only_on_alaska_meridian
    (name1 name2 : string) (lat lon : float) :
  name1 <> name2 ->
  in_box name1 lat lon = true ->
  in_box name2 lat lon = true ->
  ((name1 = "Alaska_west_dateline" /\ name2 = "Alaska_main")
   \/ (name1 = "Alaska_main" /\ name2 = "Alaska_west_dateline"))
  /\ (lon =? (-169.5))%float = true
  /\ (54.0 <=? lat)%float = true
  /\ (lat <=? 72.0)%float = true.
Proof.
  intros Hne H1 H2.
  pose proof (in_box_names _ _ _ H1) as N1.
  pose proof (in_box_names _ _ _ H2) as N2.
  simpl in N1, N2.
  destruct N1 as [<-|[<-|[<-|[<-|[<-|[<-|[]]]]]]];
    destruct N2 as [<-|[<-|[<-|[<-|[<-|[<-|[]]]]]]];
    try congruence; open_boxes; try apart.
  - split; [left; now split|]. split; [|now split].
    now apply leb_antisym.
  - split; [right; now split|]. split; [|now split].
    now apply leb_antisym.
Qed.

Lemma boxes_meet_only_on_alaska_meridian_witness :
  (((-169.5) =? (-169.5))%float = true) /\ (54.0 <=? 60.0)%float = true.
Proof.
  destruct (boxes_meet_only_on_alaska_meridian
              "Alaska_west_dateline" "Alaska_main" 60.0%float (-169.5)%float)
    as (_ & Hlon & Hlat & _).
  - discriminate.
  - reflexivity.
  - reflexivity.
  - now split.
Defined.

Lemma in_alaska_true_iff lat lon :
  in_alaska lat lon = true
  <-> in_box "Alaska_west_dateline" lat lon = true
      \/ in_box "Alaska_main" lat lon = true
      \/ in_box "Alaska_east_dateline" lat lon = true.
Proof. unfold in_alaska. rewrite !orb_true_iff. tauto. Qed.

Lemma alaska_apart name lat lon :
  In name ["Conterminous_US"; "Hawaii"; "Puerto_Rico"] ->
  in_alaska lat lon = true -> in_box name lat lon = true -> False.
Proof.
  intros Hname Ha Hb. apply in_alaska_true_iff in Ha.
  simpl in Hname.
  destruct Hname as [<-|[<-|[<-|[]]]]; destruct Ha as [Ha|[Ha|Ha]];
    open_boxes; apart.
Qed.

Lemma islands_apart name1 name2 lat lon :
  In (name1, name2) [ ("Hawaii", "Puerto_Rico"); ("Conterminous_US", "Hawaii");
                      ("Conterminous_US", "Puerto_Rico") ] ->
  in_box name1 lat lon = true -> in_box name2 lat lon = true -> False.
Proof.
  simpl. intros [[= <- <-]|[[= <- <-]|[[= <- <-]|[]]]] H1 H2;
    open_boxes; apart.
Qed.

(** X11. The order of the tests never decides a label: a row is labelled
    "Alaska" exactly when its point is in one of the three Alaska boxes,
    "Hawaii" exactly when it is in the Hawaii box, "Puerto Rico" exactly
    when it is in the Puerto Rico box, and "Conterminous US" exactly when
    it is in none of these five; a point of the Conterminous US box is among
    the last, though the box itself is never looked at. *)
Theorem label_is_box_membership (r : row) (w : world) :
  (classify_region r w = (w, Returned "Alaska")
   <-> in_alaska (latitude r) (longitude r) = true)
  /\ (classify_region r w = (w, Returned "Hawaii")
      <-> in_box "Hawaii" (latitude r) (longitude r) = true)
  /\ (classify_region r w = (w, Returned "Puerto Rico")
      <-> in_box "Puerto_Rico" (latitude r) (longitude r) = true)
  /\ (classify_region r w = (w, Returned "Conterminous US")
      <-> in_alaska (latitude r) (longitude r) = false
          /\ in_box "Hawaii" (latitude r) (longitude r) = false
          /\ in_box "Puerto_Rico" (latitude r) (longitude r) = false)
  /\ (in_box "Conterminous_US" (latitude r) (longitude r) = true ->
      classify_region r w = (w, Returned "Conterminous US")).
Proof.
  rewrite classify_region_label. unfold region_by_precedence.
  destruct (in_alaska (latitude r) (longitude r)) eqn:Ea;
    destruct (in_box "Hawaii" (latitude r) (longitude r)) eqn:Eh;
    destruct (in_box "Puerto_Rico" (latitude r) (longitude r)) eqn:Ep;
    try (exfalso; apply (alaska_apart "Hawaii" _ _ ltac:(simpl; tauto) Ea Eh));
    try (exfalso;
         apply (alaska_apart "Puerto_Rico" _ _ ltac:(simpl; tauto) Ea Ep));
    try (exfalso;
         apply (islands_apart "Hawaii" "Puerto_Rico" _ _
                  ltac:(simpl; tauto) Eh Ep)).
  all: repeat split; try congruence; try tauto; try discriminate;
    try (intros [= H]; discriminate H); try (intros (? & ? & ?); congruence).
  all: intros Hc; exfalso.
  - apply (alaska_apart "Conterminous_US" _ _ ltac:(simpl; tauto) Ea Hc).
  - apply (islands_apart "Conterminous_US" "Hawaii" _ _
             ltac:(simpl; tauto) Hc Eh).
  - apply (islands_apart "Conterminous_US" "Puerto_Rico" _ _
             ltac:(simpl; tauto) Hc Ep).
Qed.

(** ** The plotter: categories *)

Lemma Categorical_known series :
  Forall (fun c => exists s, c = Str s /\ In s region_order) series ->
  Categorical series region_order = series.
Proof.
  induction 1 as [|c rest [s [-> Hs]] _ IH]; [reflexivity|].
  unfold Categorical in *. cbn [map]. rewrite IH.
  replace (existsb (String.eqb s) region_order) with true; [reflexivity|].
  symmetry. apply existsb_exists. exists s. split; [exact Hs|].
  apply String.eqb_refl.
Qed.

(** X12. The categories of the plotter are the labels of the fetcher: the
    [region] column of any frame the fetcher writes passes through
    [pd.Categorical] unchanged, no row losing its region.  In general the
    column keeps its length, a value among the four categories is kept and
    any other value becomes missing. *)
Theorem categories_keep_fetcher_labels {C : Type} {cells : Cell C}
    (rows : list (row_of C)) :
  Categorical (map (fun x => Str (region x)) (output_frame rows)) region_order
  = map (fun x => Str (region x)) (output_frame rows)
  /\ (forall series,
        List.length (Categorical series region_order) = List.length series)
  /\ (forall s before after,
        In s region_order ->
        Categorical (before ++ Str s :: after) region_order
        = Categorical before region_order ++ Str s
          :: Categorical after region_order)
  /\ (forall s before after,
        ~ In s region_order ->
        Categorical (before ++ Str s :: after) region_order
        = Categorical before region_order ++ Num nan
          :: Categorical after region_order)
  /\ (forall c,
        In c (Categorical (map (fun x => Str (region x)) (output_frame rows))
                region_order) ->
        isna c = false).
Proof.
  assert (Hknown : Forall (fun c => exists s, c = Str s /\ In s region_order)
                     (map (fun x => Str (region x)) (output_frame rows))).
  { apply Forall_forall. intros c Hc. apply in_map_iff in Hc as [x [<- Hx]].
    exists (region x). split; [reflexivity|].
    apply in_output_frame, in_with_region in Hx as [_ ->].
    apply region_by_precedence_in_order. }
  split; [now apply Categorical_known|split; [|split; [|split]]].
  - intros series. unfold Categorical. apply length_map.
  - intros s before after Hs. unfold Categorical. rewrite map_app. cbn [map].
    replace (existsb (String.eqb s) region_order) with true; [reflexivity|].
    symmetry. apply existsb_exists. exists s. split; [exact Hs|].
    apply String.eqb_refl.
  - intros s before after Hs. unfold Categorical. rewrite map_app. cbn [map].
    replace (existsb (String.eqb s) region_order) with false; [reflexivity|].
    symmetry. destruct (existsb _ region_order) eqn:E; [|reflexivity].
    apply existsb_exists in E as [t [Ht Heq]].
    apply String.eqb_eq in Heq. subst t. contradiction.
  - intros c. rewrite (Categorical_known _ Hknown).
    intros Hc. apply in_map_iff in Hc as [x [<- _]]. reflexivity.
Qed.

(** ** The plotter: missing columns *)

Lemma getitem_none {V} (d : list (string * V)) key w :
  lookup key d = None -> getitem d key w = (w, Raised (KeyError key)).
Proof. unfold getitem. now intros ->. Qed.

Lemma clip_raises lower series w :
  (exists c, In c series /\ forall x, c <> Num x) ->
  exists msg, clip lower series w = (w, Raised (TypeError msg)).
Proof.
  induction series as [|c rest IH]; intros [bad [Hin Hbad]];
    [contradiction|].
  simpl. destruct c as [x|s|t|].
  - destruct Hin as [<-|Hin]; [now destruct (Hbad x)|].
    destruct (IH (ex_intro _ bad (conj Hin Hbad))) as [msg Hmsg].
    exists msg. unfold bind. simpl.
    destruct (is_nan x || (lower <=? x)%float); unfold ret; now rewrite Hmsg.
  - eexists. reflexivity.
  - eexists. reflexivity.
  - eexists. reflexivity.
Qed.

(** X13. The clean-ups raise [KeyError] for the first of the columns
    [time], [depth], [region] that the frame lacks, and [TypeError] when
    the [depth] column holds a value that is not a number; in each case
    nothing else has happened. *)
Theorem cleanups_errors
    (to_datetime dt_year : list cell -> list cell) (df : frame) (w : world) :
  (lookup "time" df = None ->
   cleanups to_datetime dt_year df w = (w, Raised (KeyError "time")))
  /\ (lookup "time" df <> None -> lookup "depth" df = None ->
      cleanups to_datetime dt_year df w = (w, Raised (KeyError "depth")))
  /\ (lookup "time" df <> None ->
      forall depth_col,
        lookup "depth" df = Some depth_col ->
        (exists c, In c depth_col /\ forall x, c <> Num x) ->
        exists msg,
          cleanups to_datetime dt_year df w = (w, Raised (TypeError msg)))
  /\ (lookup "time" df <> None ->
      forall depth,
        lookup "depth" df = Some (map Num depth) ->
        lookup "region" df = None ->
        cleanups to_datetime dt_year df w = (w, Raised (KeyError "region"))).
Proof.
  split; [|split; [|split]].
  - intros H. unfold cleanups, bind. now rewrite (getitem_none df "time" w H).
  - intros Ht Hd. destruct (lookup "time" df) as [time_col|] eqn:Et;
      [|congruence].
    unfold cleanups.
    rewrite (bind_returned _ _ _ _ _ (getitem_some df "time" _ w Et)).
    rewrite (bind_returned _ _ _ _ _
               (getitem_some _ "time" _ w (lookup_store_same _ _ _))).
    unfold bind. rewrite getitem_none; [reflexivity|].
    now rewrite !lookup_store_other by discriminate.
  - intros Ht depth_col Hd Hbad.
    destruct (lookup "time" df) as [time_col|] eqn:Et; [|congruence].
    destruct (clip_raises 0%float depth_col w Hbad) as [msg Hmsg].
    exists msg. unfold cleanups.
    rewrite (bind_returned _ _ _ _ _ (getitem_some df "time" _ w Et)).
    rewrite (bind_returned _ _ _ _ _
               (getitem_some _ "time" _ w (lookup_store_same _ _ _))).
    assert (Hd2 : lookup "depth"
                    (store "year" (dt_year (to_datetime time_col))
                       (store "time" (to_datetime time_col) df))
                  = Some depth_col)
      by now rewrite !lookup_store_other by discriminate.
    rewrite (bind_returned _ _ _ _ _ (getitem_some _ "depth" _ w Hd2)).
    unfold bind at 1. now rewrite Hmsg.
  - intros Ht depth Hd Hr.
    destruct (lookup "time" df) as [time_col|] eqn:Et; [|congruence].
    unfold cleanups.
    rewrite (bind_returned _ _ _ _ _ (getitem_some df "time" _ w Et)).
    rewrite (bind_returned _ _ _ _ _
               (getitem_some _ "time" _ w (lookup_store_same _ _ _))).
    assert (Hd2 : lookup "depth"
                    (store "year" (dt_year (to_datetime time_col))
                       (store "time" (to_datetime time_col) df))
                  = Some (map Num depth))
      by now rewrite !lookup_store_other by discriminate.
    rewrite (bind_returned _ _ _ _ _ (getitem_some _ "depth" _ w Hd2)).
    rewrite (bind_returned _ _ _ _ _ (clip_numbers depth w)).
    unfold bind. rewrite getitem_none; [reflexivity|].
    now rewrite !lookup_store_other by discriminate.
Qed.

(** ** The plotter: the map and its fallback *)


(** ** The plotter: rows with missing values *)

Lemma getitems_run df names : forall w w' cols,
  getitems df names w = (w', Returned cols) ->
  w' = w /\ Forall2 (fun name col => lookup name df = Some col) names cols.
Proof.
  induction names as [|name rest IH]; intros w w' cols; simpl.
  - intros [= <- <-]. split; [reflexivity|constructor].
  - unfold bind at 1. unfold getitem.
    destruct (lookup name df) as [col|] eqn:E; [|discriminate].
    unfold ret at 1. cbv beta iota. unfold bind at 1.
    destruct (getitems df rest w) as [w1 [cols'|e]] eqn:Er; [|discriminate].
    intros [= <- <-]. destruct (IH _ _ _ Er) as [-> H].
    split; [reflexivity|]. now constructor.
Qed.

Lemma length_notna_all n : forall columns,
  List.length (notna_all columns n) = n.
Proof. induction n as [|n IH]; intros columns; simpl; [|rewrite IH]; auto. Qed.

Lemma select_notna n : forall columns col,
  In col columns -> List.length col = n ->
  Forall notna (select (notna_all columns n) col).
Proof.
  induction n as [|n IH]; intros columns col Hin Hlen; simpl.
  - constructor.
  - destruct col as [|c col]; [discriminate|]. simpl in Hlen.
    assert (Hrest : Forall notna
                      (select (notna_all (map (@tl cell) columns) n) col)).
    { apply IH; [|lia]. change col with (tl (c :: col)). now apply in_map. }
    destruct (forallb _ columns) eqn:E; [|exact Hrest].
    constructor; [|exact Hrest].
    rewrite forallb_forall in E. specialize (E _ Hin). simpl in E.
    unfold notna. now apply negb_true_iff.
Qed.

Lemma notna_all_complete n : forall columns,
  (forall col, In col columns -> List.length col = n /\ Forall notna col) ->
  notna_all columns n = repeat true n.
Proof.
  induction n as [|n IH]; intros columns H; simpl; [reflexivity|].
  f_equal.
  - apply forallb_forall. intros col Hcol. destruct (H col Hcol) as [Hlen Hna].
    destruct col as [|c col]; [reflexivity|].
    inversion Hna; subst. unfold notna in *. now apply negb_true_iff.
  - apply IH. intros col Hcol. apply in_map_iff in Hcol as [col0 [<- Hcol0]].
    destruct (H col0 Hcol0) as [Hlen Hna].
    destruct col0 as [|c col0]; [discriminate|]. simpl in *.
    split; [lia|now inversion Hna].
Qed.

Lemma select_all {A} (col : list A) :
  select (repeat true (List.length col)) col = col.
Proof. induction col as [|c col IH]; simpl; [reflexivity|]. now rewrite IH. Qed.

Lemma length_select {A} (mask : list bool) : forall col : list A,
  List.length col = List.length mask ->
  List.length (select mask col) = List.length (filter (fun b => b) mask).
Proof.
  induction mask as [|keep mask IH]; intros [|c col]; simpl; try discriminate;
    try reflexivity.
  intros [= H]. destruct keep; simpl; now rewrite IH.
Qed.

Lemma Forall_select {A} (P : A -> Prop) (mask : list bool) : forall col,
  Forall P col -> Forall P (select mask col).
Proof.
  induction mask as [|keep mask IH]; intros [|c col] H; simpl;
    try constructor.
  inversion H; subst. destruct keep; [constructor|]; auto.
Qed.

Lemma lookup_in {V} key (d : list (string * V)) v :
  lookup key d = Some v -> In (key, v) d.
Proof.
  induction d as [|[k v'] rest IH]; simpl; [discriminate|].
  destruct (String.eqb_spec k key) as [->|_].
  - intros [= ->]. now left.
  - intros H. right. now apply IH.
Qed.

Lemma Forall2_right {A B} (R : A -> B -> Prop) l1 l2 :
  Forall2 R l1 l2 -> forall b, In b l2 -> exists a, In a l1 /\ R a b.
Proof.
  induction 1 as [|a b l1 l2 Hab _ IH]; intros b' Hb; [contradiction|].
  destruct Hb as [<-|Hb].
  - exists a. split; [now left|exact Hab].
  - destruct (IH b' Hb) as [a' [Ha' Hr]]. exists a'. split; [now right|exact Hr].
Qed.

Lemma Forall2_left {A B} (R : A -> B -> Prop) l1 l2 :
  Forall2 R l1 l2 -> forall a, In a l1 -> exists b, In b l2 /\ R a b.
Proof.
  induction 1 as [|a b l1 l2 Hab _ IH]; intros a' Ha; [contradiction|].
  destruct Ha as [<-|Ha].
  - exists b. split; [now left|exact Hab].
  - destruct (IH a' Ha) as [b' [Hb' Hr]]. exists b'. split; [now right|exact Hr].
Qed.

(** What [dropna] returns: every column cut by one mask of the frame's
    length. *)
Lemma dropna_run df subset w cols :
  getitems df subset w = (w, Returned cols) ->
  dropna df subset w
  = (w, Returned (map (fun named =>
                         (fst named,
                          select (notna_all cols (frame_length df))
                            (snd named))) df)).
Proof. intros H. unfold dropna, bind. now rewrite H. Qed.

(** X15. [dropna(subset=...)] on a frame whose columns have one length: the
    listed columns come out with no missing value, all columns are cut at
    the same rows (so the frame keeps one length, the number of rows kept,
    and its column names in order), and a frame with nothing missing in the
    listed columns comes out as it went in.  It raises [KeyError] for a
    listed column the frame lacks. *)
Theorem dropna_keeps_complete_rows (df : frame) (subset : list string)
    (cols : list (list cell)) (w : world) :
  rectangular df ->
  getitems df subset w = (w, Returned cols) ->
  exists mask df',
    dropna df subset w = (w, Returned df')
    /\ List.length mask = frame_length df
    /\ df' = map (fun named => (fst named, select mask (snd named))) df
    /\ (forall name col',
          In name subset -> lookup name df' = Some col' -> Forall notna col')
    /\ (forall name col',
          In (name, col') df' ->
          List.length col' = List.length (filter (fun b => b) mask))
    /\ map fst df' = map fst df
    /\ ((forall col, In col cols -> Forall notna col) -> df' = df)
    /\ (forall name,
          lookup name df = None ->
          dropna df (name :: subset) w = (w, Raised (KeyError name))).
Proof.
  intros Hrect Hcols.
  destruct (getitems_run _ _ _ _ _ Hcols) as [_ Hall].
  exists (notna_all cols (frame_length df)). eexists.
  split; [exact (dropna_run _ _ _ _ Hcols)|].
  split; [apply length_notna_all|]. split; [reflexivity|].
  assert (Hsub : forall col, In col cols ->
                   List.length col = frame_length df).
  { intros col Hcol.
    destruct (Forall2_right _ _ _ Hall _ Hcol) as [name [_ Hname]].
    apply lookup_in in Hname. now apply (Hrect name). }
  split; [|split; [|split; [|split]]].
  - intros name col' Hname. rewrite lookup_select.
    destruct (lookup name df) as [col|] eqn:E; [|discriminate].
    intros [= <-].
    destruct (Forall2_left _ _ _ Hall _ Hname) as [col0 [Hcol0 Hl]].
    rewrite E in Hl. injection Hl as <-.
    apply select_notna; [exact Hcol0|now apply Hsub].
  - intros name col' Hin. apply in_map_iff in Hin as [[k col] [[= <- <-] Hk]].
    cbn [snd]. apply length_select. rewrite length_notna_all.
    now apply (Hrect k).
  - rewrite map_map. reflexivity.
  - intros Hna.
    rewrite (notna_all_complete (frame_length df) cols)
      by (intros col Hcol; split; [now apply Hsub|now apply Hna]).
    rewrite <- (map_id df) at 2. apply map_ext_in.
    intros [k col] Hk. cbn [fst snd]. f_equal.
    rewrite <- (Hrect k col Hk). apply select_all.
  - intros name Hnone. unfold dropna, bind. cbn [getitems]. unfold bind.
    now rewrite (getitem_none df name w Hnone).
Qed.

Lemma dropna_keeps_complete_rows_witness :
  exists (mask : list bool) df',
    dropna [ ("latitude", [Num 19.5; Num nan; Num 61.0]);
             ("mag", [Num 5.0; Num 5.5; Num nan]);
             ("place", [Str "a"; Str "b"; Str "c"]) ]
      ["latitude"; "mag"] (World [] [])
    = (World [] [], Returned df')
    /\ List.length mask = 3%nat.
Proof.
  destruct (dropna_keeps_complete_rows
              [ ("latitude", [Num 19.5; Num nan; Num 61.0]);
                ("mag", [Num 5.0; Num 5.5; Num nan]);
                ("place", [Str "a"; Str "b"; Str "c"]) ]
              ["latitude"; "mag"]
              [ [Num 19.5; Num nan; Num 61.0]; [Num 5.0; Num 5.5; Num nan] ]
              (World [] []))
    as [mask [df' (Hrun & Hlen & _)]].
  - intros name col [[= <- <-]|[[= <- <-]|[[= <- <-]|[]]]]; reflexivity.
  - reflexivity.
  - exists mask, df'. now split.
Defined.

(** ** The plotter: the depths of the box plot *)

Lemma max_with_zero_not_negative d :
  is_nan (max_with_zero d) = false -> (0 <=? max_with_zero d)%float = true.
Proof.
  unfold max_with_zero. destruct (d <? 0)%float eqn:E; [reflexivity|].
  intros Hd. apply is_nan_false_iff in Hd.
  assert (H0 : number 0%float) by (intros H; vm_compute in H; discriminate H).
  apply leb_true_iff. repeat split; try assumption.
  assert (Hlt : ~ rank_lt (rank (Prim2SF d)) (rank (Prim2SF 0%float))).
  { intros H. rewrite (proj2 (ltb_true_iff d 0%float)) in E; [discriminate|].
    now repeat split. }
  destruct (rank (Prim2SF d)) as [[? ?] ?],
    (rank (Prim2SF 0%float)) as [[? ?] ?].
  unfold rank_le, rank_lt in *. lia.
Qed.

Lemma depth_by_region_run depth_df regions : forall w w' data,
  regions <> [] ->
  depth_by_region depth_df regions w = (w', Returned data) ->
  exists region_col depth_col,
    lookup "region" depth_df = Some region_col
    /\ lookup "depth_clean" depth_df = Some depth_col
    /\ data = map (fun r => select (map (cell_is r) region_col) depth_col)
                regions.
Proof.
  induction regions as [|r rest IH]; intros w w' data Hne; [congruence|].
  cbn [depth_by_region]. unfold bind at 1. unfold getitem at 1.
  destruct (lookup "region" depth_df) as [region_col|] eqn:Er;
    [|discriminate].
  unfold ret at 1. cbv beta iota. unfold bind at 1. unfold getitem at 1.
  destruct (lookup "depth_clean" depth_df) as [depth_col|] eqn:Ed;
    [|discriminate].
  unfold ret at 1. cbv beta iota. unfold bind at 1.
  destruct (depth_by_region depth_df rest w) as [w1 [more|e]] eqn:E;
    [|discriminate].
  intros [= <- <-]. exists region_col, depth_col.
  split; [reflexivity|split; [reflexivity|]]. cbn [map]. f_equal.
  destruct rest as [|r' rest'].
  - simpl in E. now injection E as _ <-.
  - destruct (IH _ _ _ ltac:(discriminate) E)
      as [region_col' [depth_col' (H1 & H2 & ->)]].
    injection H1 as <-. injection H2 as <-. reflexivity.
Qed.

(** X16. The box plot never sees a negative or a missing depth: from a
    frame whose [depth_clean] column is the clipped depth, the data of Plot
    4 are four series, one per region of [region_order] in that order, and
    every value in them is a number that is not missing and not below zero;
    no series is longer than the frame. *)
Theorem boxplot_depths_not_negative (df : frame) (depth : list float)
    (w w' : world) (data : list (list cell)) :
  rectangular df ->
  lookup "depth_clean" df = Some (map (fun d => Num (max_with_zero d)) depth) ->
  boxplot_data df w = (w', Returned data) ->
  List.length data = List.length region_order
  /\ Forall (Forall (fun c => exists x,
                         c = Num x /\ is_nan x = false
                         /\ (0 <=? x)%float = true)) data
  /\ Forall (fun series => (List.length series <= List.length depth)%nat) data
  /\ w' = w.
Proof.
  intros Hrect Hclean. unfold boxplot_data.
  assert (Hcols : getitems df ["depth_clean"] w
                  = (w, Returned [map (fun d => Num (max_with_zero d)) depth])).
  { cbn [getitems].
    now rewrite (bind_returned _ _ _ _ _
                   (getitem_some df "depth_clean" _ w Hclean)). }
  rewrite (bind_returned _ _ _ _ _ (dropna_run _ _ _ _ Hcols)).
  set (mask := notna_all _ (frame_length df)).
  set (depth_df := map _ df).
  intros Hrun.
  assert (Hw : w' = w).
  { clear -Hrun. revert w' data Hrun. generalize region_order as regions.
    induction regions as [|r rest IH]; intros w' data; cbn [depth_by_region].
    - unfold ret. now intros [= <- _].
    - unfold bind, getitem, ret, raise.
      destruct (lookup "region" depth_df); [|discriminate].
      destruct (lookup "depth_clean" depth_df); [|discriminate].
      destruct (depth_by_region depth_df rest w) as [w1 [more|e]] eqn:E;
        [|discriminate].
      intros [= <- _]. now apply (IH _ _ eq_refl). }
  destruct (depth_by_region_run depth_df region_order w w' data
              ltac:(unfold region_order; discriminate) Hrun)
    as [region_col [depth_col (Hregion & Hdepth & ->)]].
  unfold depth_df in Hdepth. rewrite lookup_select, Hclean in Hdepth.
  injection Hdepth as <-.
  assert (Hgood : Forall (fun c => exists x,
                            c = Num x /\ is_nan x = false
                            /\ (0 <=? x)%float = true)
                    (select mask (map (fun d => Num (max_with_zero d)) depth))).
  { assert (Hna : Forall notna
                    (select mask (map (fun d => Num (max_with_zero d)) depth))).
    { apply select_notna; [now left|].
      apply (Hrect "depth_clean"). now apply lookup_in. }
    assert (Hnum : Forall (fun c => exists d, c = Num (max_with_zero d))
                     (select mask
                        (map (fun d => Num (max_with_zero d)) depth))).
    { apply Forall_select, Forall_forall. intros c Hc.
      apply in_map_iff in Hc as [d [<- _]]. now exists d. }
    rewrite Forall_forall in *. intros c Hc.
    destruct (Hnum c Hc) as [d ->]. specialize (Hna _ Hc).
    unfold notna in Hna. simpl in Hna.
    exists (max_with_zero d). split; [reflexivity|]. split; [exact Hna|].
    now apply max_with_zero_not_negative. }
  split; [now rewrite length_map|]. split; [|split; [|exact Hw]].
  - apply Forall_forall. intros series Hs.
    apply in_map_iff in Hs as [r [<- _]]. now apply Forall_select.
  - apply Forall_forall. intros series Hs.
    apply in_map_iff in Hs as [r [<- _]].
    etransitivity; [apply length_select_le|].
    etransitivity; [apply length_select_le|]. now rewrite length_map.
Qed.

Lemma boxplot_depths_not_negative_witness :
  List.length
    [ [Num 12.0%float]; []; [Num 0%float]; @nil cell ]
  = List.length region_order.
Proof.
  refine (proj1 (boxplot_depths_not_negative
                   [ ("depth_clean", [Num 0%float; Num nan; Num 12.0%float]);
                     ("region", [Str "Hawaii"; Str "Alaska"; Str "Alaska"]) ]
                   [(-1.5)%float; nan; 12.0%float]
                   (World [] []) (World [] []) _ _ _ _)).
  - intros name col [[= <- <-]|[[= <- <-]|[]]]; reflexivity.
  - reflexivity.
  - reflexivity.
Defined.

(** ** The plotter: annual counts *)

Lemma ltb_trans x y z :
  (x <? y)%float = true -> (y <? z)%float = true -> (x <? z)%float = true.
Proof.
  rewrite !ltb_true_iff. intros (Hx & _ & H1) (_ & Hz & H2).
  repeat split; try assumption.
  destruct (rank (Prim2SF x)) as [[? ?] ?], (rank (Prim2SF y)) as [[? ?] ?],
    (rank (Prim2SF z)) as [[? ?] ?].
  unfold rank_lt in *. lia.
Qed.

Lemma ltb_total x k :
  number x -> number k ->
  (x =? k)%float = false -> (x <? k)%float = false -> (k <? x)%float = true.
Proof.
  intros Hx Hk Heq Hlt. apply ltb_true_iff. repeat split; try assumption.
  assert (H1 : rank (Prim2SF x) <> rank (Prim2SF k)).
  { intros H. rewrite (proj2 (eqb_true_iff x k)) in Heq; [discriminate|].
    now repeat split. }
  assert (H2 : ~ rank_lt (rank (Prim2SF x)) (rank (Prim2SF k))).
  { intros H. rewrite (proj2 (ltb_true_iff x k)) in Hlt; [discriminate|].
    now repeat split. }
  destruct (rank (Prim2SF x)) as [[a b] c], (rank (Prim2SF k)) as [[a' b'] c'].
  unfold rank_lt in *.
  assert (a <> a' \/ b <> b' \/ c <> c')%Z.
  { destruct (Z.eq_dec a a'), (Z.eq_dec b b'), (Z.eq_dec c c'); subst;
      try tauto. }
  lia.
Qed.

Lemma eqb_congruence x k y :
  (x =? k)%float = true -> (x =? y)%float = (k =? y)%float.
Proof.
  intros H. apply eqb_true_iff in H as (Hx & Hk & Hr).
  apply eq_true_iff_eq. rewrite !eqb_true_iff, Hr. tauto.
Qed.

Lemma ltb_not_eqb x y k :
  (x =? y)%float = true -> (x <? k)%float = true -> (k =? y)%float = false.
Proof.
  intros Heq Hlt. destruct (k =? y)%float eqn:E; [|reflexivity].
  apply eqb_true_iff in Heq as (_ & _ & H1), E as (_ & _ & H2).
  apply ltb_true_iff in Hlt as (_ & _ & H3).
  rewrite H1, <- H2 in H3.
  destruct (rank (Prim2SF k)) as [[? ?] ?]. unfold rank_lt in H3. lia.
Qed.

Lemma group_size_cons y k n rest :
  group_size y ((k, n) :: rest)
  = if (k =? y)%float then n else group_size y rest.
Proof. unfold group_size. simpl. now destruct (k =? y)%float. Qed.

Lemma group_size_above x y groups :
  (x =? y)%float = true ->
  Forall (fun g => (x <? fst g)%float = true) groups ->
  group_size y groups = 0%nat.
Proof.
  intros Heq. induction 1 as [|[k n] rest Hk _ IH]; [reflexivity|].
  rewrite group_size_cons, (ltb_not_eqb x y k Heq Hk). exact IH.
Qed.

Lemma add_to_groups_keys x groups g :
  In g (add_to_groups x groups) ->
  fst g = x \/ exists h, In h groups /\ fst g = fst h.
Proof.
  induction groups as [|[k n] rest IH]; simpl.
  - intros [<-|[]]. now left.
  - destruct (x =? k)%float.
    + intros [<-|H]; right; [exists (k, n)|exists g]; simpl; auto.
    + destruct (x <? k)%float.
      * intros [<-|[<-|H]]; [now left|right..];
          [exists (k, n)|exists g]; simpl; auto.
      * intros [<-|H]; [right; exists (k, n); simpl; auto|].
        destruct (IH H) as [->|[h [Hh Hf]]]; [now left|].
        right. exists h. simpl. auto.
Qed.

Lemma add_to_groups_sorted x groups :
  number x ->
  Forall (fun g => number (fst g)) groups ->
  StronglySorted (fun g h => (fst g <? fst h)%float = true) groups ->
  StronglySorted (fun g h => (fst g <? fst h)%float = true)
    (add_to_groups x groups).
Proof.
  intros Hx Hnum Hs. induction Hs as [|[k n] rest Hrest IH Hk]; simpl.
  - repeat constructor.
  - inversion Hnum as [|? ? Hkn Hnum']; subst. simpl in Hkn.
    destruct (x =? k)%float eqn:Eeq; [now constructor|].
    destruct (x <? k)%float eqn:Elt.
    + constructor; [now constructor|]. constructor; [exact Elt|].
      rewrite Forall_forall in *. intros h Hh.
      apply (ltb_trans _ k); [exact Elt|now apply Hk].
    + constructor; [now apply IH|].
      apply Forall_forall. intros h Hh.
      destruct (add_to_groups_keys _ _ _ Hh) as [->|[h' [Hh' ->]]].
      * now apply ltb_total.
      * rewrite Forall_forall in Hk. now apply Hk.
Qed.

Lemma add_to_groups_size x y groups :
  StronglySorted (fun g h => (fst g <? fst h)%float = true) groups ->
  group_size y (add_to_groups x groups)
  = (group_size y groups + if (x =? y)%float then 1 else 0)%nat.
Proof.
  induction 1 as [|[k n] rest Hrest IH Hk]; simpl.
  - rewrite group_size_cons. cbn. destruct (x =? y)%float; reflexivity.
  - destruct (x =? k)%float eqn:Eeq.
    + rewrite !group_size_cons, (eqb_congruence x k y Eeq).
      destruct (k =? y)%float; lia.
    + destruct (x <? k)%float eqn:Elt.
      * rewrite (group_size_cons y x). destruct (x =? y)%float eqn:Exy; [|lia].
        rewrite (group_size_above x y ((k, n) :: rest) Exy); [reflexivity|].
        constructor; [exact Elt|].
        rewrite Forall_forall in *. intros h Hh.
        apply (ltb_trans _ k); [exact Elt|now apply Hk].
      * rewrite !group_size_cons, IH.
        destruct (k =? y)%float eqn:Eky; [|reflexivity].
        destruct (x =? y)%float eqn:Exy; [|lia].
        rewrite (eqb_congruence x y k Exy) in Eeq.
        apply eqb_true_iff in Eky as (H1 & H2 & H3).
        rewrite (proj2 (eqb_true_iff y k)) in Eeq; [discriminate|].
        now repeat split.
Qed.

Lemma add_to_groups_sum x groups :
  list_sum (map snd (add_to_groups x groups))
  = S (list_sum (map snd groups)).
Proof.
  induction groups as [|[k n] rest IH]; simpl; [reflexivity|].
  destruct (x =? k)%float; [simpl; lia|].
  destruct (x <? k)%float; simpl; [lia|]. rewrite IH. lia.
Qed.

Lemma add_to_groups_counts x groups :
  Forall (fun g => (1 <= snd g)%nat) groups ->
  Forall (fun g => (1 <= snd g)%nat) (add_to_groups x groups).
Proof.
  induction 1 as [|[k n] rest Hk Hrest IH]; simpl.
  - repeat constructor.
  - destruct (x =? k)%float;
      [constructor; [simpl in *; lia|assumption]|].
    destruct (x <? k)%float.
    + constructor; [simpl; lia|]. now constructor.
    + now constructor.
Qed.

(** What the fold of [groupby_size] keeps true. *)
Lemma groupby_fold keys : forall groups,
  Forall (fun g => number (fst g)) groups ->
  Forall (fun g => (1 <= snd g)%nat) groups ->
  StronglySorted (fun g h => (fst g <? fst h)%float = true) groups ->
  let result :=
    fold_left (fun groups x =>
                 if is_nan x then groups else add_to_groups x groups)
              keys groups in
  Forall (fun g => number (fst g)) result
  /\ Forall (fun g => (1 <= snd g)%nat) result
  /\ StronglySorted (fun g h => (fst g <? fst h)%float = true) result
  /\ list_sum (map snd result)
     = (list_sum (map snd groups)
        + List.length (filter (fun x => negb (is_nan x)) keys))%nat
  /\ (forall y,
        group_size y result
        = (group_size y groups
           + List.length (filter (fun x => (x =? y)%float) keys))%nat)
  /\ (forall g, In g result ->
        (exists h, In h groups /\ fst g = fst h) \/ In (fst g) keys).
Proof.
  induction keys as [|x rest IH]; intros groups Hnum Hcount Hsorted; cbv zeta.
  - cbn [fold_left filter List.length].
    split; [assumption|split; [assumption|split; [assumption|]]].
    split; [lia|split].
    + intros y. lia.
    + intros g Hg. left. now exists g.
  - cbn [fold_left filter].
    destruct (is_nan x) eqn:Enan.
    + destruct (IH groups Hnum Hcount Hsorted) as (H1 & H2 & H3 & H4 & H5 & H6).
      cbv zeta in *.
      split; [assumption|split; [assumption|split; [assumption|]]].
      split; [assumption|split].
      * intros y. rewrite H5.
        replace (x =? y)%float with false; [reflexivity|].
        symmetry. destruct (x =? y)%float eqn:E; [|reflexivity].
        apply eqb_true_iff in E as [Hx _].
        apply is_nan_true_iff in Enan. contradiction.
      * intros g Hg. destruct (H6 g Hg) as [H|H]; [now left|].
        right. now right.
    + assert (Hx : number x) by now apply is_nan_false_iff.
      assert (Hnum' : Forall (fun g => number (fst g))
                        (add_to_groups x groups)).
      { apply Forall_forall. intros g Hg.
        destruct (add_to_groups_keys _ _ _ Hg) as [->|[h [Hh ->]]];
          [exact Hx|].
        rewrite Forall_forall in Hnum. now apply Hnum. }
      destruct (IH (add_to_groups x groups) Hnum'
                  (add_to_groups_counts x groups Hcount)
                  (add_to_groups_sorted x groups Hx Hnum Hsorted))
        as (H1 & H2 & H3 & H4 & H5 & H6).
      cbv zeta in *.
      split; [assumption|split; [assumption|split; [assumption|]]].
      split; [|split].
      * rewrite H4, add_to_groups_sum. cbn [negb List.length]. lia.
      * intros y. rewrite H5, (add_to_groups_size x y groups Hsorted).
        destruct (x =? y)%float; cbn [List.length]; lia.
      * intros g Hg. destruct (H6 g Hg) as [[h [Hh Heq]]|H].
        -- destruct (add_to_groups_keys _ _ _ Hh) as [Hx'|[h' [Hh' Hf]]].
           ++ right. left. congruence.
           ++ left. exists h'. split; [exact Hh'|congruence].
        -- right. now right.
Qed.

(** X17. The annual counts of Plot 1 sum to the number of rows that have a
    year; there is one row per year that occurs and none for a year without
    events (every count is at least one); the years come in strictly
    ascending order; and the count of a year is the number of rows with
    that year. *)
Theorem annual_counts_cover_rows (years : list float) :
  list_sum (map snd (groupby_size years))
  = List.length (filter (fun x => negb (is_nan x)) years)
  /\ Forall (fun g => (1 <= snd g)%nat) (groupby_size years)
  /\ StronglySorted (fun g h => (fst g <? fst h)%float = true)
       (groupby_size years)
  /\ (forall y,
        group_size y (groupby_size years)
        = List.length (filter (fun x => (x =? y)%float) years))
  /\ (forall g, In g (groupby_size years) ->
        In (fst g) years /\ is_nan (fst g) = false)
  /\ (Forall (fun x => is_nan x = true) years -> groupby_size years = []).
Proof.
  destruct (groupby_fold years [] (Forall_nil _) (Forall_nil _)
              (SSorted_nil _)) as (H1 & H2 & H3 & H4 & H5 & H6).
  cbv zeta in *. fold (groupby_size years) in *.
  split; [exact H4|split; [exact H2|split; [exact H3|split; [|split]]]].
  - intros y. now rewrite H5.
  - intros g Hg. split.
    + destruct (H6 g Hg) as [[h [[] _]]|H]; exact H.
    + rewrite Forall_forall in H1. now apply is_nan_false_iff, H1.
  - intros Hall. unfold groupby_size. clear -Hall.
    induction Hall as [|x rest Hx _ IH]; [reflexivity|].
    cbn [fold_left]. now rewrite Hx.
Qed.

(** ** The plotter: the rows of the interactive map *)

Lemma hover_values_names shown w w' values :
  hover_values shown hover_data w = (w', Returned values) ->
  w' = w
  /\ map fst values = ["mag"; "depth"; "place"; "time"; "region"]
  /\ forall name col, In (name, col) values -> lookup name shown = Some col.
Proof.
  unfold hover_data. cbn [hover_values]. unfold getitem, bind, ret, raise.
  destruct (lookup "mag" shown) eqn:E1; [|discriminate].
  destruct (lookup "depth" shown) eqn:E2; [|discriminate].
  destruct (lookup "place" shown) eqn:E3; [|discriminate].
  destruct (lookup "time" shown) eqn:E4; [|discriminate].
  destruct (lookup "region" shown) eqn:E5; [|discriminate].
  intros [= <- <-]. split; [reflexivity|split; [reflexivity|]].
  intros name col [[= <- <-]|[[= <- <-]|[[= <- <-]|[[= <- <-]|[[= <- <-]|[]]]]]];
    assumption.
Qed.

(** X18. The interactive map is drawn from the rows that have a latitude, a
    longitude and a magnitude, and from those only: in the plotted frame
    these three columns hold no missing value, the columns are those of the
    frame in the same order, and the hover boxes show, in this order, the
    plotted frame's columns mag, depth, place, time and region.  Drawing
    changes nothing else. *)
Theorem interactive_map_rows (df : frame) (w w' : world) (fig : figure) :
  rectangular df ->
  scatter_geo df w = (w', Returned fig) ->
  w' = w
  /\ (forall name col,
        In name ["latitude"; "longitude"; "mag"] ->
        lookup name (plotted fig) = Some col -> Forall notna col)
  /\ map fst (plotted fig) = map fst df
  /\ map fst (hover fig) = ["mag"; "depth"; "place"; "time"; "region"]
  /\ (forall name col,
        In (name, col) (hover fig) -> lookup name (plotted fig) = Some col)
  /\ (exists mask,
        List.length mask = frame_length df
        /\ plotted fig
           = map (fun named => (fst named, select mask (snd named))) df).
Proof.
  intros Hrect. unfold scatter_geo, dropna. unfold bind at 1. unfold bind at 1.
  destruct (getitems df ["latitude"; "longitude"; "mag"] w)
    as [w1 [cols|e]] eqn:Ecols; [|discriminate].
  destruct (getitems_run _ _ _ _ _ Ecols) as [-> Hall].
  unfold ret at 1. cbv beta iota.
  set (mask := notna_all cols (frame_length df)).
  set (shown := map _ df).
  unfold getitem at 1 2 3 4. unfold bind at 1 2 3 4.
  destruct (lookup "latitude" shown); [|discriminate].
  destruct (lookup "longitude" shown); [|discriminate].
  destruct (lookup "region" shown); [|discriminate].
  destruct (lookup "mag" shown); [|discriminate].
  unfold ret at 1 2 3 4. cbv beta iota. unfold bind.
  destruct (hover_values shown hover_data w) as [w2 [values|e]] eqn:E;
    [|discriminate].
  intros [= <- <-]. cbn [plotted hover].
  destruct (hover_values_names _ _ _ _ E) as (-> & Hnames & Hcols).
  split; [reflexivity|split; [|split; [|split; [|split]]]].
  - intros name col Hname. unfold shown. rewrite lookup_select.
    destruct (lookup name df) as [col0|] eqn:E0; [|discriminate].
    intros [= <-].
    destruct (Forall2_left _ _ _ Hall _ Hname) as [col1 [Hcol1 Hl]].
    rewrite E0 in Hl. injection Hl as <-.
    apply select_notna; [exact Hcol1|].
    apply (Hrect name). now apply lookup_in.
  - unfold shown. rewrite map_map. reflexivity.
  - exact Hnames.
  - exact Hcols.
  - exists mask. split; [apply length_notna_all|reflexivity].
Qed.

Lemma interactive_map_rows_witness :
  map fst
    (hover (Figure [ ("latitude", [Num 19.5]); ("longitude", [Num (-155.5)]);
                     ("mag", [Num 5.0]); ("depth", [Num (-1.5)]);
                     ("place", [Str "a"]); ("time", [Str "t1"]);
                     ("region", [Str "Hawaii"]) ]
              [ ("mag", [Num 5.0]); ("depth", [Num (-1.5)]);
                ("place", [Str "a"]); ("time", [Str "t1"]);
                ("region", [Str "Hawaii"]) ]))
  = ["mag"; "depth"; "place"; "time"; "region"].
Proof.
  refine (proj1 (proj2 (proj2 (proj2
            (interactive_map_rows
               [ ("latitude", [Num 19.5; Num nan]);
                 ("longitude", [Num (-155.5); Num (-150.0)]);
                 ("mag", [Num 5.0; Num 5.5]);
                 ("depth", [Num (-1.5); Num 12.0]);
                 ("place", [Str "a"; Str "b"]);
                 ("time", [Str "t1"; Str "t2"]);
                 ("region", [Str "Hawaii"; Str "Alaska"]) ]
               (World [] []) (World [] []) _ _ _))))).
  - intros name col H. simpl in H.
    repeat (destruct H as [[= <- <-]|H]; [reflexivity|]). contradiction.
  - reflexivity.
Defined.
